(** * HBnB relation-consistency core: a shallow embedding

    The development follows the layout of the application:
    - [Datetime]: the part of Python's [datetime] the models rely on
      ([isoformat] / [fromisoformat]);
    - [Py]: Python values, dictionaries with string keys and exceptions;
    - the four models of [app/models] with [to_dict], [is_valid] and
      [BaseModel.update];
    - [app/persistence/repository.py]: the in-memory repository, the file
      repository's [dict_to_obj] and the SQLAlchemy repository;
    - the entity facades and the two relation managers of [app/services].

    Definitions come first; every lemma and theorem is in the second half. *)

From Stdlib Require Import String Ascii List ZArith NArith QArith Lia Bool.
From stdpp Require Import gmap strings list fin_maps.

Open Scope string_scope.
Open Scope list_scope.

(* ===================================================================== *)
(** ** Python's [datetime], as far as the models use it                   *)
(* ===================================================================== *)

Module Datetime.

(** A naive [datetime] object (no tzinfo), which is what [datetime.now()]
    and [datetime.utcnow()] give. *)
Record datetime := mk_datetime {
  year : N; month : N; day : N;
  hour : N; minute : N; second : N; microsecond : N
}.

Definition is_leap (y : N) : bool :=
  ((y mod 4 =? 0) && negb (y mod 100 =? 0) || (y mod 400 =? 0))%N.

Definition days_in_month (y m : N) : N :=
  (if m =? 2 then (if is_leap y then 29 else 28)
   else if (m =? 4) || (m =? 6) || (m =? 9) || (m =? 11) then 30
   else 31)%N.

(** The ranges every [datetime] object satisfies (MINYEAR = 1,
    MAXYEAR = 9999). *)
Definition in_range (d : datetime) : bool :=
  ((1 <=? year d) && (year d <=? 9999) &&
   (1 <=? month d) && (month d <=? 12) &&
   (1 <=? day d) && (day d <=? days_in_month (year d) (month d)) &&
   (hour d <=? 23) && (minute d <=? 59) && (second d <=? 59) &&
   (microsecond d <=? 999999))%N.

Definition digit_char (d : N) : ascii := ascii_of_N (48 + d).

(** ['%0{width}d' % n], most significant digit first, for
    [n < 10 ^ width] (the only way the formats below use it). *)
Fixpoint zfill (width : nat) (n : N) : list ascii :=
  match width with
  | O => []
  | S w => digit_char (n / 10 ^ N.of_nat w) :: zfill w (n mod 10 ^ N.of_nat w)
  end.

Definition chr (s : string) : list ascii := list_ascii_of_string s.

(** [datetime.isoformat()] with the default separator and
    [timespec='auto']: the fraction is printed only when the microsecond
    field is not zero. *)
Definition isoformat_chars (d : datetime) : list ascii :=
  zfill 4 (year d) ++ chr "-" ++ zfill 2 (month d) ++ chr "-" ++
  zfill 2 (day d) ++ chr "T" ++
  zfill 2 (hour d) ++ chr ":" ++ zfill 2 (minute d) ++ chr ":" ++
  zfill 2 (second d) ++
  (if (microsecond d =? 0)%N then [] else chr "." ++ zfill 6 (microsecond d)).

Definition isoformat (d : datetime) : string :=
  string_of_list_ascii (isoformat_chars d).

Definition digit_val (c : ascii) : option N :=
  let n := N_of_ascii c in
  if ((48 <=? n) && (n <=? 57))%N then Some (n - 48)%N else None.

Fixpoint read_digits (width : nat) (acc : N) (s : list ascii)
  : option (N * list ascii) :=
  match width with
  | O => Some (acc, s)
  | S w =>
      match s with
      | c :: s' =>
          match digit_val c with
          | Some d => read_digits w (acc * 10 + d)%N s'
          | None => None
          end
      | [] => None
      end
  end.

Definition expect (c : ascii) (s : list ascii) : option (list ascii) :=
  match s with
  | c' :: s' => if Ascii.eqb c c' then Some s' else None
  | [] => None
  end.

Definition read_fraction (s : list ascii) : option N :=
  match s with
  | [] => Some 0%N
  | _ =>
      s1 ← expect "."%char s;
      '(us, s2) ← read_digits 6 0 s1;
      match s2 with [] => Some us | _ => None end
  end.

(** [datetime.fromisoformat], restricted to the two shapes [isoformat]
    emits for a naive datetime: [YYYY-MM-DDTHH:MM:SS] and
    [YYYY-MM-DDTHH:MM:SS.ffffff].  [None] stands for the [ValueError]
    Python raises on a malformed string or an out-of-range field.  (The
    library also accepts dates without a time, other separators,
    millisecond fractions and UTC offsets; the application never feeds
    it such strings.) *)
Definition parse_chars (s : list ascii) : option datetime :=
  '(y, s) ← read_digits 4 0 s;
  s ← expect "-"%char s;
  '(m, s) ← read_digits 2 0 s;
  s ← expect "-"%char s;
  '(d, s) ← read_digits 2 0 s;
  s ← expect "T"%char s;
  '(hh, s) ← read_digits 2 0 s;
  s ← expect ":"%char s;
  '(mm, s) ← read_digits 2 0 s;
  s ← expect ":"%char s;
  '(ss, s) ← read_digits 2 0 s;
  us ← read_fraction s;
  let r := mk_datetime y m d hh mm ss us in
  if in_range r then Some r else None.

Definition fromisoformat (s : string) : option datetime :=
  parse_chars (list_ascii_of_string s).

End Datetime.

(* ===================================================================== *)
(** ** Python values, dictionaries and exceptions                         *)
(* ===================================================================== *)

Module Py.
Import Datetime.

(** A JSON number reaches the models as an [int] or as a [float]; the
    models tell them apart with [isinstance(x, float)].  A finite float is
    represented by the rational it denotes, so [<] and [>] are exact. *)
Inductive num := PyInt (z : Z) | PyFloat (q : Q).

Definition num_value (n : num) : Q :=
  match n with PyInt z => inject_Z z | PyFloat q => q end.

Definition isinstance_float (n : num) : bool :=
  match n with PyFloat _ => true | PyInt _ => false end.

Definition isinstance_int (n : num) : bool :=
  match n with PyInt _ => true | PyFloat _ => false end.

(** [a < b] and [a > b] on numbers. *)
Definition num_lt (a b : num) : bool :=
  negb (Qle_bool (num_value b) (num_value a)).
Definition num_gt (a b : num) : bool := num_lt b a.

Inductive pyval :=
| VNone
| VBool (b : bool)
| VStr (s : string)
| VNum (n : num)
| VList (l : list string)
| VDatetime (d : datetime).

(** [==] on the values above: numbers by value, a [bool] counting as the
    number 1 or 0, the rest structurally; other values of different kinds
    are different. *)
Definition bool_value (b : bool) : Q := inject_Z (if b then 1 else 0).

Definition py_eqb (a b : pyval) : bool :=
  match a, b with
  | VNone, VNone => true
  | VBool x, VBool y => Bool.eqb x y
  | VBool x, VNum y => Qeq_bool (bool_value x) (num_value y)
  | VNum x, VBool y => Qeq_bool (num_value x) (bool_value y)
  | VStr x, VStr y => String.eqb x y
  | VNum x, VNum y => Qeq_bool (num_value x) (num_value y)
  | VList x, VList y => bool_decide (x = y)
  | VDatetime x, VDatetime y =>
      ((year x =? year y) && (month x =? month y) && (day x =? day y) &&
       (hour x =? hour y) && (minute x =? minute y) &&
       (second x =? second y) && (microsecond x =? microsecond y))%N
  | _, _ => false
  end.

(** A [dict] with string keys, in insertion order. *)
Definition dict := list (string * pyval).

Fixpoint dict_get (key : string) (d : dict) : option pyval :=
  match d with
  | [] => None
  | (k, v) :: d' => if String.eqb key k then Some v else dict_get key d'
  end.

(** [d[key] = v]: an existing key keeps its position. *)
Fixpoint dict_set (key : string) (v : pyval) (d : dict) : dict :=
  match d with
  | [] => [(key, v)]
  | (k, v') :: d' =>
      if String.eqb key k then (k, v) :: d' else (k, v') :: dict_set key v d'
  end.

(** [key in d] *)
Definition dict_contains (key : string) (d : dict) : bool :=
  match dict_get key d with Some _ => true | None => false end.

(** [x in l] on a list of strings, and [s.count]-free membership. *)
Definition str_in_list (x : string) (l : list string) : bool :=
  existsb (String.eqb x) l.

(** [l.remove(x)]: drops the first occurrence (the callers test
    [x in l] before). *)
Fixpoint list_remove (x : string) (l : list string) : list string :=
  match l with
  | [] => []
  | y :: l' => if String.eqb x y then l' else y :: list_remove x l'
  end.

(** [[y for y in l if y != x]] *)
Definition list_without (x : string) (l : list string) : list string :=
  List.filter (fun y => negb (String.eqb y x)) l.

(** [needle in hay] on strings: substring containment. *)
Fixpoint str_contains (needle hay : string) : bool :=
  String.prefix needle hay ||
  match hay with
  | EmptyString => false
  | String _ hay' => str_contains needle hay'
  end.

(** A [str] is held as the bytes of its UTF-8 encoding.  [len] counts
    its characters: the bytes that do not continue a multi-byte
    character. *)
Definition is_continuation_byte (c : ascii) : bool :=
  let n := N_of_ascii c in ((128 <=? n) && (n <? 192))%N.

Fixpoint len (s : string) : nat :=
  match s with
  | EmptyString => 0
  | String c s' => if is_continuation_byte c then len s' else S (len s')
  end.

(** The characters [str.strip()] removes, those of [str.isspace]:
    U+0009 to U+000D, U+001C to U+0020, U+0085, U+00A0, U+1680, U+2000 to
    U+200A, U+2028, U+2029, U+202F, U+205F and U+3000, told by the one, two
    or three bytes of their encoding. *)
Definition is_space1 (a : N) : bool :=
  ((9 <=? a) && (a <=? 13) || (28 <=? a) && (a <=? 32))%N.
Definition is_space2 (a b : N) : bool :=
  ((a =? 194) && ((b =? 133) || (b =? 160)))%N.
Definition is_space3 (a b c : N) : bool :=
  ((a =? 225) && (b =? 154) && (c =? 128)
   || (a =? 226) && (b =? 128) &&
      ((128 <=? c) && (c <=? 138) || (c =? 168) || (c =? 169) || (c =? 175))
   || (a =? 226) && (b =? 129) && (c =? 159)
   || (a =? 227) && (b =? 128) && (c =? 128))%N.

(** The bytes left once the white space at the head is dropped.  With
    [backwards] the bytes are those of the text read from its end, so the
    bytes of a character come last byte first. *)
Fixpoint skip_spaces (backwards : bool) (l : list ascii) : list ascii :=
  match l with
  | x :: l1 =>
      if is_space1 (N_of_ascii x) then skip_spaces backwards l1
      else
        match l1 with
        | y :: l2 =>
            if (if backwards then is_space2 (N_of_ascii y) (N_of_ascii x)
                else is_space2 (N_of_ascii x) (N_of_ascii y))
            then skip_spaces backwards l2
            else
              match l2 with
              | z :: l3 =>
                  if (if backwards
                      then is_space3 (N_of_ascii z) (N_of_ascii y) (N_of_ascii x)
                      else is_space3 (N_of_ascii x) (N_of_ascii y) (N_of_ascii z))
                  then skip_spaces backwards l3
                  else l
              | [] => l
              end
        | [] => l
        end
  | [] => []
  end.

Definition lstrip (s : string) : string :=
  string_of_list_ascii (skip_spaces false (list_ascii_of_string s)).

Definition rstrip (s : string) : string :=
  string_of_list_ascii (rev (skip_spaces true (rev (list_ascii_of_string s)))).

(** [s.strip()] *)
Definition strip (s : string) : string := rstrip (lstrip s).

(** The exceptions the modelled code can raise.  [IllTyped k] marks the
    border of the typed records below: the value under key [k] does not
    have the Python type the model class documents for that attribute. *)
Inductive exn :=
| ValueError (msg : string)
| KeyError (key : string)
| TypeError (msg : string)
| AttributeError (name : string)
| UnboundLocalError (name : string)
| IllTyped (key : string)
| OutOfFuel.

Definition is_ValueError (e : exn) : bool :=
  match e with ValueError _ => true | _ => false end.

(** Typed reads [d[key]]. *)
Definition subscript (key : string) (d : dict) : exn + pyval :=
  match dict_get key d with Some v => inr v | None => inl (KeyError key) end.

Definition as_str (key : string) (d : dict) : exn + string :=
  match dict_get key d with
  | Some (VStr s) => inr s
  | Some _ => inl (IllTyped key)
  | None => inl (KeyError key)
  end.

Definition as_bool (key : string) (d : dict) : exn + bool :=
  match dict_get key d with
  | Some (VBool b) => inr b
  | Some _ => inl (IllTyped key)
  | None => inl (KeyError key)
  end.

Definition as_num (key : string) (d : dict) : exn + num :=
  match dict_get key d with
  | Some (VNum n) => inr n
  | Some _ => inl (IllTyped key)
  | None => inl (KeyError key)
  end.

Definition as_list (key : string) (d : dict) : exn + list string :=
  match dict_get key d with
  | Some (VList l) => inr l
  | Some _ => inl (IllTyped key)
  | None => inl (KeyError key)
  end.

Definition as_datetime (key : string) (d : dict) : exn + datetime :=
  match dict_get key d with
  | Some (VDatetime t) => inr t
  | Some _ => inl (IllTyped key)
  | None => inl (KeyError key)
  end.

(** [d[key]] and [d.get(key)] for a list-valued constructor argument
    that goes through the idiom [x if x is not None else []]. *)
Definition as_list_or_none (key : string) (d : dict) : exn + list string :=
  match dict_get key d with
  | Some (VList l) => inr l
  | Some VNone => inr []
  | Some _ => inl (IllTyped key)
  | None => inl (KeyError key)
  end.

Definition get_list_or_empty (key : string) (d : dict) : exn + list string :=
  match dict_get key d with
  | Some (VList l) => inr l
  | Some VNone | None => inr []
  | Some _ => inl (IllTyped key)
  end.

End Py.

(* ===================================================================== *)
(** ** app/models                                                         *)
(* ===================================================================== *)

Export Datetime Py.

(** Sequencing of computations that may raise. *)
Definition res_bind {A B : Type} (m : exn + A) (k : A → exn + B) : exn + B :=
  match m with inl e => inl e | inr a => k a end.

Notation "'let?' x ':=' m 'in' k" := (res_bind m (fun x => k))
  (at level 10, x name, m at level 100, k at level 200, only parsing).

(** [0 < len(s) < hi] and [0 < len(s) <= hi] *)
Definition len_between (s : string) (hi : nat) : bool :=
  (0 <? len s)%nat && (len s <? hi)%nat.
Definition len_upto (s : string) (hi : nat) : bool :=
  (0 <? len s)%nat && (len s <=? hi)%nat.

(** What [BaseModel] gives every model class: the three common columns,
    attribute access by name (as [BaseModel.update] and
    [get_by_attribute] use it) and [to_dict].  [hasattr] answers for the
    data attributes of the instance. *)
Class BaseModel (T : Type) := {
  get_id : T → string;
  set_created_at : datetime → T → T;
  set_updated_at : datetime → T → T;
  hasattr : T → string → bool;
  setattr : string → pyval → T → option T;
  getattr : string → T → option pyval;
  to_dict : T → dict
}.

Module User.

Record t := mk {
  id : string; created_at : datetime; updated_at : datetime;
  first_name : string; last_name : string; email : string;
  password : string; is_admin : bool;
  places : list string
}.

Definition with_places (l : list string) (u : t) : t :=
  mk (id u) (created_at u) (updated_at u) (first_name u) (last_name u)
     (email u) (password u) (is_admin u) l.

Definition with_created_at (d : datetime) (u : t) : t :=
  mk (id u) d (updated_at u) (first_name u) (last_name u)
     (email u) (password u) (is_admin u) (places u).

Definition with_updated_at (d : datetime) (u : t) : t :=
  mk (id u) (created_at u) d (first_name u) (last_name u)
     (email u) (password u) (is_admin u) (places u).

Definition attributes : list string :=
  ["id"; "created_at"; "updated_at"; "first_name"; "last_name"; "email";
   "password"; "is_admin"; "places"].

Definition setattr (key : string) (v : pyval) (u : t) : option t :=
  match key, v with
  | "first_name", VStr s =>
      Some (mk (id u) (created_at u) (updated_at u) s (last_name u)
               (email u) (password u) (is_admin u) (places u))
  | "last_name", VStr s =>
      Some (mk (id u) (created_at u) (updated_at u) (first_name u) s
               (email u) (password u) (is_admin u) (places u))
  | "email", VStr s =>
      Some (mk (id u) (created_at u) (updated_at u) (first_name u)
               (last_name u) s (password u) (is_admin u) (places u))
  | "password", VStr s =>
      Some (mk (id u) (created_at u) (updated_at u) (first_name u)
               (last_name u) (email u) s (is_admin u) (places u))
  | "is_admin", VBool b =>
      Some (mk (id u) (created_at u) (updated_at u) (first_name u)
               (last_name u) (email u) (password u) b (places u))
  | "places", VList l => Some (with_places l u)
  | _, _ => None
  end.

Definition getattr (key : string) (u : t) : option pyval :=
  match key with
  | "id" => Some (VStr (id u))
  | "created_at" => Some (VDatetime (created_at u))
  | "updated_at" => Some (VDatetime (updated_at u))
  | "first_name" => Some (VStr (first_name u))
  | "last_name" => Some (VStr (last_name u))
  | "email" => Some (VStr (email u))
  | "password" => Some (VStr (password u))
  | "is_admin" => Some (VBool (is_admin u))
  | "places" => Some (VList (places u))
  | _ => None
  end.

Definition to_dict (self : t) : dict :=
  [ ("type", VStr "user");
    ("id", VStr (id self));
    ("first_name", VStr (first_name self));
    ("last_name", VStr (last_name self));
    ("email", VStr (email self));
    ("password", VStr (password self));
    ("is_admin", VBool (is_admin self));
    ("places", VList (places self));
    ("created_at", VStr (isoformat (created_at self)));
    ("updated_at", VStr (isoformat (updated_at self))) ].

End User.

#[global] Instance User_BaseModel : BaseModel User.t := {
  get_id := User.id;
  set_created_at := User.with_created_at;
  set_updated_at := User.with_updated_at;
  hasattr := fun _ key => str_in_list key User.attributes;
  setattr := User.setattr;
  getattr := User.getattr;
  to_dict := User.to_dict
}.

Module Place.

Record t := mk {
  id : string; created_at : datetime; updated_at : datetime;
  title : string; description : string;
  price : num; latitude : num; longitude : num;
  owner_first_name : string; owner_id : string;
  reviews : list string; amenities : list string
}.

Definition with_created_at (d : datetime) (p : t) : t :=
  mk (id p) d (updated_at p) (title p) (description p) (price p)
     (latitude p) (longitude p) (owner_first_name p) (owner_id p)
     (reviews p) (amenities p).

Definition with_updated_at (d : datetime) (p : t) : t :=
  mk (id p) (created_at p) d (title p) (description p) (price p)
     (latitude p) (longitude p) (owner_first_name p) (owner_id p)
     (reviews p) (amenities p).

Definition with_reviews (l : list string) (p : t) : t :=
  mk (id p) (created_at p) (updated_at p) (title p) (description p)
     (price p) (latitude p) (longitude p) (owner_first_name p)
     (owner_id p) l (amenities p).

Definition with_amenities (l : list string) (p : t) : t :=
  mk (id p) (created_at p) (updated_at p) (title p) (description p)
     (price p) (latitude p) (longitude p) (owner_first_name p)
     (owner_id p) (reviews p) l.

Definition attributes : list string :=
  ["id"; "created_at"; "updated_at"; "title"; "description"; "price";
   "latitude"; "longitude"; "owner_first_name"; "owner_id"; "reviews";
   "amenities"].

Definition setattr (key : string) (v : pyval) (p : t) : option t :=
  match key, v with
  | "title", VStr s =>
      Some (mk (id p) (created_at p) (updated_at p) s (description p)
               (price p) (latitude p) (longitude p) (owner_first_name p)
               (owner_id p) (reviews p) (amenities p))
  | "description", VStr s =>
      Some (mk (id p) (created_at p) (updated_at p) (title p) s
               (price p) (latitude p) (longitude p) (owner_first_name p)
               (owner_id p) (reviews p) (amenities p))
  | "price", VNum n =>
      Some (mk (id p) (created_at p) (updated_at p) (title p)
               (description p) n (latitude p) (longitude p)
               (owner_first_name p) (owner_id p) (reviews p) (amenities p))
  | "latitude", VNum n =>
      Some (mk (id p) (created_at p) (updated_at p) (title p)
               (description p) (price p) n (longitude p)
               (owner_first_name p) (owner_id p) (reviews p) (amenities p))
  | "longitude", VNum n =>
      Some (mk (id p) (created_at p) (updated_at p) (title p)
               (description p) (price p) (latitude p) n
               (owner_first_name p) (owner_id p) (reviews p) (amenities p))
  | "owner_first_name", VStr s =>
      Some (mk (id p) (created_at p) (updated_at p) (title p)
               (description p) (price p) (latitude p) (longitude p) s
               (owner_id p) (reviews p) (amenities p))
  | "owner_id", VStr s =>
      Some (mk (id p) (created_at p) (updated_at p) (title p)
               (description p) (price p) (latitude p) (longitude p)
               (owner_first_name p) s (reviews p) (amenities p))
  | "reviews", VList l => Some (with_reviews l p)
  | "amenities", VList l => Some (with_amenities l p)
  | _, _ => None
  end.

Definition getattr (key : string) (p : t) : option pyval :=
  match key with
  | "id" => Some (VStr (id p))
  | "created_at" => Some (VDatetime (created_at p))
  | "updated_at" => Some (VDatetime (updated_at p))
  | "title" => Some (VStr (title p))
  | "description" => Some (VStr (description p))
  | "price" => Some (VNum (price p))
  | "latitude" => Some (VNum (latitude p))
  | "longitude" => Some (VNum (longitude p))
  | "owner_first_name" => Some (VStr (owner_first_name p))
  | "owner_id" => Some (VStr (owner_id p))
  | "reviews" => Some (VList (reviews p))
  | "amenities" => Some (VList (amenities p))
  | _ => None
  end.

(** [Place.is_valid]: [inr true] or the [ValueError] it raises.  The
    [TypeError]s raised inside are caught and re-raised as [ValueError]
    with the same text; so are the [ValueError]s.  The first check
    (every text attribute is a [str]) holds by typing. *)
Definition is_valid (self : t) : exn + bool :=
  if num_lt (price self) (PyInt 0) then
    inl (ValueError "price must be a positive value")
  else if negb (len_between (title self) 100) then
    inl (ValueError "title must not be empty and be less than 100 characters.")
  else if negb (len_between (description self) 500) then
    inl (ValueError "Description must not be empty and be less than 500 characters.")
  else if negb (len_between (owner_first_name self) 100) then
    inl (ValueError "owner_first_name must not be empty and be less than 100 characters.")
  else if negb (len_between (owner_id self) 100) then
    inl (ValueError "owner_id must not be empty and be less than 100 characters.")
  else if negb (forallb isinstance_float
                  [price self; latitude self; longitude self]) then
    inl (ValueError "price, latitude, and longitude must be floats (float).")
  else if num_gt (latitude self) (PyInt 90)
          || num_lt (latitude self) (PyInt (-90)) then
    inl (ValueError "Must be within the range of -90.0 to 90.0")
  else if num_gt (longitude self) (PyInt 180)
          || num_lt (latitude self) (PyInt (-180)) then
    inl (ValueError "Must be within the range of -90.0 to 90.0")
  else inr true.

Definition to_dict (self : t) : dict :=
  [ ("type", VStr "place");
    ("id", VStr (id self));
    ("title", VStr (title self));
    ("description", VStr (description self));
    ("price", VNum (price self));
    ("latitude", VNum (latitude self));
    ("longitude", VNum (longitude self));
    ("owner_first_name", VStr (owner_first_name self));
    ("owner_id", VStr (owner_id self));
    ("reviews", VList (reviews self));
    ("amenities", VList (amenities self));
    ("created_at", VStr (isoformat (created_at self)));
    ("updated_at", VStr (isoformat (updated_at self))) ].

End Place.

#[global] Instance Place_BaseModel : BaseModel Place.t := {
  get_id := Place.id;
  set_created_at := Place.with_created_at;
  set_updated_at := Place.with_updated_at;
  hasattr := fun _ key => str_in_list key Place.attributes;
  setattr := Place.setattr;
  getattr := Place.getattr;
  to_dict := Place.to_dict
}.

Module Amenity.

Record t := mk {
  id : string; created_at : datetime; updated_at : datetime;
  name : string
}.

Definition with_created_at (d : datetime) (a : t) : t :=
  mk (id a) d (updated_at a) (name a).
Definition with_updated_at (d : datetime) (a : t) : t :=
  mk (id a) (created_at a) d (name a).

Definition attributes : list string :=
  ["id"; "created_at"; "updated_at"; "name"].

Definition setattr (key : string) (v : pyval) (a : t) : option t :=
  match key, v with
  | "name", VStr s => Some (mk (id a) (created_at a) (updated_at a) s)
  | _, _ => None
  end.

Definition getattr (key : string) (a : t) : option pyval :=
  match key with
  | "id" => Some (VStr (id a))
  | "created_at" => Some (VDatetime (created_at a))
  | "updated_at" => Some (VDatetime (updated_at a))
  | "name" => Some (VStr (name a))
  | _ => None
  end.

(** [Amenity.is_valid]; the [isinstance(self.name, str)] check holds by
    typing. *)
Definition is_valid (self : t) : exn + bool :=
  let stripped_name := strip (name self) in
  if negb (len_between stripped_name 50) then
    inl (ValueError "Name must not be empty and less than 50 characters.")
  else inr true.

Definition to_dict (self : t) : dict :=
  [ ("type", VStr "amenity");
    ("id", VStr (id self));
    ("name", VStr (name self));
    ("created_at", VStr (isoformat (created_at self)));
    ("updated_at", VStr (isoformat (updated_at self))) ].

End Amenity.

#[global] Instance Amenity_BaseModel : BaseModel Amenity.t := {
  get_id := Amenity.id;
  set_created_at := Amenity.with_created_at;
  set_updated_at := Amenity.with_updated_at;
  hasattr := fun _ key => str_in_list key Amenity.attributes;
  setattr := Amenity.setattr;
  getattr := Amenity.getattr;
  to_dict := Amenity.to_dict
}.

Module Review.

(** [type_attr] is the instance attribute [type] that
    [get_all_reviews_from_user] attaches to the reviews it returns; a
    fresh or reloaded review has none. *)
Record t := mk {
  id : string; created_at : datetime; updated_at : datetime;
  text : string; rating : num;
  place_id : string; place_name : string;
  user_id : string; user_first_name : string;
  type_attr : option string
}.

Definition with_created_at (d : datetime) (r : t) : t :=
  mk (id r) d (updated_at r) (text r) (rating r) (place_id r)
     (place_name r) (user_id r) (user_first_name r) (type_attr r).
Definition with_updated_at (d : datetime) (r : t) : t :=
  mk (id r) (created_at r) d (text r) (rating r) (place_id r)
     (place_name r) (user_id r) (user_first_name r) (type_attr r).
Definition with_type (s : string) (r : t) : t :=
  mk (id r) (created_at r) (updated_at r) (text r) (rating r) (place_id r)
     (place_name r) (user_id r) (user_first_name r) (Some s).

Definition attributes : list string :=
  ["id"; "created_at"; "updated_at"; "text"; "rating"; "place_id";
   "place_name"; "user_id"; "user_first_name"].

Definition hasattr (r : t) (key : string) : bool :=
  str_in_list key attributes ||
  (String.eqb key "type" && match type_attr r with Some _ => true | None => false end).

Definition setattr (key : string) (v : pyval) (r : t) : option t :=
  match key, v with
  | "text", VStr s =>
      Some (mk (id r) (created_at r) (updated_at r) s (rating r)
               (place_id r) (place_name r) (user_id r) (user_first_name r)
               (type_attr r))
  | "rating", VNum n =>
      Some (mk (id r) (created_at r) (updated_at r) (text r) n
               (place_id r) (place_name r) (user_id r) (user_first_name r)
               (type_attr r))
  | "place_id", VStr s =>
      Some (mk (id r) (created_at r) (updated_at r) (text r) (rating r)
               s (place_name r) (user_id r) (user_first_name r)
               (type_attr r))
  | "place_name", VStr s =>
      Some (mk (id r) (created_at r) (updated_at r) (text r) (rating r)
               (place_id r) s (user_id r) (user_first_name r)
               (type_attr r))
  | "user_id", VStr s =>
      Some (mk (id r) (created_at r) (updated_at r) (text r) (rating r)
               (place_id r) (place_name r) s (user_first_name r)
               (type_attr r))
  | "user_first_name", VStr s =>
      Some (mk (id r) (created_at r) (updated_at r) (text r) (rating r)
               (place_id r) (place_name r) (user_id r) s (type_attr r))
  | "type", VStr s => Some (with_type s r)
  | _, _ => None
  end.

Definition getattr (key : string) (r : t) : option pyval :=
  match key with
  | "id" => Some (VStr (id r))
  | "created_at" => Some (VDatetime (created_at r))
  | "updated_at" => Some (VDatetime (updated_at r))
  | "text" => Some (VStr (text r))
  | "rating" => Some (VNum (rating r))
  | "place_id" => Some (VStr (place_id r))
  | "place_name" => Some (VStr (place_name r))
  | "user_id" => Some (VStr (user_id r))
  | "user_first_name" => Some (VStr (user_first_name r))
  | "type" => VStr <$> type_attr r
  | _ => None
  end.

Definition to_dict (self : t) : dict :=
  [ ("type", VStr "review");
    ("id", VStr (id self));
    ("text", VStr (text self));
    ("rating", VNum (rating self));
    ("place_id", VStr (place_id self));
    ("place_name", VStr (place_name self));
    ("user_id", VStr (user_id self));
    ("user_first_name", VStr (user_first_name self));
    ("created_at", VStr (isoformat (created_at self)));
    ("updated_at", VStr (isoformat (updated_at self))) ].

(** [Review.is_valid]; the check that the five text attributes are [str]
    holds by typing. *)
Definition is_valid (self : t) : exn + bool :=
  if negb (isinstance_int (rating self)) then
    inl (ValueError "rating must be an integer (int).")
  else if num_lt (rating self) (PyInt 1) || num_gt (rating self) (PyInt 5) then
    inl (ValueError "rating must be between 1 and 5.")
  else if negb (len_upto (text self) 1024) then
    inl (ValueError "text must not be empty and should be less than 50 characters.")
  else if negb (len_upto (place_name self) 50) then
    inl (ValueError "place_name must not be empty and should be less than 50 characters.")
  else if negb (len_upto (place_id self) 50) then
    inl (ValueError "place_id must not be empty and should be less than 50 characters.")
  else if negb (len_upto (user_id self) 50) then
    inl (ValueError "user_id must not be empty and should be less than 50 characters.")
  else if negb (len_upto (user_first_name self) 50) then
    inl (ValueError "user_first_name must not be empty and should be less than 50 characters.")
  else inr true.

End Review.

#[global] Instance Review_BaseModel : BaseModel Review.t := {
  get_id := Review.id;
  set_created_at := Review.with_created_at;
  set_updated_at := Review.with_updated_at;
  hasattr := Review.hasattr;
  setattr := Review.setattr;
  getattr := Review.getattr;
  to_dict := Review.to_dict
}.

(** *** [BaseModel.update] and [BaseModel.save] *)

Section BaseModelMethods.
Context {T : Type} `{BaseModel T}.

(** [save(repo_type=None)]: the branch of the in-memory and file
    repositories.  [now] is the value of [datetime.utcnow()];
    [created_at] is never [None] here. *)
Definition save (now : datetime) (self : T) : T := set_updated_at now self.

(** One round of the loop of [update]. *)
Definition update_item (key : string) (value : pyval) (self : T) : exn + T :=
  if hasattr self key && negb (str_in_list key ["id"; "created_at"; "updated_at"]) then
    match setattr key value self with
    | Some self' => inr self'
    | None => inl (IllTyped key)
    end
  else if str_in_list key ["created_at"; "updated_at"] then
    match value with
    | VStr s =>
        match fromisoformat s with
        | Some d =>
            inr (if String.eqb key "created_at" then set_created_at d self
                 else set_updated_at d self)
        | None => inl (ValueError ("Invalid isoformat string: " +:+ s))
        end
    | _ => inr self
    end
  else inr self.

(** The loop over [data.items()].  An exception leaves the attributes
    already assigned in place: the object is returned next to it. *)
Fixpoint update_items (data : dict) (self : T) : option exn * T :=
  match data with
  | [] => (None, self)
  | (key, value) :: data' =>
      match update_item key value self with
      | inr self' => update_items data' self'
      | inl e => (Some e, self)
      end
  end.

End BaseModelMethods.

(* ===================================================================== *)
(** ** The process state and the monad of the service layer               *)
(* ===================================================================== *)

(** The sources of identifiers and of time.  The [n]-th call of
    [uuid.uuid4()], [datetime.now()] and [datetime.utcnow()] returns the
    [n]-th value of the corresponding stream. *)
Record Env := {
  uuid4 : nat → string;
  now : nat → datetime;
  utcnow : nat → datetime
}.

(** One container per entity type, keyed by identifier: the [_storage]
    dictionaries of the in-memory and file repositories, or the four tables
    of the database (keyed by primary key).  The objects held are the live
    Python objects: mutating an object obtained from [get] is an update of
    the container at its key. *)
Record World := {
  user_repo : gmap string User.t;
  place_repo : gmap string Place.t;
  amenity_repo : gmap string Amenity.t;
  review_repo : gmap string Review.t;
  uuid_calls : nat;
  clock_calls : nat
}.

Definition M (A : Type) : Type := Env → World → (exn + A) * World.

Definition ret {A : Type} (a : A) : M A := fun _ w => (inr a, w).

Definition raise {A : Type} (e : exn) : M A := fun _ w => (inl e, w).

Definition bind {A B : Type} (m : M A) (k : A → M B) : M B :=
  fun env w =>
    match m env w with
    | (inr a, w') => k a env w'
    | (inl e, w') => (inl e, w')
    end.

Notation "'let!' x ':=' m 'in' k" := (bind m (fun x => k))
  (at level 10, x name, m at level 100, k at level 200, only parsing).
Notation "m ';;' k" := (bind m (fun _ => k))
  (at level 100, k at level 200, right associativity, only parsing).

Definition lift {A : Type} (r : exn + A) : M A := fun _ w => (r, w).

(** [try: body except ValueError as e: handler(e)] *)
Definition try_except_ValueError {A : Type} (body : M A) (handler : string → M A) : M A :=
  fun env w =>
    match body env w with
    | (inl (ValueError msg), w') => handler msg env w'
    | r => r
    end.

Definition with_uuid_calls (n : nat) (w : World) : World :=
  Build_World (user_repo w) (place_repo w) (amenity_repo w) (review_repo w)
              n (clock_calls w).
Definition with_clock_calls (n : nat) (w : World) : World :=
  Build_World (user_repo w) (place_repo w) (amenity_repo w) (review_repo w)
              (uuid_calls w) n.

Definition uuid_uuid4 : M string :=
  fun env w => (inr (uuid4 env (uuid_calls w)), with_uuid_calls (S (uuid_calls w)) w).
Definition datetime_now : M datetime :=
  fun env w => (inr (now env (clock_calls w)), with_clock_calls (S (clock_calls w)) w).
Definition datetime_utcnow : M datetime :=
  fun env w => (inr (utcnow env (clock_calls w)), with_clock_calls (S (clock_calls w)) w).

(** [BaseModel.__init__]: a fresh identifier and the two timestamps. *)
Definition BaseModel_init : M (string * datetime * datetime) :=
  let! i := uuid_uuid4 in
  let! c := datetime_now in
  let! u := datetime_now in
  ret (i, c, u).

(* ===================================================================== *)
(** ** app/persistence/repository.py                                      *)
(* ===================================================================== *)

(** Where a repository keeps its objects in the process state. *)
Record Table (T : Type) := {
  rows : World → gmap string T;
  set_rows : gmap string T → World → World
}.
Arguments rows {T}.
Arguments set_rows {T}.

Definition users : Table User.t :=
  {| rows := user_repo;
     set_rows := fun m w => Build_World m (place_repo w) (amenity_repo w)
                              (review_repo w) (uuid_calls w) (clock_calls w) |}.
Definition places : Table Place.t :=
  {| rows := place_repo;
     set_rows := fun m w => Build_World (user_repo w) m (amenity_repo w)
                              (review_repo w) (uuid_calls w) (clock_calls w) |}.
Definition amenities : Table Amenity.t :=
  {| rows := amenity_repo;
     set_rows := fun m w => Build_World (user_repo w) (place_repo w) m
                              (review_repo w) (uuid_calls w) (clock_calls w) |}.
Definition reviews : Table Review.t :=
  {| rows := review_repo;
     set_rows := fun m w => Build_World (user_repo w) (place_repo w)
                              (amenity_repo w) m (uuid_calls w) (clock_calls w) |}.

(** Assignment to (or in-place mutation of) the object held at [key]. *)
Definition store_obj {T : Type} (tbl : Table T) (key : string) (obj : T) : M unit :=
  fun _ w => (inr tt, set_rows tbl (<[key := obj]> (rows tbl w)) w).

(** [obj.update(data)] for the object held at [key] ([BaseModel.update]
    with [repo_type=None]). *)
Definition BaseModel_update {T : Type} `{BaseModel T}
    (tbl : Table T) (key : string) (obj : T) (data : dict) : M unit :=
  match update_items data obj with
  | (Some e, obj') => store_obj tbl key obj' ;; raise e
  | (None, obj') =>
      let! t := datetime_utcnow in
      store_obj tbl key (save t obj')
  end.

(** The state, now, of the object a local variable refers to: the object
    was obtained from [key] and is still held there ([obj] is what the
    variable last showed). *)
Definition current {T : Type} (tbl : Table T) (key : string) (obj : T) : M T :=
  fun _ w => (inr (match rows tbl w !! key with Some o => o | None => obj end), w).

Inductive repo_class := InMemory | InFile | SQLAlchemy.

(** The abstract class [Repository].  [table_of] tells where the objects
    a repository hands out live, which is what in-place mutation of such
    an object needs. *)
Record Repository (T : Type) := {
  class_of : repo_class;
  table_of : Table T;
  add : T → M unit;
  get : string → M (option T);
  get_all : M (list T);
  update : string → dict → M unit;
  delete : string → M unit;
  get_by_attribute : string → pyval → M (list T)
}.
Arguments class_of {T}.
Arguments table_of {T}.
Arguments add {T}.
Arguments get {T}.
Arguments get_all {T}.
Arguments update {T}.
Arguments delete {T}.
Arguments get_by_attribute {T}.

(** [[obj for obj in objs if getattr(obj, attr_name) == attr_value]] *)
Fixpoint select_by_attribute {T : Type} `{BaseModel T}
    (attr_name : string) (attr_value : pyval) (objs : list T) : exn + list T :=
  match objs with
  | [] => inr []
  | obj :: objs' =>
      match getattr attr_name obj with
      | None => inl (AttributeError attr_name)
      | Some v =>
          let? rest := select_by_attribute attr_name attr_value objs' in
          inr (if py_eqb v attr_value then obj :: rest else rest)
      end
  end.

Module InMemoryRepository.
Section Methods.
Context {T : Type} `{BaseModel T} (tbl : Table T).

Definition add (obj : T) : M unit := store_obj tbl (get_id obj) obj.

Definition get (obj_id : string) : M (option T) :=
  fun _ w => (inr (rows tbl w !! obj_id), w).

(** [list(self._storage.values())] lists the objects in the order of
    their insertion; the container here records which objects are held and
    not when they came, and [get_all] lists them in the enumeration order
    of the map.  The callers test the result for emptiness or select from
    it, and the properties proved of them read it up to rearrangement. *)
Definition get_all : M (list T) :=
  fun _ w => (inr ((map_to_list (rows tbl w)).*2), w).

Definition update (obj_id : string) (data : dict) : M unit :=
  let! obj := get obj_id in
  match obj with
  | Some obj => BaseModel_update tbl obj_id obj data
  | None => ret tt
  end.

Definition delete (obj_id : string) : M unit :=
  fun _ w =>
    match rows tbl w !! obj_id with
    | Some _ => (inr tt, set_rows tbl (base.delete obj_id (rows tbl w)) w)
    | None => (inr tt, w)
    end.

Definition get_by_attribute (attr_name : string) (attr_value : pyval) : M (list T) :=
  let! objs := get_all in
  lift (select_by_attribute attr_name attr_value objs).

Definition repository (c : repo_class) : Repository T :=
  Build_Repository T c tbl add get get_all update delete get_by_attribute.
End Methods.
End InMemoryRepository.

(** [InFileRepository] inherits the methods above and calls
    [save_to_file] after each change; the file it writes,
    [{obj_id: obj.to_dict()}], is a function of the container and is not
    tracked separately.  Its own logic is [dict_to_obj], used when the file
    is loaded. *)
Module InFileRepository.

Inductive obj :=
| AUser (u : User.t)
| APlace (p : Place.t)
| AReview (r : Review.t)
| AnAmenity (a : Amenity.t).

Definition obj_to_dict (o : obj) : dict :=
  match o with
  | AUser u => to_dict u
  | APlace p => to_dict p
  | AReview r => to_dict r
  | AnAmenity a => to_dict a
  end.

(** [obj_data[key] = datetime.fromisoformat(obj_data[key])] when the key
    is present. *)
Definition parse_timestamp (key : string) (obj_data : dict) : exn + dict :=
  match dict_get key obj_data with
  | None => inr obj_data
  | Some (VStr s) =>
      match fromisoformat s with
      | Some d => inr (dict_set key (VDatetime d) obj_data)
      | None => inl (ValueError ("Invalid isoformat string: " +:+ s))
      end
  | Some _ => inl (TypeError "fromisoformat: argument must be str")
  end.

Definition show_type (v : option pyval) : string :=
  match v with
  | Some (VStr s) => s
  | Some (VBool true) => "True"
  | Some (VBool false) => "False"
  | Some VNone | None => "None"
  | Some _ => "<object>"
  end.

(** The identifier and timestamps the constructors draw are overwritten
    at once from [obj_data], so the draws leave no trace in the result. *)
Definition dict_to_obj (obj_data : dict) : exn + obj :=
  let? obj_data := parse_timestamp "created_at" obj_data in
  let? obj_data := parse_timestamp "updated_at" obj_data in
  let obj_type := dict_get "type" obj_data in
  match obj_type with
  | Some (VStr "user") =>
      let? first_name := as_str "first_name" obj_data in
      let? last_name := as_str "last_name" obj_data in
      let? email := as_str "email" obj_data in
      let? password := as_str "password" obj_data in
      let? is_admin := as_bool "is_admin" obj_data in
      let? id := as_str "id" obj_data in
      let? created_at := as_datetime "created_at" obj_data in
      let? updated_at := as_datetime "updated_at" obj_data in
      let? places := as_list "places" obj_data in
      inr (AUser (User.mk id created_at updated_at first_name last_name
                          email password is_admin places))
  | Some (VStr "place") =>
      let? title := as_str "title" obj_data in
      let? description := as_str "description" obj_data in
      let? price := as_num "price" obj_data in
      let? latitude := as_num "latitude" obj_data in
      let? longitude := as_num "longitude" obj_data in
      let? owner_first_name := as_str "owner_first_name" obj_data in
      let? owner_id := as_str "owner_id" obj_data in
      let? amenities := as_list_or_none "amenities" obj_data in
      let? reviews := as_list_or_none "reviews" obj_data in
      let? id := as_str "id" obj_data in
      let? created_at := as_datetime "created_at" obj_data in
      let? updated_at := as_datetime "updated_at" obj_data in
      inr (APlace (Place.mk id created_at updated_at title description
                            price latitude longitude owner_first_name
                            owner_id reviews amenities))
  | Some (VStr "review") =>
      let? text := as_str "text" obj_data in
      let? rating := as_num "rating" obj_data in
      let? place_id := as_str "place_id" obj_data in
      let? place_name := as_str "place_name" obj_data in
      let? user_id := as_str "user_id" obj_data in
      let? user_first_name := as_str "user_first_name" obj_data in
      let? id := as_str "id" obj_data in
      let? created_at := as_datetime "created_at" obj_data in
      let? updated_at := as_datetime "updated_at" obj_data in
      inr (AReview (Review.mk id created_at updated_at text rating place_id
                              place_name user_id user_first_name None))
  | Some (VStr "amenity") =>
      let? name := as_str "name" obj_data in
      let? id := as_str "id" obj_data in
      let? created_at := as_datetime "created_at" obj_data in
      let? updated_at := as_datetime "updated_at" obj_data in
      inr (AnAmenity (Amenity.mk id created_at updated_at name))
  | _ => inl (ValueError ("Unknown object type: " +:+ show_type obj_type))
  end.

(** Both timestamps of an object are datetime objects (their fields are
    in the ranges of the [datetime] type). *)
Definition timestamps_ok (o : obj) : bool :=
  match o with
  | AUser u => in_range (User.created_at u) && in_range (User.updated_at u)
  | APlace p => in_range (Place.created_at p) && in_range (Place.updated_at p)
  | AReview r => in_range (Review.created_at r) && in_range (Review.updated_at r)
  | AnAmenity a => in_range (Amenity.created_at a) && in_range (Amenity.updated_at a)
  end.

(** What [dict_to_obj] rebuilds from the record of [o]: [o] itself, but
    for the attribute [type] a review may have been given, which is not
    exported. *)
Definition reloaded (o : obj) : obj :=
  match o with
  | AReview r =>
      AReview (Review.mk (Review.id r) (Review.created_at r) (Review.updated_at r)
                         (Review.text r) (Review.rating r) (Review.place_id r)
                         (Review.place_name r) (Review.user_id r)
                         (Review.user_first_name r) None)
  | _ => o
  end.

End InFileRepository.

Module SQLAlchemyRepository.
Section Methods.
Context {T : Type} `{BaseModel T} (tbl : Table T).

(** [db.session.add(obj); db.session.commit()] *)
Definition add (obj : T) : M unit := store_obj tbl (get_id obj) obj.

(** [self.model.query.get(obj_id)] *)
Definition get (obj_id : string) : M (option T) :=
  fun _ w => (inr (rows tbl w !! obj_id), w).

Definition get_all : M (list T) :=
  fun _ w => (inr ((map_to_list (rows tbl w)).*2), w).

(** [setattr(obj, key, value)] for every item, then [obj.save()] and
    the commit.  Keys that are not data attributes of the class are
    beyond the typed records ([IllTyped]). *)
Fixpoint setattr_items (data : dict) (obj : T) : option exn * T :=
  match data with
  | [] => (None, obj)
  | (key, value) :: data' =>
      match setattr key value obj with
      | Some obj' => setattr_items data' obj'
      | None => (Some (IllTyped key), obj)
      end
  end.

Definition update (obj_id : string) (data : dict) : M unit :=
  let! obj := get obj_id in
  match obj with
  | Some obj =>
      match setattr_items data obj with
      | (Some e, obj') => store_obj tbl obj_id obj' ;; raise e
      | (None, obj') =>
          let! t := datetime_utcnow in
          store_obj tbl obj_id (save t obj')
      end
  | None => ret tt
  end.

Definition delete (obj_id : string) : M unit :=
  fun _ w =>
    match rows tbl w !! obj_id with
    | Some _ => (inr tt, set_rows tbl (base.delete obj_id (rows tbl w)) w)
    | None => (inr tt, w)
    end.

(** [self.model.query.filter_by] on the attribute, then [all].  The
    database compares texts character by character, as SQLite (the
    database of the development configuration) does. *)
Definition get_by_attribute (attr_name : string) (attr_value : pyval) : M (list T) :=
  let! objs := get_all in
  lift (select_by_attribute attr_name attr_value objs).

Definition repository : Repository T :=
  Build_Repository T SQLAlchemy tbl add get get_all update delete get_by_attribute.

(** [obj.attr = value; db.session.add(obj); db.session.commit()] for a
    tracked object: the row is rewritten and, as the column
    [updated_at] is declared with [onupdate=datetime.utcnow], stamped. *)
Definition assign_and_commit (key : string) (obj : T) : M unit :=
  let! t := datetime_utcnow in
  store_obj tbl key (set_updated_at t obj).
End Methods.
End SQLAlchemyRepository.

(* ===================================================================== *)
(** ** app/services: the entity facades                                   *)
(* ===================================================================== *)

Module PlaceFacade.

Record t := { place_repo : Repository Place.t }.

Definition create_place (self : t) (place_data : dict) : M dict :=
  let! title := lift (as_str "title" place_data) in
  let! description := lift (as_str "description" place_data) in
  let! price := lift (as_num "price" place_data) in
  let! latitude := lift (as_num "latitude" place_data) in
  let! longitude := lift (as_num "longitude" place_data) in
  let! owner_first_name := lift (as_str "owner_first_name" place_data) in
  let! owner_id := lift (as_str "owner_id" place_data) in
  let! amenities := lift (get_list_or_empty "amenities" place_data) in
  let! reviews := lift (get_list_or_empty "reviews" place_data) in
  let! b := BaseModel_init in
  let place := Place.mk b.1.1 b.1.2 b.2 title description price latitude
                        longitude owner_first_name owner_id reviews amenities in
  let! existing_place :=
    get_by_attribute (place_repo self) "title" (VStr (Place.title place)) in
  match existing_place with
  | _ :: _ =>
      raise (ValueError ("Place '" +:+ Place.title place +:+
                         "' already exists. Please choose another title."))
  | [] =>
      let! valid := lift (Place.is_valid place) in
      if valid then
        add (place_repo self) place ;;
        ret (Place.to_dict place)
      else raise (ValueError "Invalid place data.")
  end.

Definition get_place (self : t) (place_id : string) : M dict :=
  let! place := get (place_repo self) place_id in
  match place with
  | Some place => ret (Place.to_dict place)
  | None => raise (ValueError ("Place with id " +:+ place_id +:+ " not found."))
  end.

Definition get_all_places (self : t) : M (list dict) :=
  let! places := get_all (place_repo self) in
  ret (Place.to_dict <$> places).

(** [is_valid] returns [True] or raises, so the branch of its falsity is
    kept only for the shape of the source. *)
Definition update_place (self : t) (place_id : string) (new_data : dict) : M dict :=
  let! place := get (place_repo self) place_id in
  match place with
  | None => raise (ValueError ("Place with id " +:+ place_id +:+ " not found."))
  | Some place =>
      let! new_place_title := lift (as_str "title" new_data) in
      let! existing_place_title :=
        get_by_attribute (place_repo self) "title" (VStr new_place_title) in
      (match existing_place_title with
       | _ :: _ =>
           if negb (String.eqb new_place_title (Place.title place)) then
             raise (ValueError ("Place with title: " +:+ new_place_title +:+
                                " already exists, choose another one."))
           else ret tt
       | [] => ret tt
       end) ;;
      let! title := lift (as_str "title" new_data) in
      let! description := lift (as_str "description" new_data) in
      let! price := lift (as_num "price" new_data) in
      let! latitude := lift (as_num "latitude" new_data) in
      let! longitude := lift (as_num "longitude" new_data) in
      let! b := BaseModel_init in
      let new_place :=
        Place.mk b.1.1 b.1.2 b.2 title description price latitude longitude
                 (Place.owner_first_name place) (Place.owner_id place)
                 (Place.reviews place) (Place.amenities place) in
      let! valid := lift (Place.is_valid new_place) in
      if negb valid then
        raise (ValueError
                 "Place validation failed. Please check the email and other attributes.")
      else
        update (place_repo self) place_id new_data ;;
        let! place := current (table_of (place_repo self)) place_id place in
        ret (Place.to_dict place)
  end.

Definition delete_place (self : t) (place_id : string) : M unit :=
  let! place := get (place_repo self) place_id in
  match place with
  | Some _ => delete (place_repo self) place_id
  | None => raise (ValueError ("Place with id: " +:+ place_id +:+ " not found !"))
  end.

Definition get_all_places_from_owner_id (self : t) (owner_id : string) : M (list dict) :=
  let! places := get_by_attribute (place_repo self) "owner_id" (VStr owner_id) in
  match places with
  | _ :: _ => ret (Place.to_dict <$> places)
  | [] => raise (ValueError ("No place found for owner_id: " +:+ owner_id))
  end.

End PlaceFacade.

Module AmenityFacade.

Record t := { amenity_repo : Repository Amenity.t }.

Definition create_amenity (self : t) (amenity_data : dict) : M dict :=
  let! name := lift (as_str "name" amenity_data) in
  let! b := BaseModel_init in
  let amenity := Amenity.mk b.1.1 b.1.2 b.2 name in
  let! existing_amenity :=
    get_by_attribute (amenity_repo self) "name" (VStr (Amenity.name amenity)) in
  match existing_amenity with
  | _ :: _ =>
      raise (ValueError ("Amenity '" +:+ Amenity.name amenity +:+
                         "' already exists. Please choose another name."))
  | [] =>
      let! valid := lift (Amenity.is_valid amenity) in
      if valid then
        add (amenity_repo self) amenity ;;
        ret (Amenity.to_dict amenity)
      else raise (ValueError "Invalid amenity data.")
  end.

Definition get_amenity (self : t) (amenity_id : string) : M dict :=
  let! amenity := get (amenity_repo self) amenity_id in
  match amenity with
  | Some amenity => ret (Amenity.to_dict amenity)
  | None => raise (ValueError ("Amenity with id: " +:+ amenity_id +:+ " not found."))
  end.

Definition get_all_amenities (self : t) : M (list dict) :=
  let! amenities := get_all (amenity_repo self) in
  ret (Amenity.to_dict <$> amenities).

(** No lookup by name is made here: the new name is not compared with the
    names of the other amenities. *)
Definition update_amenity (self : t) (amenity_id : string) (new_data : dict) : M dict :=
  let! amenity := get (amenity_repo self) amenity_id in
  match amenity with
  | None => raise (ValueError ("Amenity with id " +:+ amenity_id +:+ " not found."))
  | Some amenity =>
      let! name := lift (as_str "name" new_data) in
      let! b := BaseModel_init in
      let new_amenity := Amenity.mk b.1.1 b.1.2 b.2 name in
      let! valid := lift (Amenity.is_valid new_amenity) in
      if negb valid then
        raise (ValueError
                 "Amenity validation failed. Please check the email and other attributes.")
      else
        update (amenity_repo self) amenity_id new_data ;;
        let! amenity := current (table_of (amenity_repo self)) amenity_id amenity in
        ret (Amenity.to_dict amenity)
  end.

Definition delete_amenity (self : t) (amenity_id : string) : M unit :=
  let! amenity := get (amenity_repo self) amenity_id in
  match amenity with
  | Some _ => delete (amenity_repo self) amenity_id
  | None => raise (ValueError ("Amenity with id: " +:+ amenity_id +:+ " not found."))
  end.

End AmenityFacade.

Module UserFacade.
Record t := { user_repo : Repository User.t }.

Definition get_user (self : t) (user_id : string) : M dict :=
  let! user := get (user_repo self) user_id in
  match user with
  | Some user => ret (User.to_dict user)
  | None => raise (ValueError ("User with id " +:+ user_id +:+ " not found."))
  end.

Definition delete_user (self : t) (user_id : string) : M unit :=
  let! user := get (user_repo self) user_id in
  match user with
  | Some _ => delete (user_repo self) user_id
  | None => raise (ValueError ("User with id " +:+ user_id +:+ " not found."))
  end.

End UserFacade.

Module ReviewFacade.
Record t := { review_repo : Repository Review.t }.

Definition create_review (self : t) (review_data : dict) : M dict :=
  let! text := lift (as_str "text" review_data) in
  let! rating := lift (as_num "rating" review_data) in
  let! place_id := lift (as_str "place_id" review_data) in
  let! place_name := lift (as_str "place_name" review_data) in
  let! user_id := lift (as_str "user_id" review_data) in
  let! user_first_name := lift (as_str "user_first_name" review_data) in
  let! b := BaseModel_init in
  let review := Review.mk b.1.1 b.1.2 b.2 text rating place_id place_name
                          user_id user_first_name None in
  let! existing_review :=
    get_by_attribute (review_repo self) "id" (VStr (Review.id review)) in
  match existing_review with
  | _ :: _ =>
      raise (ValueError ("Review: " +:+ Review.id review +:+
                         "' already exists. Please create a new review."))
  | [] =>
      let! valid := lift (Review.is_valid review) in
      if valid then
        add (review_repo self) review ;;
        ret (Review.to_dict review)
      else raise (ValueError "Invalid review data.")
  end.

Definition get_review (self : t) (review_id : string) : M dict :=
  let! review := get (review_repo self) review_id in
  match review with
  | Some review => ret (Review.to_dict review)
  | None => raise (ValueError ("Review: " +:+ review_id +:+ " does not exist !"))
  end.

Definition delete_review (self : t) (review_id : string) : M unit :=
  let! review := get (review_repo self) review_id in
  match review with
  | Some _ => delete (review_repo self) review_id
  | None => raise (ValueError ("Review: " +:+ review_id +:+ " not found !"))
  end.

End ReviewFacade.

(* ===================================================================== *)
(** ** app/services: the relation managers                                *)
(* ===================================================================== *)

(** [for x in l: body(x)] over a list nothing changes meanwhile. *)
Fixpoint for_each {A : Type} (l : list A) (body : A → M unit) : M unit :=
  match l with
  | [] => ret tt
  | x :: l' => body x ;; for_each l' body
  end.

(** [for x in l: body(x)] over a list object the body may change: the
    iterator keeps an index and reads the list as it is at each round.
    [current] reads the list object; [fuel] bounds the rounds. *)
Fixpoint for_each_live {A : Type} (fuel : nat) (i : nat) (current : M (list A))
    (body : A → M unit) : M unit :=
  match fuel with
  | O => raise OutOfFuel
  | S fuel' =>
      let! l := current in
      match l !! i with
      | None => ret tt
      | Some x => body x ;; for_each_live fuel' (S i) current body
      end
  end.

(** The [print] calls of the source write to the standard output, which is
    not part of the state; they are left out. *)

Module FacadeRelationManager.

Record t := {
  user_facade : UserFacade.t;
  place_facade : PlaceFacade.t;
  amenity_facade : AmenityFacade.t;
  review_facade : ReviewFacade.t
}.

Definition the_user_repo (self : t) := UserFacade.user_repo (user_facade self).
Definition the_place_repo (self : t) := PlaceFacade.place_repo (place_facade self).
Definition the_amenity_repo (self : t) := AmenityFacade.amenity_repo (amenity_facade self).
Definition the_review_repo (self : t) := ReviewFacade.review_repo (review_facade self).

(* User - place relations *)

Definition create_place_for_user (self : t) (user_id : string) (place_data : dict)
  : M dict :=
  let! user := get (the_user_repo self) user_id in
  match user with
  | None => raise (ValueError ("User with id " +:+ user_id +:+ " not found."))
  | Some user =>
      let place_data := dict_set "owner_id" (VStr user_id) place_data in
      let place_data := dict_set "amenities" (VList []) place_data in
      let place_data := dict_set "reviews" (VList []) place_data in
      let place_data :=
        dict_set "owner_first_name" (VStr (User.first_name user)) place_data in
      let! place := PlaceFacade.create_place (place_facade self) place_data in
      match class_of (the_user_repo self) with
      | SQLAlchemy =>
          (* [user.places.append(place)] puts the whole record in the
             list, which a list of identifiers cannot hold *)
          raise (IllTyped "places")
      | _ =>
          let! place_id := lift (as_str "id" place) in
          (* [user.places.append(place['id'])], on the stored object *)
          let user := User.with_places (User.places user ++ [place_id]) user in
          store_obj (table_of (the_user_repo self)) user_id user ;;
          update (the_user_repo self) user_id (to_dict user) ;;
          ret place
      end
  end.

Definition delete_place_from_owner_place_list (self : t) (place_id user_id : string)
  : M unit :=
  let! user := get (the_user_repo self) user_id in
  match user with
  | None => raise (ValueError ("User with id: " +:+ user_id +:+ " not found"))
  | Some user =>
      let places := User.places user in
      (if str_in_list place_id places then
         let user := User.with_places (list_remove place_id places) user in
         store_obj (table_of (the_user_repo self)) user_id user ;;
         update (the_user_repo self) user_id (to_dict user)
       else
         raise (ValueError ("Place ID " +:+ place_id +:+
                            " not found in user's places list."))) ;;
      delete (the_place_repo self) place_id
  end.

Definition delete_place_and_associated_instances (self : t) (place_id : string)
  : M unit :=
  try_except_ValueError
    (let! place := get (the_place_repo self) place_id in
     match place with
     | None => raise (ValueError ("Place with id: " +:+ place_id +:+ " not found"))
     | Some place =>
         let user_id := Place.owner_id place in
         let! user := get (the_user_repo self) user_id in
         match user with
         | None => raise (ValueError ("User with id: " +:+ user_id +:+ " not found"))
         | Some user =>
             let user_places := User.places user in
             (if str_in_list place_id user_places then
                let user := User.with_places (list_remove place_id user_places) user in
                store_obj (table_of (the_user_repo self)) user_id user ;;
                update (the_user_repo self) user_id (to_dict user)
              else
                raise (ValueError ("Place ID " +:+ place_id +:+
                                   " not found in user's places list."))) ;;
             let reviews_ids_list := Place.reviews place in
             (match reviews_ids_list with
              | _ :: _ =>
                  for_each reviews_ids_list
                    (fun review_id => delete (the_review_repo self) review_id)
              | [] =>
                  raise (ValueError "No corresponding review found for this place.")
              end) ;;
             delete (the_place_repo self) place_id
         end
     end)
    (fun msg => raise (ValueError msg)).

(** The list object [user.places], as it is now, of the user held at
    [user_id].  While the loop below runs, that user object stays in the
    container and its [places] attribute stays bound to the same list
    object ([update] re-assigns the attribute to the list it already
    holds), so this is the list the [for] statement iterates over. *)
Definition live_places (self : t) (user_id : string) : M (list string) :=
  fun _ w =>
    (inr (match rows (table_of (the_user_repo self)) w !! user_id with
          | Some user => User.places user
          | None => []
          end), w).

Definition delete_user_and_associated_instances (self : t) (user_id : string)
  : M unit :=
  try_except_ValueError
    (let! user := get (the_user_repo self) user_id in
     match user with
     | None => raise (ValueError ("User with id: " +:+ user_id +:+ " not found"))
     | Some user =>
         let places_ids_list := User.places user in
         (match places_ids_list with
          | _ :: _ =>
              for_each_live (S (length places_ids_list)) 0
                (live_places self user_id)
                (fun place_id => delete_place_and_associated_instances self place_id)
          | [] => ret tt
          end) ;;
         delete (the_user_repo self) user_id
     end)
    (fun msg => raise (ValueError msg)).

(* Place - Amenity relations *)

Definition add_amenity_to_a_place (self : t) (place_id : string) (amenity_data : dict)
  : M dict :=
  let! place := get (the_place_repo self) place_id in
  let! amenity_name := lift (as_str "name" amenity_data) in
  let! existing_amenity :=
    get_by_attribute (the_amenity_repo self) "name" (VStr amenity_name) in
  match place with
  | None => raise (ValueError ("Place: " +:+ place_id +:+ " not found."))
  | Some place =>
      if str_in_list amenity_name (Place.amenities place) then
        raise (ValueError ("Amenity: " +:+ amenity_name +:+
                           " already exist for this place: " +:+ place_id))
      else if negb (len_between amenity_name 50) then
        raise (ValueError "name must not be empty and less than 50 characters")
      else
        let place := Place.with_amenities (Place.amenities place ++ [amenity_name]) place in
        store_obj (table_of (the_place_repo self)) place_id place ;;
        update (the_place_repo self) place_id (to_dict place) ;;
        match existing_amenity with
        | [] => AmenityFacade.create_amenity (amenity_facade self) amenity_data
        | _ :: _ =>
            (* [return amenity] with [amenity] never assigned *)
            raise (UnboundLocalError "amenity")
        end
  end.

Definition delete_amenity_from_place_list (self : t) (amenity_name place_id : string)
  : M unit :=
  let! place := get (the_place_repo self) place_id in
  match place with
  | None => raise (ValueError ("Place with id: " +:+ place_id +:+ " not found"))
  | Some place =>
      let amenities := Place.amenities place in
      (if str_in_list amenity_name amenities then
         let place := Place.with_amenities (list_remove amenity_name amenities) place in
         store_obj (table_of (the_place_repo self)) place_id place ;;
         update (the_place_repo self) place_id (to_dict place)
       else
         raise (ValueError ("Amenity " +:+ amenity_name +:+
                            " not found in places_amenities list."))) ;;
      delete (the_amenity_repo self) amenity_name
  end.

(** [get_all_amenities_id_from_place] and
    [get_all_amenities_names_from_place] have the same body, up to the
    wording of the second message. *)
Definition get_all_amenities_id_from_place (self : t) (place_id : string)
  : M (list string) :=
  let! place := get (the_place_repo self) place_id in
  match place with
  | None => raise (ValueError ("Place: " +:+ place_id +:+ " not found"))
  | Some place =>
      match Place.amenities place with
      | [] => raise (ValueError ("No amenities found for the place: " +:+ place_id))
      | amenities => ret amenities
      end
  end.

Definition get_all_amenities_names_from_place (self : t) (place_id : string)
  : M (list string) :=
  let! place := get (the_place_repo self) place_id in
  match place with
  | None => raise (ValueError ("Place: " +:+ place_id +:+ " not found"))
  | Some place =>
      match Place.amenities place with
      | [] => raise (ValueError ("No amenities found for this place: " +:+ place_id))
      | amenities => ret amenities
      end
  end.

(** The loop [for place in places: if amenity_name in place["amenities"]]
    over the exported records. *)
Fixpoint records_with_amenity (amenity_name : string) (places : list dict)
  : exn + list dict :=
  match places with
  | [] => inr []
  | place :: places' =>
      let? listed := as_list "amenities" place in
      let? found := records_with_amenity amenity_name places' in
      inr (if str_in_list amenity_name listed then place :: found else found)
  end.

Definition get_all_places_with_specifique_amenity (self : t) (amenity_name : string)
  : M (list dict) :=
  let! places := PlaceFacade.get_all_places (place_facade self) in
  match places with
  | [] => raise (ValueError "No place found in place_repo")
  | _ :: _ =>
      let! place_amenity_name_list := lift (records_with_amenity amenity_name places) in
      match place_amenity_name_list with
      | [] => raise (ValueError ("No place found with the amenity: " +:+ amenity_name))
      | _ :: _ => ret place_amenity_name_list
      end
  end.

(* Place - review relations *)

Definition create_review_for_place (self : t) (place_id user_id : string)
    (review_data : dict) : M dict :=
  let! place := get (the_place_repo self) place_id in
  let! user := get (the_user_repo self) user_id in
  match place, user with
  | None, _ => raise (ValueError ("Place with id " +:+ place_id +:+ " not found."))
  | Some _, None => raise (ValueError ("User with id " +:+ user_id +:+ " not found."))
  | Some place, Some user =>
      let review_data := dict_set "place_id" (VStr place_id) review_data in
      let review_data := dict_set "place_name" (VStr (Place.title place)) review_data in
      let review_data :=
        dict_set "user_first_name" (VStr (User.first_name user)) review_data in
      let review_data := dict_set "user_id" (VStr user_id) review_data in
      let! review := ReviewFacade.create_review (review_facade self) review_data in
      let! review_id := lift (as_str "id" review) in
      (* [place.reviews.append(review['id'])], on the stored object *)
      let place := Place.with_reviews (Place.reviews place ++ [review_id]) place in
      store_obj (table_of (the_place_repo self)) place_id place ;;
      update (the_place_repo self) place_id (to_dict place) ;;
      ret review
  end.

(** [for review_id in reviews_id_list: reviews_dict_list.append(get(review_id))]:
    an identifier with no stored review contributes [None]. *)
Fixpoint get_each (self : t) (reviews_id_list : list string) : M (list (option Review.t)) :=
  match reviews_id_list with
  | [] => ret []
  | review_id :: rest =>
      let! review := get (the_review_repo self) review_id in
      let! reviews := get_each self rest in
      ret (review :: reviews)
  end.

Definition get_all_reviews_dict_from_place_reviews_id_list (self : t) (place_id : string)
  : M (list (option Review.t)) :=
  let! place := get (the_place_repo self) place_id in
  match place with
  | None => raise (ValueError ("User with id: " +:+ place_id +:+ " not found"))
  | Some place =>
      let! reviews_dict_list := get_each self (Place.reviews place) in
      match reviews_dict_list with
      | [] => raise (ValueError ("No reviews found for this place: " +:+ place_id))
      | _ :: _ => ret reviews_dict_list
      end
  end.

Definition get_all_reviews_id_from_place (self : t) (place_id : string)
  : M (list string) :=
  let! place := get (the_place_repo self) place_id in
  match place with
  | None => raise (ValueError ("User with id: " +:+ place_id +:+ " not found"))
  | Some place => ret (Place.reviews place)
  end.

Definition delete_review_from_place_list (self : t) (review_id place_id : string)
  : M unit :=
  let! place := get (the_place_repo self) place_id in
  match place with
  | None => raise (ValueError ("Place with id: " +:+ place_id +:+ " not found"))
  | Some place =>
      let reviews := Place.reviews place in
      (if str_in_list review_id reviews then
         let place := Place.with_reviews (list_remove review_id reviews) place in
         store_obj (table_of (the_place_repo self)) place_id place ;;
         update (the_place_repo self) place_id (to_dict place)
       else
         raise (ValueError ("Review with id: " +:+ review_id +:+ " not found"))) ;;
      delete (the_review_repo self) review_id
  end.

(* User - review relations *)

(** [user_id in review.user_id] is containment of one string in the
    other.  The assignment [review.type = "review"] is made on the stored
    objects that are selected, and the list returned holds those objects. *)
Definition get_all_reviews_from_user (self : t) (user_id : string)
  : M (list Review.t) :=
  let! user := get (the_user_repo self) user_id in
  let! reviews := get_all (the_review_repo self) in
  match user with
  | None => raise (ValueError "This user does not exist")
  | Some _ =>
      match reviews with
      | [] => raise (ValueError "No review found in review repo")
      | _ :: _ =>
          let selected r := str_contains user_id (Review.user_id r) in
          (fun _ w =>
             let tbl := table_of (the_review_repo self) in
             (inr tt,
              set_rows tbl
                ((fun r => if selected r then Review.with_type "review" r else r)
                   <$> rows tbl w) w)) ;;
          let user_reviews_list :=
            Review.with_type "review" <$> List.filter selected reviews in
          match user_reviews_list with
          | [] => raise (ValueError ("No review found for this user: " +:+ user_id))
          | _ :: _ => ret user_reviews_list
          end
      end
  end.

End FacadeRelationManager.

Module SQLAlchemyFacadeRelationManager.

Record t := {
  user_facade : UserFacade.t;
  place_facade : PlaceFacade.t;
  amenity_facade : AmenityFacade.t;
  review_facade : ReviewFacade.t
}.

Definition the_user_repo (self : t) := UserFacade.user_repo (user_facade self).
Definition the_place_repo (self : t) := PlaceFacade.place_repo (place_facade self).
Definition the_amenity_repo (self : t) := AmenityFacade.amenity_repo (amenity_facade self).
Definition the_review_repo (self : t) := ReviewFacade.review_repo (review_facade self).

(** [record.attr = value; db.session.add(record); db.session.commit()] *)
Definition commit_user (self : t) (key : string) (user : User.t) : M unit :=
  SQLAlchemyRepository.assign_and_commit (table_of (the_user_repo self)) key user.
Definition commit_place (self : t) (key : string) (place : Place.t) : M unit :=
  SQLAlchemyRepository.assign_and_commit (table_of (the_place_repo self)) key place.

(* User - place relations *)

(** [user.places] is a list here ([None] is not a value of the typed
    attribute), so the guard [if user.places is None] is passed over.
    When the new identifier is already listed nothing is assigned and
    the commit has nothing to write. *)
Definition create_place_for_user (self : t) (user_id : string) (place_data : dict)
  : M dict :=
  let! user := get (the_user_repo self) user_id in
  match user with
  | None => raise (ValueError ("User with id " +:+ user_id +:+ " not found."))
  | Some user =>
      let place_data := dict_set "owner_id" (VStr user_id) place_data in
      let place_data :=
        dict_set "owner_first_name" (VStr (User.first_name user)) place_data in
      let! place := PlaceFacade.create_place (place_facade self) place_data in
      let! place_id := lift (as_str "id" place) in
      (if negb (str_in_list place_id (User.places user)) then
         commit_user self user_id
           (User.with_places (User.places user ++ [place_id]) user)
       else ret tt) ;;
      ret place
  end.

Definition delete_place_from_owner_place_list (self : t) (place_id user_id : string)
  : M unit :=
  try_except_ValueError
    (let! user := get (the_user_repo self) user_id in
     match user with
     | None => raise (ValueError ("User with id: " +:+ user_id +:+ " not found"))
     | Some user =>
         (if str_in_list place_id (User.places user) then
            commit_user self user_id
              (User.with_places (list_without place_id (User.places user)) user)
          else
            raise (ValueError ("Place ID " +:+ place_id +:+
                               " not found in user's places list."))) ;;
         delete (the_place_repo self) place_id
     end)
    (fun msg => (* [print(str(e))] and nothing else *) ret tt).

Definition delete_place_and_associated_instances (self : t) (place_id : string)
  : M unit :=
  try_except_ValueError
    (let! place := get (the_place_repo self) place_id in
     match place with
     | None => raise (ValueError ("User with id: " +:+ place_id +:+ " not found"))
     | Some place =>
         let user_id := Place.owner_id place in
         let! user := get (the_user_repo self) user_id in
         match user with
         | None => raise (ValueError ("User with id: " +:+ user_id +:+ " not found"))
         | Some user =>
             (if str_in_list place_id (User.places user) then
                commit_user self user_id
                  (User.with_places (list_without place_id (User.places user)) user)
              else
                raise (ValueError ("Place ID " +:+ place_id +:+
                                   " not found in user's places list."))) ;;
             let reviews_ids_list := Place.reviews place in
             (match reviews_ids_list with
              | _ :: _ =>
                  for_each reviews_ids_list
                    (fun review_id => delete (the_review_repo self) review_id)
              | [] => ret tt
              end) ;;
             delete (the_place_repo self) place_id
         end
     end)
    (fun msg => raise (ValueError msg)).

(** Here the cascade re-binds [user.places] to a new list each time, so
    the list object [places_ids_list] the loop walks over stays as it
    was when the loop began. *)
Definition delete_user_and_associated_instances (self : t) (user_id : string)
  : M unit :=
  try_except_ValueError
    (let! user := get (the_user_repo self) user_id in
     match user with
     | None => raise (ValueError ("User with id: " +:+ user_id +:+ " not found"))
     | Some user =>
         let places_ids_list := User.places user in
         (match places_ids_list with
          | _ :: _ =>
              for_each places_ids_list
                (fun place_id => delete_place_and_associated_instances self place_id)
          | [] => ret tt
          end) ;;
         delete (the_user_repo self) user_id
     end)
    (fun msg => raise (ValueError msg)).

(* Place - Amenity relations *)

(** What [add_amenity_to_a_place] returns: the result of
    [get_by_attribute] (a list of amenity objects) when it is not empty,
    else the record of the amenity just created. *)
Inductive amenity_result :=
| Found (l : list Amenity.t)
| Created (d : dict).

Definition add_amenity_to_a_place (self : t) (place_id : string) (amenity_data : dict)
  : M amenity_result :=
  let! place := get (the_place_repo self) place_id in
  let! amenity_name := lift (as_str "name" amenity_data) in
  let! amenity :=
    get_by_attribute (the_amenity_repo self) "name" (VStr amenity_name) in
  match place with
  | None => raise (ValueError ("Place: " +:+ place_id +:+ " not found."))
  | Some place =>
      if negb (str_in_list amenity_name (Place.amenities place)) then
        commit_place self place_id
          (Place.with_amenities (Place.amenities place ++ [amenity_name]) place) ;;
        match amenity with
        | [] =>
            let! created := AmenityFacade.create_amenity (amenity_facade self) amenity_data in
            ret (Created created)
        | _ :: _ => ret (Found amenity)
        end
      else
        raise (ValueError ("Amenity: " +:+ amenity_name +:+
                           " already exist for this place: " +:+ place_id))
  end.

Definition delete_amenity_from_place_list (self : t) (amenity_name place_id : string)
  : M unit :=
  let! place := get (the_place_repo self) place_id in
  match place with
  | None => raise (ValueError ("Place with id: " +:+ place_id +:+ " not found"))
  | Some place =>
      if str_in_list amenity_name (Place.amenities place) then
        commit_place self place_id
          (Place.with_amenities (list_without amenity_name (Place.amenities place)) place)
      else
        raise (ValueError ("Amenity " +:+ amenity_name +:+
                           " not found in places_amenities list."))
  end.

(* Place - review relations *)

(** As for [user.places] above, [place.reviews] is a list, and nothing is
    assigned when the new identifier is already listed. *)
Definition create_review_for_place (self : t) (place_id user_id : string)
    (review_data : dict) : M dict :=
  let! place := get (the_place_repo self) place_id in
  let! user := get (the_user_repo self) user_id in
  match place, user with
  | None, _ => raise (ValueError ("Place with id " +:+ place_id +:+ " not found."))
  | Some _, None => raise (ValueError ("User with id " +:+ user_id +:+ " not found."))
  | Some place, Some user =>
      let review_data := dict_set "place_id" (VStr place_id) review_data in
      let review_data := dict_set "place_name" (VStr (Place.title place)) review_data in
      let review_data :=
        dict_set "user_first_name" (VStr (User.first_name user)) review_data in
      let review_data := dict_set "user_id" (VStr user_id) review_data in
      let! review := ReviewFacade.create_review (review_facade self) review_data in
      let! review_id := lift (as_str "id" review) in
      (if negb (str_in_list review_id (Place.reviews place)) then
         commit_place self place_id
           (Place.with_reviews (Place.reviews place ++ [review_id]) place)
       else ret tt) ;;
      ret review
  end.

Definition delete_review_from_place_list (self : t) (review_id place_id : string)
  : M unit :=
  let! place := get (the_place_repo self) place_id in
  match place with
  | None => raise (ValueError ("Place with id: " +:+ place_id +:+ " not found"))
  | Some place =>
      let reviews := Place.reviews place in
      (if str_in_list review_id reviews then
         commit_place self place_id
           (Place.with_reviews (list_without review_id reviews) place)
       else
         raise (ValueError ("Review with id: " +:+ review_id +:+ " not found"))) ;;
      delete (the_review_repo self) review_id
  end.

End SQLAlchemyFacadeRelationManager.

(* ===================================================================== *)
(** ** The wiring of app/__init__.py                                      *)
(* ===================================================================== *)

(** One repository per entity type, of the class the configuration
    selects, shared by the facades and by both managers; the routes use
    [SQLAlchemyFacadeRelationManager] when the repositories are database
    repositories and [FacadeRelationManager] otherwise. *)
Definition select_repo {T : Type} `{BaseModel T} (c : repo_class) (tbl : Table T)
  : Repository T :=
  match c with
  | SQLAlchemy => SQLAlchemyRepository.repository tbl
  | _ => InMemoryRepository.repository tbl c
  end.

Definition facade_relation_manager (c : repo_class) : FacadeRelationManager.t :=
  {| FacadeRelationManager.user_facade := {| UserFacade.user_repo := select_repo c users |};
     FacadeRelationManager.place_facade := {| PlaceFacade.place_repo := select_repo c places |};
     FacadeRelationManager.amenity_facade :=
       {| AmenityFacade.amenity_repo := select_repo c amenities |};
     FacadeRelationManager.review_facade :=
       {| ReviewFacade.review_repo := select_repo c reviews |} |}.

Definition sqlalchemy_facade_relation_manager : SQLAlchemyFacadeRelationManager.t :=
  {| SQLAlchemyFacadeRelationManager.user_facade :=
       {| UserFacade.user_repo := select_repo SQLAlchemy users |};
     SQLAlchemyFacadeRelationManager.place_facade :=
       {| PlaceFacade.place_repo := select_repo SQLAlchemy places |};
     SQLAlchemyFacadeRelationManager.amenity_facade :=
       {| AmenityFacade.amenity_repo := select_repo SQLAlchemy amenities |};
     SQLAlchemyFacadeRelationManager.review_facade :=
       {| ReviewFacade.review_repo := select_repo SQLAlchemy reviews |} |}.

(** The manager of the whole-object backends, over in-memory
    repositories. *)
Definition mgr : FacadeRelationManager.t := facade_relation_manager InMemory.
Definition place_facade : PlaceFacade.t := FacadeRelationManager.place_facade mgr.

(** The length of the list of places of the user held at [uid] (0 when
    there is none). *)
Definition places_len (uid : string) (w : World) : nat :=
  List.length (match user_repo w !! uid with Some u => User.places u | None => [] end).

(** No two stored places share a title; no two stored amenities share a
    name. *)
Definition titles_unique (m : gmap string Place.t) : Prop :=
  ∀ k1 k2 p1 p2,
    m !! k1 = Some p1 → m !! k2 = Some p2 → Place.title p1 = Place.title p2 → k1 = k2.

Definition names_unique (m : gmap string Amenity.t) : Prop :=
  ∀ k1 k2 a1 a2,
    m !! k1 = Some a1 → m !! k2 = Some a2 → Amenity.name a1 = Amenity.name a2 → k1 = k2.

(* ===================================================================== *)
(** ** Concrete data for the examples                                     *)
(* ===================================================================== *)

Module Scenario.

Definition t0 : datetime := mk_datetime 2024 11 5 9 30 0 0.

(** A clock that advances by one second per reading and an identifier
    source that counts. *)
Definition clock (n : nat) : datetime :=
  mk_datetime 2024 11 5 10 0 (N.of_nat n mod 60) 125000.
Definition nth_uuid (n : nat) : string :=
  "00000000-0000-4000-8000-" +:+ string_of_list_ascii (zfill 12 (N.of_nat n)).
Definition env0 : Env := {| uuid4 := nth_uuid; now := clock; utcnow := clock |}.

Definition ann_id : string := "7d9f3c2a-51b4-4e0a-9c3e-2f6a8b1d4c70".
Definition loft_id : string := "1a2b3c4d-0001-4000-8000-aaaaaaaaaaaa".
Definition barn_id : string := "1a2b3c4d-0002-4000-8000-bbbbbbbbbbbb".
Definition rev1_id : string := "9e8d7c6b-0001-4000-8000-cccccccccccc".
Definition rev2_id : string := "9e8d7c6b-0002-4000-8000-dddddddddddd".
Definition pool_id : string := "5f4e3d2c-0001-4000-8000-eeeeeeeeeeee".
Definition wifi_id : string := "5f4e3d2c-0002-4000-8000-ffffffffffff".
Definition odd_id : string := "5f4e3d2c-0003-4000-8000-999999999999".

Definition ann (owned : list string) : User.t :=
  User.mk ann_id t0 t0 "Ann" "Lee" "a@b.com" "$2b$12$hash" false owned.

Definition loft (revs ams : list string) : Place.t :=
  Place.mk loft_id t0 t0 "Loft" "x" (PyFloat 100) (PyFloat 10) (PyFloat 10)
           "Ann" ann_id revs ams.
Definition barn (revs ams : list string) : Place.t :=
  Place.mk barn_id t0 t0 "Barn" "y" (PyFloat 80) (PyFloat 20) (PyFloat 20)
           "Ann" ann_id revs ams.

Definition review (rid pid title uid : string) : Review.t :=
  Review.mk rid t0 t0 "Nice" (PyInt 4) pid title uid "Ann" None.

Definition pool : Amenity.t := Amenity.mk pool_id t0 t0 "Pool".
Definition wifi : Amenity.t := Amenity.mk wifi_id t0 t0 "Wifi".

Definition world (us : gmap string User.t) (ps : gmap string Place.t)
    (ams : gmap string Amenity.t) (rs : gmap string Review.t) : World :=
  Build_World us ps ams rs 0 0.

(** Ann owns the loft, which nobody has reviewed yet. *)
Definition w_unreviewed : World :=
  world {[ ann_id := ann [loft_id] ]} {[ loft_id := loft [] [] ]} ∅ ∅.

(** Ann owns the loft and the barn, each with one review. *)
Definition w_two_places : World :=
  world {[ ann_id := ann [loft_id; barn_id] ]}
        {[ loft_id := loft [rev1_id] []; barn_id := barn [rev2_id] [] ]}
        ∅
        {[ rev1_id := review rev1_id loft_id "Loft" ann_id;
           rev2_id := review rev2_id barn_id "Barn" ann_id ]}.

(** Ann owns nothing yet. *)
Definition w_ann : World := world {[ ann_id := ann [] ]} ∅ ∅ ∅.

Definition hut_data (longitude : Q) : dict :=
  [ ("title", VStr "Hut"); ("description", VStr "By the lake");
    ("price", VNum (PyFloat 55)); ("latitude", VNum (PyFloat 10));
    ("longitude", VNum (PyFloat longitude)) ].

(** A payload as the place facade receives it, owner stamped. *)
Definition stamped_hut_data (longitude : Q) : dict :=
  hut_data longitude ++
  [ ("owner_id", VStr ann_id); ("owner_first_name", VStr "Ann") ].

(** The loft lists an amenity whose name is, as a string, the identifier
    of the amenity "Pool". *)
Definition odd : Amenity.t := Amenity.mk odd_id t0 t0 pool_id.
Definition w_odd_amenity : World :=
  world {[ ann_id := ann [loft_id] ]} {[ loft_id := loft [] [pool_id] ]}
        {[ pool_id := pool; odd_id := odd ]} ∅.

(** "Wifi" exists; the loft does not list it. *)
Definition w_wifi : World :=
  world {[ ann_id := ann [loft_id] ]} {[ loft_id := loft [] [] ]}
        {[ wifi_id := wifi ]} ∅.

Definition name50 : string :=
  "Heated indoor swimming pool with sea-view terrace.".

(** A name of 25 accented letters: 25 characters, 50 bytes. *)
Definition name25 : string := "ééééééééééééééééééééééééé".

(** Two users whose identifiers are ["u1"] and ["u12"], and a review
    written by the second. *)
Definition bob : User.t := User.mk "u1" t0 t0 "Bob" "Ray" "b@c.com" "$2b$12$hash" false [].
Definition cy : User.t := User.mk "u12" t0 t0 "Cy" "Roe" "c@d.com" "$2b$12$hash" false [].
Definition cy_review : Review.t :=
  Review.mk rev1_id t0 t0 "Nice" (PyInt 5) loft_id "Loft" "u12" "Cy" None.
Definition w_substring : World :=
  world {[ "u1" := bob; "u12" := cy ]} ∅ ∅ {[ rev1_id := cy_review ]}.

Definition sample_objects : list InFileRepository.obj :=
  [ InFileRepository.AUser (ann [loft_id]);
    InFileRepository.APlace (loft [rev1_id] ["Wifi"]);
    InFileRepository.AReview cy_review;
    InFileRepository.AnAmenity wifi ].

End Scenario.

(* ===================================================================== *)
(** * Properties                                                          *)
(* ===================================================================== *)

Module DatetimeFacts.

Lemma digit_val_char (d : N) : (d < 10)%N → digit_val (digit_char d) = Some d.
Proof.
  intros H. unfold digit_val, digit_char.
  rewrite N_ascii_embedding by lia.
  replace ((48 <=? 48 + d)%N) with true by (symmetry; apply N.leb_le; lia).
  replace ((48 + d <=? 57)%N) with true by (symmetry; apply N.leb_le; lia).
  simpl. f_equal. lia.
Qed.

Lemma read_digits_zfill (w : nat) : ∀ (n acc : N) (rest : list ascii),
  (n < 10 ^ N.of_nat w)%N →
  read_digits w acc (zfill w n ++ rest) = Some ((acc * 10 ^ N.of_nat w + n)%N, rest).
Proof.
  induction w as [|w IH]; intros n acc rest Hn.
  - simpl in *. f_equal. f_equal. lia.
  - cbn [zfill read_digits app].
    assert (Hp : (10 ^ N.of_nat (S w) = 10 * 10 ^ N.of_nat w)%N).
    { rewrite Nat2N.inj_succ, N.pow_succ_r'; lia. }
    assert (Hpos : (0 < 10 ^ N.of_nat w)%N) by (apply N.neq_0_lt_0, N.pow_nonzero; lia).
    rewrite digit_val_char.
    2:{ apply N.Div0.div_lt_upper_bound. lia. }
    rewrite IH by (apply N.mod_lt; lia).
    f_equal. f_equal. rewrite Hp.
    pose proof (N.div_mod n (10 ^ N.of_nat w)) as Hdm. lia.
Qed.

Lemma in_range_bounds (d : datetime) :
  in_range d = true →
  (1 <= year d <= 9999 ∧ 1 <= month d <= 12 ∧
   1 <= day d <= days_in_month (year d) (month d) ∧
   hour d <= 23 ∧ minute d <= 59 ∧ second d <= 59 ∧
   microsecond d <= 999999)%N.
Proof.
  unfold in_range. rewrite !andb_true_iff, !N.leb_le. tauto.
Qed.

Lemma days_in_month_le (y m : N) : (days_in_month y m <= 31)%N.
Proof.
  unfold days_in_month.
  repeat match goal with |- context [if ?b then _ else _] => destruct b end; lia.
Qed.

Lemma read_fraction_zfill (us : N) :
  (us <= 999999)%N →
  read_fraction (if (us =? 0)%N then [] else chr "." ++ zfill 6 us) = Some us.
Proof.
  intros Hus. destruct (N.eqb_spec us 0) as [->|Hne]; [reflexivity|].
  change (chr "." ++ zfill 6 us) with ("."%char :: zfill 6 us).
  unfold read_fraction. cbn [expect Ascii.eqb Bool.eqb mbind option_bind].
  rewrite <- (app_nil_r (zfill 6 us)).
  rewrite read_digits_zfill by (simpl; lia).
  reflexivity.
Qed.

(** [fromisoformat] is a left inverse of [isoformat] on datetime objects. *)
Lemma fromisoformat_isoformat (d : datetime) :
  in_range d = true → fromisoformat (isoformat d) = Some d.
Proof.
  intros Hr. pose proof (in_range_bounds d Hr) as H.
  pose proof (days_in_month_le (year d) (month d)) as Hdim.
  unfold fromisoformat, isoformat.
  rewrite list_ascii_of_string_of_list_ascii.
  unfold isoformat_chars, parse_chars.
  change (chr "-") with ["-"%char].
  change (chr "T") with ["T"%char].
  change (chr ":") with [":"%char].
  repeat (rewrite read_digits_zfill by (simpl; lia);
          cbn [mbind option_bind app expect Ascii.eqb Bool.eqb]).
  rewrite read_fraction_zfill by lia.
  cbn [mbind option_bind].
  replace (0 * 10 ^ N.of_nat 4 + year d)%N with (year d) by lia.
  replace (0 * 10 ^ N.of_nat 2 + month d)%N with (month d) by lia.
  replace (0 * 10 ^ N.of_nat 2 + day d)%N with (day d) by lia.
  replace (0 * 10 ^ N.of_nat 2 + hour d)%N with (hour d) by lia.
  replace (0 * 10 ^ N.of_nat 2 + minute d)%N with (minute d) by lia.
  replace (0 * 10 ^ N.of_nat 2 + second d)%N with (second d) by lia.
  destruct d; simpl in *. rewrite Hr. reflexivity.
Qed.

(** A string that does not begin with a digit is no ISO timestamp. *)
Lemma fromisoformat_no_digit (s : string) :
  (∀ c s', s = String c s' → digit_val c = None) → fromisoformat s = None.
Proof.
  intros Hs. unfold fromisoformat, parse_chars.
  destruct s as [|c s']; [reflexivity|].
  cbn. by rewrite (Hs c s' eq_refl).
Qed.

End DatetimeFacts.
Import DatetimeFacts.

(** Text helpers are kept folded while programs are stepped through. *)
#[local] Opaque isoformat fromisoformat.

(** ** Round trip of the exported records through [dict_to_obj] *)

Module RoundTrip.
Import InFileRepository.

Lemma dict_to_obj_to_dict (o : obj) :
  timestamps_ok o = true → dict_to_obj (obj_to_dict o) = inr (reloaded o).
Proof.
  intros Hok.
  destruct o as [u|p|r|a]; simpl in Hok; apply andb_true_iff in Hok as [Hc Hu];
    unfold dict_to_obj, obj_to_dict, parse_timestamp; cbn;
    rewrite (fromisoformat_isoformat _ Hc); cbn;
    rewrite (fromisoformat_isoformat _ Hu); cbn.
  - by destruct u.
  - by destruct p.
  - reflexivity.
  - by destruct a.
Qed.

Lemma obj_to_dict_reloaded (o : obj) : obj_to_dict (reloaded o) = obj_to_dict o.
Proof. by destruct o. Qed.

(** C7. For an entity of any of the four types, rebuilding an instance
    from its own exported record with the file repository's
    [dict_to_obj] succeeds, and exporting that instance again gives the
    same record, key by key and value by value, both ISO-8601 timestamps
    included. *)
Theorem export_reload_export (o : obj) :
  timestamps_ok o = true →
  ∃ o', dict_to_obj (obj_to_dict o) = inr o' ∧ obj_to_dict o' = obj_to_dict o.
Proof.
  intros Hok. exists (reloaded o). split.
  - by apply dict_to_obj_to_dict.
  - apply obj_to_dict_reloaded.
Qed.

End RoundTrip.

(** ** The two managers at work on concrete states *)

(** Closed equations are settled by evaluation. *)
Ltac vm_refl :=
  lazymatch goal with |- _ = ?b => vm_cast_no_check (@eq_refl _ b) end.
Ltac open_run :=
  lazymatch goal with
  | |- (let (_, _) := ?X in _) => rewrite (surjective_pairing X); cbv beta iota
  end.

Module Runs.
Import Scenario.

(** C1. Deleting a stored place that has no review, with the manager of
    the whole-object backends: the owner's list has lost the place when
    the [else] branch of the review step raises, and the place record
    stays in the repository. *)
Theorem delete_unreviewed_place_in_memory :
  let (r, w') :=
    FacadeRelationManager.delete_place_and_associated_instances
      mgr loft_id env0 w_unreviewed in
  r = inl (ValueError "No corresponding review found for this place.") ∧
  User.places <$> user_repo w' !! ann_id = Some [] ∧
  place_repo w' !! loft_id = Some (loft [] []).
Proof. open_run. repeat split; vm_refl. Qed.

(** The same request served by the database manager goes through. *)
Lemma delete_unreviewed_place_sqlalchemy :
  let (r, w') :=
    SQLAlchemyFacadeRelationManager.delete_place_and_associated_instances
      sqlalchemy_facade_relation_manager loft_id env0 w_unreviewed in
  r = inr tt ∧
  User.places <$> user_repo w' !! ann_id = Some [] ∧
  place_repo w' !! loft_id = None.
Proof. open_run. repeat split; vm_refl. Qed.

(** C2. Deleting a user who owns two reviewed places, with the manager
    of the whole-object backends: the loop walks the very list the
    cascade shrinks, so it stops after the first place; the user is
    deleted and the second place stays, still naming her as owner. *)
Theorem delete_user_leaves_second_place :
  let (r, w') :=
    FacadeRelationManager.delete_user_and_associated_instances
      mgr ann_id env0 w_two_places in
  r = inr tt ∧
  user_repo w' !! ann_id = None ∧
  place_repo w' !! loft_id = None ∧
  place_repo w' !! barn_id = Some (barn [rev2_id] []) ∧
  Place.owner_id (barn [rev2_id] []) = ann_id ∧
  is_Some (review_repo w' !! rev2_id).
Proof. vm_compute. eauto 10. Qed.

(** The database manager, whose loop walks a list nothing touches,
    removes both places and both reviews. *)
Lemma delete_user_sqlalchemy :
  let (r, w') :=
    SQLAlchemyFacadeRelationManager.delete_user_and_associated_instances
      sqlalchemy_facade_relation_manager ann_id env0 w_two_places in
  r = inr tt ∧ user_repo w' = ∅ ∧ place_repo w' = ∅ ∧ review_repo w' = ∅.
Proof. open_run. repeat split; vm_refl. Qed.

(** C4. Removing from the loft an amenity whose name happens to be the
    identifier of the amenity "Pool": the call
    [amenity_repo.delete(amenity_name)] deletes "Pool". *)
Theorem delete_amenity_from_place_deletes_an_amenity :
  amenity_repo w_odd_amenity !! pool_id = Some pool ∧
  let (r, w') :=
    FacadeRelationManager.delete_amenity_from_place_list
      mgr pool_id loft_id env0 w_odd_amenity in
  r = inr tt ∧
  Place.amenities <$> place_repo w' !! loft_id = Some [] ∧
  amenity_repo w' !! pool_id = None ∧
  amenity_repo w' !! odd_id = Some odd.
Proof. vm_compute. repeat split. Qed.

(** The database manager leaves the amenities alone. *)
Lemma delete_amenity_from_place_sqlalchemy :
  let (r, w') :=
    SQLAlchemyFacadeRelationManager.delete_amenity_from_place_list
      sqlalchemy_facade_relation_manager pool_id loft_id env0 w_odd_amenity in
  r = inr tt ∧
  Place.amenities <$> place_repo w' !! loft_id = Some [] ∧
  amenity_repo w' = amenity_repo w_odd_amenity.
Proof. open_run. repeat split; vm_refl. Qed.

(** C5. Adding "Wifi", which exists globally, to a place that does not
    list it, with the manager of the whole-object backends: the name is
    appended, then [return amenity] finds the variable unbound. *)
Theorem add_existing_amenity_in_memory :
  let (r, w') :=
    FacadeRelationManager.add_amenity_to_a_place
      mgr loft_id [("name", VStr "Wifi")] env0 w_wifi in
  r = inl (UnboundLocalError "amenity") ∧
  Place.amenities <$> place_repo w' !! loft_id = Some ["Wifi"] ∧
  amenity_repo w' = amenity_repo w_wifi.
Proof. open_run. repeat split; vm_refl. Qed.

(** The database manager returns what the lookup by name found. *)
Lemma add_existing_amenity_sqlalchemy :
  let (r, w') :=
    SQLAlchemyFacadeRelationManager.add_amenity_to_a_place
      sqlalchemy_facade_relation_manager loft_id [("name", VStr "Wifi")] env0 w_wifi in
  r = inr (SQLAlchemyFacadeRelationManager.Found [wifi]) ∧
  Place.amenities <$> place_repo w' !! loft_id = Some ["Wifi"] ∧
  amenity_repo w' = amenity_repo w_wifi.
Proof. open_run. repeat split; vm_refl. Qed.

(** C6. The database manager's [delete_place_from_owner_place_list] for
    a user that does not exist: the [ValueError] of the first step is
    caught and printed, and the call returns normally. *)
Theorem delete_place_from_owner_swallows_error :
  user_repo w_unreviewed !! "nobody" = None ∧
  SQLAlchemyFacadeRelationManager.delete_place_from_owner_place_list
    sqlalchemy_facade_relation_manager loft_id "nobody" env0 w_unreviewed
  = (inr tt, w_unreviewed).
Proof. vm_compute. repeat split. Qed.

(** The manager of the whole-object backends raises on the same input. *)
Lemma delete_place_from_owner_raises_in_memory :
  FacadeRelationManager.delete_place_from_owner_place_list
    mgr loft_id "nobody" env0 w_unreviewed
  = (inl (ValueError "User with id: nobody not found"), w_unreviewed).
Proof. vm_compute. repeat split. Qed.

(** C8. A payload with longitude -200 and latitude 10, everything else
    in order: the place facade stores the place and returns its record. *)
Theorem create_place_accepts_longitude_minus_200 :
  let (r, w') :=
    PlaceFacade.create_place place_facade (stamped_hut_data (-200)) env0 w_ann in
  (∃ record, r = inr record ∧
             dict_get "longitude" record = Some (VNum (PyFloat (-200))) ∧
             dict_get "id" record = Some (VStr (nth_uuid 0))) ∧
  Place.longitude <$> place_repo w' !! nth_uuid 0 = Some (PyFloat (-200)).
Proof. vm_compute. eauto 10. Qed.

(** A longitude of 200 is turned down and nothing is stored. *)
Lemma create_place_rejects_longitude_200 :
  let (r, w') :=
    PlaceFacade.create_place place_facade (stamped_hut_data 200) env0 w_ann in
  r = inl (ValueError "Must be within the range of -90.0 to 90.0") ∧
  place_repo w' = ∅.
Proof. open_run. repeat split; vm_refl. Qed.

End Runs.

(** ** Stepping through the service monad *)

Lemma bind_run {A B : Type} (m : M A) (k : A → M B) (env : Env) (w : World) :
  bind m k env w =
  match m env w with
  | (inr a, w') => k a env w'
  | (inl e, w') => (inl e, w')
  end.
Proof. reflexivity. Qed.

Lemma dict_get_set_eq (key : string) (v : pyval) (d : dict) :
  dict_get key (dict_set key v d) = Some v.
Proof.
  induction d as [|[k v'] d IH]; simpl.
  - by rewrite String.eqb_refl.
  - destruct (String.eqb key k) eqn:E; simpl; rewrite E; [done | apply IH].
Qed.

Lemma dict_get_set_ne (key key' : string) (v : pyval) (d : dict) :
  key ≠ key' → dict_get key (dict_set key' v d) = dict_get key d.
Proof.
  intros Hne. induction d as [|[k v'] d IH]; simpl.
  - by apply String.eqb_neq in Hne as ->.
  - destruct (String.eqb key' k) eqn:E; simpl.
    + apply String.eqb_eq in E as <-. by apply String.eqb_neq in Hne as ->.
    + by rewrite IH.
Qed.

Lemma str_in_list_In (x : string) (l : list string) :
  str_in_list x l = true ↔ x ∈ l.
Proof.
  unfold str_in_list. rewrite existsb_exists. split.
  - intros (y & Hy & E). apply String.eqb_eq in E as ->. by apply list_elem_of_In.
  - intros Hx. exists x. split; [by apply list_elem_of_In | apply String.eqb_refl].
Qed.

(** [obj.update(obj.to_dict())] on a user never touches the list of
    places, whether the loop completes or stops at a timestamp. *)
Lemma update_items_user_places (u : User.t) (r : option exn) (u' : User.t) :
  update_items (User.to_dict u) u = (r, u') → User.places u' = User.places u.
Proof.
  unfold User.to_dict. cbn.
  destruct (fromisoformat (isoformat (User.created_at u))); cbn;
    [destruct (fromisoformat (isoformat (User.updated_at u))); cbn|];
    intros [= <- <-]; done.
Qed.

Lemma update_items_place_lists (p : Place.t) (r : option exn) (p' : Place.t) :
  update_items (Place.to_dict p) p = (r, p') →
  Place.amenities p' = Place.amenities p ∧ Place.reviews p' = Place.reviews p ∧
  Place.owner_id p' = Place.owner_id p ∧ Place.id p' = Place.id p.
Proof.
  destruct p. unfold Place.to_dict. cbv -[isoformat fromisoformat].
  repeat match goal with
         | |- context [fromisoformat ?x] => destruct (fromisoformat x)
         end; by intros [= <- <-].
Qed.

Lemma bind_inr {A B : Type} (m : M A) (k : A → M B) env w b w' :
  bind m k env w = (inr b, w') →
  ∃ a w1, m env w = (inr a, w1) ∧ k a env w1 = (inr b, w').
Proof.
  rewrite bind_run. destruct (m env w) as [[e|a] w1]; [done|]. eauto.
Qed.

Lemma lift_inr {A : Type} (r : exn + A) env w a w' :
  lift r env w = (inr a, w') → r = inr a ∧ w' = w.
Proof. unfold lift. by intros [= -> ->]. Qed.

Lemma ret_inr {A : Type} (x : A) env w a w' :
  ret x env w = (inr a, w') → a = x ∧ w' = w.
Proof. unfold ret. by intros [= -> ->]. Qed.

(** Inversion of a run that returned normally. *)
Ltac inv_run H :=
  lazymatch type of H with
  | bind _ _ _ _ = (inr _, _) =>
      let a := fresh "a" in
      let w1 := fresh "w" in
      let Hm := fresh "Hm" in
      apply bind_inr in H as (a & w1 & Hm & H);
      inv_run Hm; cbv beta in H; inv_run H
  | lift _ _ _ = (inr _, _) => apply lift_inr in H as [H ->]
  | ret _ _ _ = (inr _, _) => apply ret_inr in H as [-> ->]
  | raise _ _ _ = (inr _, _) => discriminate H
  | _ => idtac
  end.

Lemma BaseModel_init_run env w :
  BaseModel_init env w =
  (inr (uuid4 env (uuid_calls w), now env (clock_calls w), now env (S (clock_calls w))),
   with_clock_calls (S (S (clock_calls w))) (with_uuid_calls (S (uuid_calls w)) w)).
Proof. reflexivity. Qed.

Lemma get_by_attribute_world {T : Type} `{BaseModel T} (tbl : Table T) a v env w r w' :
  InMemoryRepository.get_by_attribute tbl a v env w = (r, w') → w' = w.
Proof.
  unfold InMemoryRepository.get_by_attribute, InMemoryRepository.get_all, lift.
  rewrite bind_run. by intros [= _ <-].
Qed.

(** The place facade the managers are given, for each class of
    repository. *)
Lemma place_facade_of (c : repo_class) :
  FacadeRelationManager.place_facade (facade_relation_manager c)
  = {| PlaceFacade.place_repo := select_repo c places |}.
Proof. reflexivity. Qed.

(** What a successful [create_place] returned and stored. *)
Lemma create_place_inr (c : repo_class) (d : dict) (env : Env) (w : World)
    (record : dict) (w1 : World) :
  PlaceFacade.create_place {| PlaceFacade.place_repo := select_repo c places |} d env w
  = (inr record, w1) →
  ∃ p, record = Place.to_dict p ∧
       Place.id p = uuid4 env (uuid_calls w) ∧
       as_str "owner_id" d = inr (Place.owner_id p) ∧
       as_num "latitude" d = inr (Place.latitude p) ∧
       as_num "longitude" d = inr (Place.longitude p) ∧
       Place.is_valid p = inr true ∧
       user_repo w1 = user_repo w ∧
       place_repo w1 = <[Place.id p := p]> (place_repo w) ∧
       amenity_repo w1 = amenity_repo w ∧ review_repo w1 = review_repo w.
Proof.
  unfold PlaceFacade.create_place. intros H.
  inv_run H.
  rewrite BaseModel_init_run in Hm8. injection Hm8 as <- <-.
  assert (w2 = with_clock_calls (S (S (clock_calls w)))
                 (with_uuid_calls (S (uuid_calls w)) w)) as ->.
  { destruct c; cbn in Hm9; by apply lift_inr in Hm9 as [_ ->]. }
  clear Hm9.
  destruct a9; [|discriminate H].
  inv_run H.
  match type of H with (if ?b then _ else _) _ _ = _ => destruct b end;
    [|discriminate H].
  inv_run H.
  assert (w0 = set_rows places
                 (<[uuid4 env (uuid_calls w) :=
                      Place.mk (uuid4 env (uuid_calls w)) (now env (clock_calls w))
                               (now env (S (clock_calls w))) a a0 a1 a2 a3 a4 a5 a7 a6]>
                    (place_repo w))
                 (with_clock_calls (S (S (clock_calls w)))
                    (with_uuid_calls (S (uuid_calls w)) w))) as ->.
  { destruct c; cbn in Hm9; by injection Hm9 as <-. }
  eexists. split; [reflexivity|]. cbn in *. by repeat split.
Qed.

(** A [create_place] that raises has stored nothing. *)
Lemma create_place_inl (c : repo_class) (d : dict) (env : Env) (w : World)
    (e : exn) (w1 : World) :
  PlaceFacade.create_place {| PlaceFacade.place_repo := select_repo c places |} d env w
  = (inl e, w1) →
  user_repo w1 = user_repo w ∧ place_repo w1 = place_repo w ∧
  amenity_repo w1 = amenity_repo w ∧ review_repo w1 = review_repo w.
Proof.
  unfold PlaceFacade.create_place.
  repeat (rewrite bind_run; unfold lift at 1;
          match goal with
          | |- context [match ?r with inl _ => _ | inr _ => _ end] =>
              destruct r; [by intros [= _ <-]|]
          end).
  rewrite bind_run, BaseModel_init_run. rewrite bind_run.
  match goal with
  | |- context [get_by_attribute ?r ?a ?v env ?w0] =>
      destruct (get_by_attribute r a v env w0) as [[e'|found] w2] eqn:Hg;
      assert (w2 = w0) as -> by (destruct c; cbn in Hg; unfold lift in Hg; congruence)
  end.
  { by intros [= _ <-]. }
  destruct found; [|by intros [= _ <-]].
  rewrite bind_run. unfold lift at 1.
  destruct (Place.is_valid _) as [e'|[]]; [by intros [= _ <-]| |by intros [= _ <-]].
  rewrite bind_run. destruct c; cbn; discriminate.
Qed.

(** What a successful [repo.update(obj_id, data)] did. *)
Lemma in_memory_update_inr {T : Type} `{BaseModel T} (tbl : Table T)
    (key : string) (data : dict) env w u w' :
  InMemoryRepository.update tbl key data env w = (inr u, w') →
  (rows tbl w !! key = None ∧ w' = w) ∨
  (∃ obj obj',
      rows tbl w !! key = Some obj ∧ update_items data obj = (None, obj') ∧
      w' = (store_obj tbl key (save (utcnow env (clock_calls w)) obj') env
              (with_clock_calls (S (clock_calls w)) w)).2).
Proof.
  unfold InMemoryRepository.update. rewrite bind_run.
  unfold InMemoryRepository.get at 1.
  destruct (rows tbl w !! key) as [obj|] eqn:Hobj.
  - unfold BaseModel_update.
    destruct (update_items data obj) as [[e|] obj'] eqn:Hup.
    + rewrite bind_run. cbn. discriminate.
    + rewrite bind_run. cbn. intros [= <-]. right. eauto.
  - cbn. intros [= <-]. by left.
Qed.

Lemma count_occ_snoc_fresh (l : list string) (x : string) :
  str_in_list x l = false → count_occ string_dec (l ++ [x]) x = 1.
Proof.
  intros Hx. rewrite count_occ_app. simpl.
  destruct (string_dec x x); [|done].
  rewrite (proj1 (count_occ_not_In string_dec l x)); [done|].
  intros Hin. apply list_elem_of_In, str_in_list_In in Hin. congruence.
Qed.

(** ** Creation of a place for a user *)

(** What a successful [create_place_for_user] of the whole-object manager
    returned and left behind. *)
Lemma create_place_for_user_in_memory (env : Env) (w : World) (user_id : string)
    (place_data : dict) (user : User.t) (place : dict) (w' : World) :
  user_repo w !! user_id = Some user →
  str_in_list (uuid4 env (uuid_calls w)) (User.places user) = false →
  FacadeRelationManager.create_place_for_user mgr user_id place_data env w
  = (inr place, w') →
  dict_get "owner_id" place = Some (VStr user_id) ∧
  ∃ p user',
    place = Place.to_dict p ∧
    dict_get "id" place = Some (VStr (Place.id p)) ∧
    place_repo w' !! Place.id p = Some p ∧
    user_repo w' !! user_id = Some user' ∧
    User.places user' = User.places user ++ [Place.id p] ∧
    count_occ string_dec (User.places user') (Place.id p) = 1.
Proof.
  intros Hu Hfresh H.
  unfold FacadeRelationManager.create_place_for_user in H.
  inv_run H. cbn in Hm. injection Hm as <- <-. rewrite Hu in H.
  inv_run H.
  apply (create_place_inr InMemory) in Hm
    as (p & -> & Hid & Howner & _ & _ & Hvalid & Hus & Hps & _ & _).
  cbn in H. inv_run H.
  apply in_memory_update_inr in Hm as [[Hno _]|(obj & obj' & Hobj & Hup & ->)].
  + cbn in Hno. by rewrite lookup_insert_eq in Hno.
  + cbn in Hobj. rewrite lookup_insert_eq in Hobj. injection Hobj as <-.
    apply update_items_user_places in Hup. cbn in Hup.
    unfold as_str in Howner.
    rewrite dict_get_set_ne, dict_get_set_ne, dict_get_set_ne, dict_get_set_eq
      in Howner by done.
    injection Howner as Howner.
    split; [cbn; by rewrite <- Howner|]. exists p, (User.with_updated_at (utcnow env (clock_calls w0)) obj').
    cbn. rewrite Hps, !lookup_insert_eq, Hup.
    repeat split; try done.
    apply count_occ_snoc_fresh. by rewrite Hid.
Qed.

(** The same for the database manager. *)
Lemma create_place_for_user_sqlalchemy (env : Env) (w : World) (user_id : string)
    (place_data : dict) (user : User.t) (place : dict) (w' : World) :
  user_repo w !! user_id = Some user →
  str_in_list (uuid4 env (uuid_calls w)) (User.places user) = false →
  SQLAlchemyFacadeRelationManager.create_place_for_user
    sqlalchemy_facade_relation_manager user_id place_data env w
  = (inr place, w') →
  dict_get "owner_id" place = Some (VStr user_id) ∧
  ∃ p user',
    place = Place.to_dict p ∧
    dict_get "id" place = Some (VStr (Place.id p)) ∧
    place_repo w' !! Place.id p = Some p ∧
    user_repo w' !! user_id = Some user' ∧
    User.places user' = User.places user ++ [Place.id p] ∧
    count_occ string_dec (User.places user') (Place.id p) = 1.
Proof.
  intros Hu Hfresh.
  unfold SQLAlchemyFacadeRelationManager.create_place_for_user.
  rewrite bind_run.
  change (get (SQLAlchemyFacadeRelationManager.the_user_repo
                 sqlalchemy_facade_relation_manager) user_id env w)
    with (inr (B := option User.t) (A := exn) (user_repo w !! user_id), w).
  rewrite Hu. cbv beta iota zeta.
  change (SQLAlchemyFacadeRelationManager.place_facade sqlalchemy_facade_relation_manager)
    with {| PlaceFacade.place_repo := select_repo SQLAlchemy places |}.
  intros H. inv_run H.
  apply (create_place_inr SQLAlchemy) in Hm
    as (p & -> & Hid & Howner & _ & _ & Hvalid & Hus & Hps & _ & _).
  change (as_str "id" (Place.to_dict p)) with (inr (A := exn) (Place.id p)) in Hm0.
  injection Hm0 as <-.
  rewrite Hid, Hfresh in Hm1. cbn [negb] in Hm1.
  unfold SQLAlchemyFacadeRelationManager.commit_user,
    SQLAlchemyRepository.assign_and_commit in Hm1.
  change (table_of (SQLAlchemyFacadeRelationManager.the_user_repo
                      sqlalchemy_facade_relation_manager)) with users in Hm1.
  rewrite bind_run in Hm1. cbn in Hm1. injection Hm1 as <-.
  unfold as_str in Howner.
  rewrite dict_get_set_ne, dict_get_set_eq in Howner by done.
  injection Howner as Howner.
  split; [cbn; by rewrite <- Howner|].
  match goal with Hx : Build_World _ _ _ _ _ _ = ?x |- _ => subst x end.
  eexists p, _. cbn. rewrite Hus, Hps, !lookup_insert_eq, Hid.
  repeat split; try done.
  apply count_occ_snoc_fresh. exact Hfresh.
Qed.

(** C3. [create_place_for_user], of the manager of the whole-object
    backends and of the database manager alike.  When no user is stored
    under [user_id] each raises the "not found" [ValueError] and the state
    is what it was.  When either returns a record, for a user whose list
    does not yet hold the identifier [uuid4] hands out: the record is the
    one of the place now stored under its identifier, its [owner_id] is
    [user_id], and the user's list is the old list followed by that
    identifier, which therefore occurs in it exactly once. *)
Theorem create_place_for_user_spec (env : Env) (w : World) (user_id : string)
    (place_data : dict) :
  (user_repo w !! user_id = None →
   FacadeRelationManager.create_place_for_user mgr user_id place_data env w
   = (inl (ValueError ("User with id " +:+ user_id +:+ " not found.")), w) ∧
   SQLAlchemyFacadeRelationManager.create_place_for_user
     sqlalchemy_facade_relation_manager user_id place_data env w
   = (inl (ValueError ("User with id " +:+ user_id +:+ " not found.")), w))
  ∧
  (∀ user place w',
     user_repo w !! user_id = Some user →
     str_in_list (uuid4 env (uuid_calls w)) (User.places user) = false →
     FacadeRelationManager.create_place_for_user mgr user_id place_data env w
     = (inr place, w') ∨
     SQLAlchemyFacadeRelationManager.create_place_for_user
       sqlalchemy_facade_relation_manager user_id place_data env w
     = (inr place, w') →
     dict_get "owner_id" place = Some (VStr user_id) ∧
     ∃ p user',
       place = Place.to_dict p ∧
       dict_get "id" place = Some (VStr (Place.id p)) ∧
       place_repo w' !! Place.id p = Some p ∧
       user_repo w' !! user_id = Some user' ∧
       User.places user' = User.places user ++ [Place.id p] ∧
       count_occ string_dec (User.places user') (Place.id p) = 1).
Proof.
  split.
  - intros Hnone. split.
    + unfold FacadeRelationManager.create_place_for_user.
      rewrite bind_run. cbn. by rewrite Hnone.
    + unfold SQLAlchemyFacadeRelationManager.create_place_for_user.
      rewrite bind_run. cbn. by rewrite Hnone.
  - intros user place w' Hu Hfresh [H|H].
    + by apply (create_place_for_user_in_memory env w user_id place_data user).
    + by apply (create_place_for_user_sqlalchemy env w user_id place_data user).
Qed.

(** [repo.update(obj_id, data)] when the object is there. *)
Lemma in_memory_update_run {T : Type} `{BaseModel T} (tbl : Table T)
    (key : string) (data : dict) env w obj :
  rows tbl w !! key = Some obj →
  InMemoryRepository.update tbl key data env w =
  match update_items data obj with
  | (Some e, obj') => (inl e, (store_obj tbl key obj' env w).2)
  | (None, obj') =>
      (inr tt, (store_obj tbl key (save (utcnow env (clock_calls w)) obj') env
                  (with_clock_calls (S (clock_calls w)) w)).2)
  end.
Proof.
  intros Hobj. unfold InMemoryRepository.update. rewrite bind_run.
  unfold InMemoryRepository.get at 1. rewrite Hobj.
  unfold BaseModel_update.
  destruct (update_items data obj) as [[e|] obj']; by rewrite bind_run.
Qed.

(** A lookup by name in the amenity container cannot fail. *)
Lemma select_amenities_by_name (v : pyval) (objs : list Amenity.t) :
  ∃ found, select_by_attribute "name" v objs = inr found.
Proof.
  induction objs as [|a objs [found IH]]; [by eexists|].
  cbn. rewrite IH. cbn. by eexists.
Qed.

(** Creating an amenity touches the amenity container only. *)
Lemma create_amenity_frame (d : dict) env w r w' :
  AmenityFacade.create_amenity (FacadeRelationManager.amenity_facade mgr) d env w = (r, w') →
  user_repo w' = user_repo w ∧ place_repo w' = place_repo w ∧
  review_repo w' = review_repo w.
Proof.
  unfold AmenityFacade.create_amenity. rewrite bind_run. unfold lift at 1.
  destruct (as_str "name" d) as [e|name]; [by intros [= _ <-]|].
  rewrite bind_run, BaseModel_init_run. rewrite bind_run. cbn.
  destruct (select_amenities_by_name (VStr name) (map_to_list (amenity_repo w)).*2)
    as [found ->].
  destruct found; [|by intros [= _ <-]].
  rewrite bind_run. unfold lift at 1.
  destruct (Amenity.is_valid _) as [e|[]]; by intros [= _ <-].
Qed.

(** ** The name check of [add_amenity_to_a_place] *)

(** X29. The name check of [add_amenity_to_a_place], manager of the
    whole-object backends.  For a name of 1 to 49 characters the check
    passes: on an existing place that does not list the name, the name is
    appended to the place's amenities (whatever the later steps do).  For
    the empty name and for a name of 50 characters or more the operation
    raises a [ValueError] and leaves the whole state as it was; on an
    existing place that does not list the name, it is the error of the
    name check. *)
Theorem add_amenity_name_check (env : Env) (w : World) (place_id : string)
    (amenity_data : dict) (name : string) :
  as_str "name" amenity_data = inr name →
  ((1 ≤ len name ≤ 49)%nat →
   ∀ p, place_repo w !! place_id = Some p →
        str_in_list name (Place.amenities p) = false →
        ∃ r w' p',
          FacadeRelationManager.add_amenity_to_a_place mgr place_id amenity_data env w
          = (r, w') ∧
          place_repo w' !! place_id = Some p' ∧
          Place.amenities p' = Place.amenities p ++ [name])
  ∧
  ((len name = 0 ∨ 50 ≤ len name)%nat →
   ∃ msg,
     FacadeRelationManager.add_amenity_to_a_place mgr place_id amenity_data env w
     = (inl (ValueError msg), w) ∧
     ∀ p, place_repo w !! place_id = Some p →
          str_in_list name (Place.amenities p) = false →
          msg = "name must not be empty and less than 50 characters").
Proof.
  intros Hname.
  unfold FacadeRelationManager.add_amenity_to_a_place.
  rewrite bind_run. cbn. rewrite Hname.
  destruct (select_amenities_by_name (VStr name) (map_to_list (amenity_repo w)).*2)
    as [found ->].
  split.
  - intros Hlen p Hp Hnew. rewrite Hp, Hnew.
    assert (len_between name 50 = true) as ->.
    { unfold len_between. apply andb_true_iff.
      split; [apply Nat.ltb_lt | apply Nat.ltb_lt]; lia. }
    cbn [negb]. rewrite bind_run. cbn [store_obj]. rewrite bind_run.
    erewrite in_memory_update_run by (cbn; apply lookup_insert_eq).
    destruct (update_items _ _) as [[e|] p'] eqn:Hup;
      apply update_items_place_lists in Hup as (Ham & _); cbn in Ham.
    + do 3 eexists. split; [reflexivity|]. cbn. by rewrite lookup_insert_eq.
    + destruct found as [|a found].
      * destruct (AmenityFacade.create_amenity _ amenity_data env _) as [r w'] eqn:Hc.
        apply create_amenity_frame in Hc as (_ & Hps & _).
        do 3 eexists. split; [reflexivity|]. rewrite Hps. cbn.
        by rewrite lookup_insert_eq.
      * do 3 eexists. split; [reflexivity|]. cbn. by rewrite lookup_insert_eq.
  - intros Hlen.
    assert (len_between name 50 = false) as Hcheck.
    { unfold len_between. apply andb_false_iff.
      destruct Hlen as [Hz|Hbig]; [left; apply Nat.ltb_ge | right; apply Nat.ltb_ge]; lia. }
    destruct (place_repo w !! place_id) as [p|]; [|by eexists].
    destruct (str_in_list name (Place.amenities p)) eqn:Hin.
    + eexists. split; [reflexivity|]. intros ? [= <-]. congruence.
    + rewrite Hcheck. by eexists.
Qed.

(** ** Containment of strings *)

Lemma prefix_app (a post : string) : String.prefix a (a +:+ post) = true.
Proof.
  induction a as [|c a IH]; simpl; [by destruct post|].
  by destruct (ascii_dec c c).
Qed.

Lemma prefix_inv (a b : string) :
  String.prefix a b = true → ∃ post, b = a +:+ post.
Proof.
  revert b. induction a as [|c a IH]; intros b.
  - by exists b.
  - destruct b as [|c' b]; simpl; [done|].
    destruct (ascii_dec c c') as [<-|]; [|done].
    intros [post ->]%IH. by exists post.
Qed.

(** [str_contains needle hay] holds exactly when [needle] occurs in [hay]
    as a contiguous run of characters. *)
Lemma str_contains_spec (needle hay : string) :
  str_contains needle hay = true ↔ ∃ pre post, hay = pre +:+ needle +:+ post.
Proof.
  split.
  - induction hay as [|c hay IH]; cbn [str_contains]; rewrite orb_true_iff.
    + intros [Hp|]; [|done]. apply prefix_inv in Hp as [post ->].
      by exists EmptyString, post.
    + intros [Hp|Hc].
      * apply prefix_inv in Hp as [post ->]. by exists EmptyString, post.
      * destruct (IH Hc) as (pre & post & ->). by exists (String c pre), post.
  - intros (pre & post & ->). induction pre as [|c pre IH].
    + change (EmptyString +:+ needle +:+ post) with (needle +:+ post).
      destruct (needle +:+ post) eqn:E; cbn [str_contains];
        rewrite <- E, prefix_app; done.
    + change (String c pre +:+ needle +:+ post)
        with (String c (pre +:+ needle +:+ post)).
      cbn [str_contains]. by rewrite IH, orb_true_r.
Qed.

(** ** Reviews of a user *)

(** C10. [get_all_reviews_from_user] selects by containment of strings.
    When the identifier [a] of an existing user occurs inside the different
    identifier [b] of another existing user, and a review written by [b] is
    stored, the call for [a] returns a list that holds that review.  The
    list holds, each marked with the type "review", the stored reviews
    whose [user_id] has [a] somewhere inside it and no other: it is a
    rearrangement of those, whatever their order in the container. *)
Theorem reviews_of_user_by_containment (env : Env) (w : World)
    (a b pre post key : string) (ua ub : User.t) (r : Review.t) :
  a ≠ b →
  b = pre +:+ a +:+ post →
  user_repo w !! a = Some ua →
  user_repo w !! b = Some ub →
  review_repo w !! key = Some r →
  Review.user_id r = b →
  ∃ l w',
    FacadeRelationManager.get_all_reviews_from_user mgr a env w = (inr l, w') ∧
    Review.with_type "review" r ∈ l ∧
    (∀ r', r' ∈ l ↔
           ∃ key0 r0 pre0 post0,
             review_repo w !! key0 = Some r0 ∧
             Review.user_id r0 = pre0 +:+ a +:+ post0 ∧
             r' = Review.with_type "review" r0) ∧
    l ≡ₚ Review.with_type "review" <$>
           List.filter (λ r0, str_contains a (Review.user_id r0))
             (map_to_list (review_repo w)).*2.
Proof.
  intros Hne Hb Ha Hub Hr Hauthor.
  assert (Hsel : str_contains a (Review.user_id r) = true).
  { rewrite Hauthor. apply str_contains_spec. eauto. }
  assert (Hin : r ∈ (map_to_list (review_repo w)).*2).
  { apply list_elem_of_fmap. exists (key, r). split; [done|].
    by apply elem_of_map_to_list. }
  assert (Hiff : ∀ r',
            r' ∈ Review.with_type "review" <$>
                   List.filter (λ r0, str_contains a (Review.user_id r0))
                     (map_to_list (review_repo w)).*2 ↔
            ∃ key0 r0 pre0 post0,
              review_repo w !! key0 = Some r0 ∧
              Review.user_id r0 = pre0 +:+ a +:+ post0 ∧
              r' = Review.with_type "review" r0).
  { intros r'. rewrite list_elem_of_fmap. split.
    - intros (r0 & -> & [Hstored Hc]%list_elem_of_In%filter_In).
      apply list_elem_of_In, list_elem_of_fmap in Hstored as ([key0 r1] & -> & Hk).
      apply elem_of_map_to_list in Hk.
      apply str_contains_spec in Hc as (pre0 & post0 & Hc).
      by exists key0, r1, pre0, post0.
    - intros (key0 & r0 & pre0 & post0 & Hk & Hc & ->).
      exists r0. split; [done|].
      apply list_elem_of_In, filter_In. split.
      + apply list_elem_of_In, list_elem_of_fmap. exists (key0, r0).
        split; [done|]. by apply elem_of_map_to_list.
      + apply str_contains_spec. eauto. }
  unfold FacadeRelationManager.get_all_reviews_from_user.
  rewrite bind_run. cbn. rewrite Ha.
  destruct ((map_to_list (review_repo w)).*2) as [|r0 rs] eqn:Hall;
    [by apply not_elem_of_nil in Hin|].
  rewrite bind_run. cbn -[List.filter].
  assert (Hl : Review.with_type "review" r ∈
               Review.with_type "review" <$>
               List.filter (λ r1, str_contains a (Review.user_id r1)) (r0 :: rs)).
  { apply list_elem_of_fmap. exists r. split; [done|].
    apply list_elem_of_In, filter_In. split; [by apply list_elem_of_In | done]. }
  destruct (Review.with_type "review" <$> List.filter _ (r0 :: rs)) as [|x l] eqn:E;
    [by apply not_elem_of_nil in Hl|].
  do 2 eexists. split; [reflexivity|]. split; [exact Hl|]. split; [exact Hiff|done].
Qed.

(** ** The loop of [delete_user_and_associated_instances] stays within its bound *)

Lemma try_except_reraise {A : Type} (body : M A) env w :
  try_except_ValueError body (λ msg, raise (ValueError msg)) env w = body env w.
Proof.
  unfold try_except_ValueError, raise.
  by destruct (body env w) as [[[]|] ?].
Qed.

Lemma list_remove_length (x : string) (l : list string) :
  (List.length (list_remove x l) ≤ List.length l)%nat.
Proof.
  induction l as [|y l IH]; simpl; [done|].
  destruct (String.eqb x y); simpl; lia.
Qed.

Lemma update_items_user_error (u : User.t) (e : exn) (u' : User.t) :
  update_items (User.to_dict u) u = (Some e, u') → is_ValueError e = true.
Proof.
  unfold User.to_dict. cbn.
  destruct (fromisoformat (isoformat (User.created_at u))); cbn;
    [destruct (fromisoformat (isoformat (User.updated_at u))); cbn|];
    intros [= <- <-]; done.
Qed.

(** Deleting reviews one by one touches the review container only and
    cannot fail. *)
Lemma for_each_delete_reviews (l : list string) env w :
  ∃ w', for_each l (λ review_id, InMemoryRepository.delete reviews review_id) env w
        = (inr tt, w') ∧
        user_repo w' = user_repo w ∧ place_repo w' = place_repo w ∧
        amenity_repo w' = amenity_repo w.
Proof.
  revert w. induction l as [|x l IH]; intros w; [by eexists|].
  cbn [for_each]. rewrite bind_run.
  unfold InMemoryRepository.delete at 1. cbn.
  destruct (review_repo w !! x).
  - destruct (IH (Build_World (user_repo w) (place_repo w) (amenity_repo w)
                    (base.delete x (review_repo w)) (uuid_calls w) (clock_calls w)))
      as (w' & -> & ? & ? & ?).
    by exists w'.
  - apply IH.
Qed.

(** The cascade for one place never lengthens the list of places of any
    user, and the bound of a loop plays no part in it. *)
Lemma cascade_places_len (place_id : string) env w r w' :
  FacadeRelationManager.delete_place_and_associated_instances mgr place_id env w
  = (r, w') →
  r ≠ inl OutOfFuel ∧ ∀ uid, (places_len uid w' ≤ places_len uid w)%nat.
Proof.
  unfold FacadeRelationManager.delete_place_and_associated_instances.
  rewrite try_except_reraise, bind_run. cbn.
  destruct (place_repo w !! place_id) as [place|]; [|by intros [= <- <-]].
  rewrite bind_run. cbn.
  destruct (user_repo w !! Place.owner_id place) as [user|] eqn:Hu;
    [|by intros [= <- <-]].
  rewrite bind_run.
  destruct (str_in_list place_id (User.places user)); [|by intros [= <- <-]].
  rewrite bind_run. cbn [store_obj].
  erewrite in_memory_update_run by (cbn; apply lookup_insert_eq).
  assert (Hlen : ∀ (u' : User.t) (w0 : World) uid,
            User.places u' = list_remove place_id (User.places user) →
            user_repo w0 = <[Place.owner_id place := u']> (user_repo w) →
            (places_len uid w0 ≤ places_len uid w)%nat).
  { intros u' w0 uid Hpl Hw0. unfold places_len. rewrite Hw0.
    destruct (decide (Place.owner_id place = uid)) as [<-|Hne].
    - rewrite lookup_insert_eq, Hu, Hpl. apply list_remove_length.
    - by rewrite lookup_insert_ne. }
  destruct (update_items _ _) as [[e|] u'] eqn:Hup.
  - apply update_items_user_error in Hup as He.
    apply update_items_user_places in Hup. cbn in Hup.
    intros [= <- <-]. split; [by destruct e|].
    intros uid. apply (Hlen u'); [done|]. cbn. by rewrite insert_insert_eq.
  - apply update_items_user_places in Hup. cbn in Hup.
    destruct (Place.reviews place) as [|rid rids] eqn:Hrev.
    + intros [= <- <-]. split; [done|].
      intros uid. apply (Hlen (User.with_updated_at (utcnow env (clock_calls w)) u'));
        [done|]. cbn. by rewrite insert_insert_eq.
    + rewrite bind_run.
      match goal with
      | |- context [for_each ?l ?f env ?w0] =>
          destruct (for_each_delete_reviews l env w0) as (w1 & Hfor & Hus & _);
          change (for_each l f env w0)
            with (for_each l (λ review_id, InMemoryRepository.delete reviews review_id)
                    env w0)
      end.
      rewrite Hfor. cbn. unfold InMemoryRepository.delete. cbn.
      destruct (place_repo w1 !! place_id); intros [= <- <-]; (split; [done|]);
        intros uid;
        apply (Hlen (User.with_updated_at (utcnow env (clock_calls w)) u'));
        try done; cbn; rewrite Hus; cbn; by rewrite insert_insert_eq.
Qed.

Lemma for_each_live_within_bound (user_id : string) (fuel : nat) :
  ∀ (i : nat) env w r w',
    (places_len user_id w - i < fuel)%nat →
    for_each_live fuel i (FacadeRelationManager.live_places mgr user_id)
      (λ place_id,
         FacadeRelationManager.delete_place_and_associated_instances mgr place_id)
      env w = (r, w') →
    r ≠ inl OutOfFuel.
Proof.
  induction fuel as [|fuel IH]; intros i env w r w' Hlt; [lia|].
  cbn [for_each_live]. rewrite bind_run. cbn.
  destruct (_ !! i) as [place_id|] eqn:Hi; [|by intros [= <- <-]].
  apply lookup_lt_Some in Hi. fold (places_len user_id w) in Hi.
  rewrite bind_run.
  destruct (FacadeRelationManager.delete_place_and_associated_instances _ _ _ _)
    as [[e|[]] w1] eqn:Hc; apply cascade_places_len in Hc as [Hne Hle].
  - by intros [= <- <-].
  - apply IH. specialize (Hle user_id). lia.
Qed.

Lemma in_memory_delete_returns {T : Type} `{BaseModel T} (tbl : Table T)
    (key : string) env w r w' :
  InMemoryRepository.delete tbl key env w = (r, w') → r = inr tt.
Proof.
  unfold InMemoryRepository.delete.
  destruct (rows tbl w !! key); by intros [= <- _].
Qed.

(** X23. The loop of [delete_user_and_associated_instances] over the live
    list ends within the rounds allowed to it, one more than the length
    the list had when the loop began (a cascade can only shorten the
    list): running out of rounds is not an outcome of deleting a user. *)
Theorem delete_user_never_out_of_fuel (user_id : string) env w r w' :
  FacadeRelationManager.delete_user_and_associated_instances mgr user_id env w
  = (r, w') →
  r ≠ inl OutOfFuel.
Proof.
  unfold FacadeRelationManager.delete_user_and_associated_instances.
  rewrite try_except_reraise, bind_run. cbn -[for_each_live].
  destruct (user_repo w !! user_id) as [user|] eqn:Hu; [|by intros [= <- <-]].
  rewrite bind_run.
  destruct (User.places user) as [|pid pids] eqn:Hpl.
  - cbn. by intros ->%in_memory_delete_returns.
  - destruct (for_each_live _ _ _ _ _ _) as [[e|[]] w1] eqn:Hloop.
    + intros [= <- <-]. eapply for_each_live_within_bound; [|exact Hloop].
      unfold places_len. rewrite Hu, Hpl. simpl. lia.
    + cbn. by intros ->%in_memory_delete_returns.
Qed.

(** ** The general statements at work on concrete states *)

Import Scenario.

Lemma export_reload_export_instance :
  InFileRepository.timestamps_ok (InFileRepository.APlace (loft [rev1_id] ["Wifi"])) = true ∧
  ∃ o',
    InFileRepository.dict_to_obj
      (InFileRepository.obj_to_dict (InFileRepository.APlace (loft [rev1_id] ["Wifi"])))
    = inr o' ∧
    InFileRepository.obj_to_dict o'
    = InFileRepository.obj_to_dict (InFileRepository.APlace (loft [rev1_id] ["Wifi"])).
Proof.
  split; [reflexivity|].
  apply (RoundTrip.export_reload_export
           (InFileRepository.APlace (loft [rev1_id] ["Wifi"]))).
  reflexivity.
Defined.

Lemma create_place_for_user_instance :
  user_repo w_ann !! ann_id = Some (ann []) ∧
  str_in_list (uuid4 env0 (uuid_calls w_ann)) (User.places (ann [])) = false ∧
  (∃ place w',
     FacadeRelationManager.create_place_for_user mgr ann_id (hut_data 10) env0 w_ann
     = (inr place, w') ∧
     dict_get "owner_id" place = Some (VStr ann_id) ∧
     ∃ p user',
       place = Place.to_dict p ∧
       dict_get "id" place = Some (VStr (Place.id p)) ∧
       place_repo w' !! Place.id p = Some p ∧
       user_repo w' !! ann_id = Some user' ∧
       User.places user' = User.places (ann []) ++ [Place.id p] ∧
       count_occ string_dec (User.places user') (Place.id p) = 1) ∧
  (∃ place w',
     SQLAlchemyFacadeRelationManager.create_place_for_user
       sqlalchemy_facade_relation_manager ann_id (hut_data 10) env0 w_ann
     = (inr place, w') ∧
     dict_get "owner_id" place = Some (VStr ann_id) ∧
     ∃ p user',
       place = Place.to_dict p ∧
       dict_get "id" place = Some (VStr (Place.id p)) ∧
       place_repo w' !! Place.id p = Some p ∧
       user_repo w' !! ann_id = Some user' ∧
       User.places user' = User.places (ann []) ++ [Place.id p] ∧
       count_occ string_dec (User.places user') (Place.id p) = 1).
Proof.
  assert (Hu : user_repo w_ann !! ann_id = Some (ann [])) by (vm_compute; reflexivity).
  split; [exact Hu|]. split; [reflexivity|]. split.
  - destruct (FacadeRelationManager.create_place_for_user mgr ann_id (hut_data 10)
                env0 w_ann) as [[e|place] w'] eqn:E.
    + vm_compute in E. discriminate E.
    + exists place, w'. split; [reflexivity|].
      exact (proj2 (create_place_for_user_spec env0 w_ann ann_id (hut_data 10))
               (ann []) place w' Hu eq_refl (or_introl E)).
  - destruct (SQLAlchemyFacadeRelationManager.create_place_for_user
                sqlalchemy_facade_relation_manager ann_id (hut_data 10) env0 w_ann)
      as [[e|place] w'] eqn:E.
    + vm_compute in E. discriminate E.
    + exists place, w'. split; [reflexivity|].
      exact (proj2 (create_place_for_user_spec env0 w_ann ann_id (hut_data 10))
               (ann []) place w' Hu eq_refl (or_intror E)).
Defined.

Lemma add_amenity_name_check_instance :
  as_str "name" [("name", VStr "Sauna")] = inr "Sauna" ∧
  ∃ r w' p',
    FacadeRelationManager.add_amenity_to_a_place
      mgr loft_id [("name", VStr "Sauna")] env0 w_wifi = (r, w') ∧
    place_repo w' !! loft_id = Some p' ∧
    Place.amenities p' = Place.amenities (loft [] []) ++ ["Sauna"].
Proof.
  split; [reflexivity|].
  apply (proj1 (add_amenity_name_check env0 w_wifi loft_id
                  [("name", VStr "Sauna")] "Sauna" eq_refl)).
  - simpl. lia.
  - vm_compute. reflexivity.
  - reflexivity.
Defined.

(** C9. A name of exactly 50 characters, which the docstring of
    [Amenity.is_valid] ("exceeds 50 characters") and the 50-character
    column allow, is turned down: [add_amenity_to_a_place] tests
    [0 < len(amenity_name) < 50] and raises, leaving the state as it was,
    and [Amenity.is_valid] tests the same strict bound. *)
Theorem add_amenity_rejects_50_characters :
  len name50 = 50%nat ∧
  place_repo w_wifi !! loft_id = Some (loft [] []) ∧
  FacadeRelationManager.add_amenity_to_a_place
    mgr loft_id [("name", VStr name50)] env0 w_wifi
  = (inl (ValueError "name must not be empty and less than 50 characters"), w_wifi) ∧
  Amenity.is_valid (Amenity.mk odd_id t0 t0 name50)
  = inl (ValueError "Name must not be empty and less than 50 characters.").
Proof.
  split; [reflexivity|]. split; [vm_compute; reflexivity|].
  split; vm_compute; reflexivity.
Qed.

(** Lengths are counted in characters: a name of 25 accented letters
    passes the check although its encoding has 50 bytes, and the amenity
    is created. *)
Lemma add_amenity_counts_characters :
  len name25 = 25%nat ∧ String.length name25 = 50%nat ∧
  let (r, w') :=
    FacadeRelationManager.add_amenity_to_a_place
      mgr loft_id [("name", VStr name25)] env0 w_wifi in
  match r with
  | inr record => dict_get "name" record
  | inl _ => None
  end = Some (VStr name25) ∧
  Place.amenities <$> place_repo w' !! loft_id = Some [name25].
Proof.
  split; [reflexivity|]. split; [reflexivity|].
  open_run. split; vm_refl.
Qed.

Lemma reviews_of_user_by_containment_instance :
  "u1" ≠ "u12" ∧
  "u12" = EmptyString +:+ "u1" +:+ "2" ∧
  user_repo w_substring !! "u1" = Some bob ∧
  user_repo w_substring !! "u12" = Some cy ∧
  review_repo w_substring !! rev1_id = Some cy_review ∧
  Review.user_id cy_review = "u12" ∧
  ∃ l w',
    FacadeRelationManager.get_all_reviews_from_user mgr "u1" env0 w_substring
    = (inr l, w') ∧
    Review.with_type "review" cy_review ∈ l ∧
    (∀ r', r' ∈ l ↔
           ∃ key0 r0 pre0 post0,
             review_repo w_substring !! key0 = Some r0 ∧
             Review.user_id r0 = pre0 +:+ "u1" +:+ post0 ∧
             r' = Review.with_type "review" r0) ∧
    l ≡ₚ Review.with_type "review" <$>
           List.filter (λ r0, str_contains "u1" (Review.user_id r0))
             (map_to_list (review_repo w_substring)).*2.
Proof.
  assert (Hne : "u1" ≠ "u12") by discriminate.
  assert (Hu1 : user_repo w_substring !! "u1" = Some bob) by (vm_compute; reflexivity).
  assert (Hu12 : user_repo w_substring !! "u12" = Some cy) by (vm_compute; reflexivity).
  assert (Hr : review_repo w_substring !! rev1_id = Some cy_review)
    by (vm_compute; reflexivity).
  repeat (split; [first [exact Hne | exact Hu1 | exact Hu12 | exact Hr | reflexivity]|]).
  exact (reviews_of_user_by_containment env0 w_substring "u1" "u12" EmptyString "2"
           rev1_id bob cy cy_review Hne eq_refl Hu1 Hu12 Hr eq_refl).
Defined.

(* ===================================================================== *)
(** * Further properties of the service layer                             *)
(* ===================================================================== *)

(** ** The range checks of [Place.is_valid] *)

Lemma num_lt_false (a b : num) : num_lt a b = false ↔ (num_value b <= num_value a)%Q.
Proof.
  unfold num_lt. rewrite negb_false_iff. apply Qle_bool_iff.
Qed.

Lemma num_lt_true (a b : num) : num_lt a b = true ↔ (num_value a < num_value b)%Q.
Proof.
  unfold num_lt. rewrite negb_true_iff. split.
  - intros Hf. apply Qnot_le_lt. intros Hle. apply Qle_bool_iff in Hle. congruence.
  - intros Hlt. destruct (Qle_bool (num_value b) (num_value a)) eqn:E; [|done].
    apply Qle_bool_iff in E. by apply Qlt_not_le in Hlt.
Qed.

(** What a place that passes [is_valid] satisfies, as far as the
    coordinates go: the latitude is within [-90, 90] and the longitude is
    at most 180.  Nothing bounds the longitude from below. *)
Lemma is_valid_ranges (p : Place.t) :
  Place.is_valid p = inr true →
  (-90 <= num_value (Place.latitude p) <= 90)%Q ∧
  (num_value (Place.longitude p) <= 180)%Q.
Proof.
  unfold Place.is_valid. intros H.
  repeat match type of H with
         | (if ?b then _ else _) = _ => destruct b eqn:?; [discriminate H|]
         end.
  repeat match goal with
         | E : (_ || _) = false |- _ => apply orb_false_iff in E as [? ?]
         end.
  unfold num_gt in *.
  repeat match goal with
         | E : num_lt _ _ = false |- _ => apply num_lt_false in E; cbn in E
         end.
  auto.
Qed.

(** The longitude test does not look at values below -180: a valid place
    stays valid when its longitude is replaced by any float not above 180. *)
Lemma is_valid_any_low_longitude (p : Place.t) (lon : Q) :
  Place.is_valid p = inr true →
  (lon <= 180)%Q →
  Place.is_valid
    (Place.mk (Place.id p) (Place.created_at p) (Place.updated_at p) (Place.title p)
              (Place.description p) (Place.price p) (Place.latitude p) (PyFloat lon)
              (Place.owner_first_name p) (Place.owner_id p) (Place.reviews p)
              (Place.amenities p))
  = inr true.
Proof.
  unfold Place.is_valid. intros H Hlon.
  cbn [Place.price Place.latitude Place.longitude Place.title Place.description
       Place.owner_first_name Place.owner_id].
  repeat match type of H with
         | (if ?b then _ else _) = _ =>
             let E := fresh "E" in destruct b eqn:E; [discriminate H|]
         end.
  cbn [forallb] in E4 |- *. apply negb_false_iff in E4.
  apply andb_true_iff in E4 as [-> [-> _]%andb_true_iff].
  cbn [isinstance_float andb negb].
  apply orb_false_iff in E6 as [_ ->]. rewrite orb_false_r.
  assert (num_gt (PyFloat lon) (PyInt 180) = false) as ->; [|done].
  unfold num_gt. by apply num_lt_false.
Qed.

(** X2. A payload whose latitude is outside [-90, 90], or whose longitude is
    above 180, is turned down by [create_place], and nothing is stored. *)
Theorem create_place_range_checks (c : repo_class) (d : dict) (env : Env) (w : World)
    (lat lon : num) :
  as_num "latitude" d = inr lat →
  as_num "longitude" d = inr lon →
  (90 < num_value lat ∨ num_value lat < -90 ∨ 180 < num_value lon)%Q →
  ∃ e w',
    PlaceFacade.create_place {| PlaceFacade.place_repo := select_repo c places |} d env w
    = (inl e, w') ∧
    place_repo w' = place_repo w.
Proof.
  intros Hlat Hlon Hout.
  destruct (PlaceFacade.create_place _ d env w) as [[e|record] w'] eqn:Hrun.
  - apply create_place_inl in Hrun as (_ & Hps & _). by exists e, w'.
  - apply create_place_inr in Hrun as (p & _ & _ & _ & Hlat' & Hlon' & Hvalid & _).
    apply is_valid_ranges in Hvalid as ([Hlo Hhi] & Hlong).
    rewrite Hlat in Hlat'. rewrite Hlon in Hlon'.
    injection Hlat' as ->. injection Hlon' as ->.
    destruct Hout as [Hout|[Hout|Hout]];
      [by apply Qlt_not_le in Hout .. ].
Qed.

(** ** Lookups by attribute *)

Lemma select_by_attribute_total {T : Type} `{BaseModel T} (attr : string) (v : pyval)
    (f : T → pyval) (objs : list T) :
  (∀ o, getattr attr o = Some (f o)) →
  select_by_attribute attr v objs = inr (List.filter (λ o, py_eqb (f o) v) objs).
Proof.
  intros Hf. induction objs as [|o objs IH]; [done|].
  cbn [select_by_attribute List.filter]. rewrite Hf, IH. cbn.
  by destruct (py_eqb (f o) v).
Qed.

Lemma values_elem_of {T : Type} (m : gmap string T) (o : T) :
  o ∈ (map_to_list m).*2 ↔ ∃ key, m !! key = Some o.
Proof.
  rewrite list_elem_of_fmap. split.
  - intros ([key o'] & -> & Hin). exists key. by apply elem_of_map_to_list.
  - intros (key & Hkey). exists (key, o). split; [done|]. by apply elem_of_map_to_list.
Qed.

Lemma filter_nil_iff {A : Type} (f : A → bool) (l : list A) :
  List.filter f l = [] ↔ ∀ x, x ∈ l → f x = false.
Proof.
  induction l as [|a l IH]; simpl.
  - split; [by intros _ x ?%not_elem_of_nil|done].
  - destruct (f a) eqn:E.
    + split; [done|]. intros Hall. specialize (Hall a (list_elem_of_here _ _)). congruence.
    + rewrite IH. split.
      * intros Hall x [->|Hx]%elem_of_cons; auto.
      * intros Hall x Hx. apply Hall. by apply list_elem_of_further.
Qed.

(** The places a lookup by title finds are the stored places with that
    title. *)
Lemma places_by_title (c : repo_class) (title : string) env w :
  get_by_attribute (select_repo c places) "title" (VStr title) env w
  = (inr (List.filter (λ p, String.eqb (Place.title p) title)
            (map_to_list (place_repo w)).*2), w).
Proof.
  destruct c; cbn;
    by rewrite (select_by_attribute_total "title" _ (λ p, VStr (Place.title p))).
Qed.

Lemma amenities_by_name (c : repo_class) (name : string) env w :
  get_by_attribute (select_repo c amenities) "name" (VStr name) env w
  = (inr (List.filter (λ a, String.eqb (Amenity.name a) name)
            (map_to_list (amenity_repo w)).*2), w).
Proof.
  destruct c; cbn;
    by rewrite (select_by_attribute_total "name" _ (λ a, VStr (Amenity.name a))).
Qed.

(** ** The place facade *)

Lemma len_between_iff (s : string) (hi : nat) :
  len_between s hi = true ↔ (0 < len s < hi)%nat.
Proof.
  unfold len_between. rewrite andb_true_iff, !Nat.ltb_lt. tauto.
Qed.

(** X1. The places [is_valid] accepts: a price that is not negative, a
    title of 1 to 99 characters, a description of 1 to 499, an owner first
    name and an owner id of 1 to 99, price, latitude and longitude all
    floats, a latitude within [-90, 90] and a longitude of at most 180
    (numbers being ints or finite floats).  There is no lower bound on the
    longitude.  In every other case [is_valid] raises. *)
Theorem place_is_valid_iff (p : Place.t) :
  Place.is_valid p = inr true ↔
  (0 <= num_value (Place.price p))%Q ∧
  (0 < len (Place.title p) < 100)%nat ∧
  (0 < len (Place.description p) < 500)%nat ∧
  (0 < len (Place.owner_first_name p) < 100)%nat ∧
  (0 < len (Place.owner_id p) < 100)%nat ∧
  isinstance_float (Place.price p) = true ∧
  isinstance_float (Place.latitude p) = true ∧
  isinstance_float (Place.longitude p) = true ∧
  (-90 <= num_value (Place.latitude p) <= 90)%Q ∧
  (num_value (Place.longitude p) <= 180)%Q.
Proof.
  split.
  - intros H. pose proof (is_valid_ranges p H) as [Hlat Hlon].
    unfold Place.is_valid in H.
    repeat match type of H with
           | (if ?b then _ else _) = _ =>
               let E := fresh "E" in destruct b eqn:E; [discriminate H|]
           end.
    apply num_lt_false in E. cbn in E.
    apply negb_false_iff, len_between_iff in E0, E1, E2, E3.
    apply negb_false_iff in E4. cbn in E4.
    apply andb_true_iff in E4 as [? [? [? _]%andb_true_iff]%andb_true_iff].
    split; [exact E|]. tauto.
  - intros (Hp & Ht & Hd & Hf & Ho & Fp & Fla & Flo & [Hlo Hhi] & Hlon).
    unfold Place.is_valid.
    apply len_between_iff in Ht, Hd, Hf, Ho. rewrite Ht, Hd, Hf, Ho. cbn [negb].
    assert (num_lt (Place.price p) (PyInt 0) = false) as -> by by apply num_lt_false.
    cbn [forallb]. rewrite Fp, Fla, Flo. cbn [andb negb].
    assert (num_gt (Place.latitude p) (PyInt 90) = false) as ->
      by (unfold num_gt; by apply num_lt_false).
    assert (num_lt (Place.latitude p) (PyInt (-90)) = false) as ->
      by by apply num_lt_false.
    assert (num_gt (Place.longitude p) (PyInt 180) = false) as ->
      by (unfold num_gt; by apply num_lt_false).
    assert (num_lt (Place.latitude p) (PyInt (-180)) = false) as ->; [|done].
    apply num_lt_false. cbn. eapply Qle_trans; [|exact Hlo]. done.
Qed.

(** [is_valid] returns [True] or raises: it never returns [False]. *)
Lemma place_is_valid_never_false (p : Place.t) : Place.is_valid p ≠ inr false.
Proof.
  unfold Place.is_valid.
  repeat match goal with |- context [if ?b then _ else _] => destruct b end; done.
Qed.

Lemma filter_eqb_nil_title (title : string) (m : gmap string Place.t) :
  List.filter (λ p, String.eqb (Place.title p) title) (map_to_list m).*2 = [] ↔
  ∀ key p, m !! key = Some p → Place.title p ≠ title.
Proof.
  rewrite filter_nil_iff. split.
  - intros Hall key p Hp Ht. specialize (Hall p). rewrite Ht, String.eqb_refl in Hall.
    assert (true = false) by (apply Hall, values_elem_of; eauto). done.
  - intros Hall p [key Hp]%values_elem_of. apply String.eqb_neq. eauto.
Qed.

(** A place whose title no stored place has can be put under any key
    without making two titles equal. *)
Lemma titles_unique_insert (m : gmap string Place.t) (key : string) (p : Place.t) :
  titles_unique m →
  (∀ k q, m !! k = Some q → Place.title q ≠ Place.title p) →
  titles_unique (<[key := p]> m).
Proof.
  intros Hu Hnew k1 k2 p1 p2.
  destruct (decide (key = k1)) as [<-|N1], (decide (key = k2)) as [<-|N2];
    rewrite ?lookup_insert_eq, ?lookup_insert_ne by done; try done.
  - intros [= <-] H2 Ht. by destruct (Hnew _ _ H2).
  - intros H1 [= <-] Ht. by destruct (Hnew _ _ H1).
  - apply Hu.
Qed.

(** A successful [create_place] found no stored place with the title of
    the new one. *)
Lemma create_place_inr_title (c : repo_class) (d : dict) env w record w1 :
  PlaceFacade.create_place {| PlaceFacade.place_repo := select_repo c places |} d env w
  = (inr record, w1) →
  ∃ title, as_str "title" d = inr title ∧
           ∀ key q, place_repo w !! key = Some q → Place.title q ≠ title.
Proof.
  unfold PlaceFacade.create_place. intros H.
  inv_run H.
  rewrite BaseModel_init_run in Hm8. injection Hm8 as <- <-.
  cbn [PlaceFacade.place_repo Place.title] in Hm9.
  rewrite places_by_title in Hm9. injection Hm9 as <- <-.
  destruct (List.filter _ _) eqn:Hf in H; [|discriminate H].
  cbn [place_repo with_clock_calls with_uuid_calls] in Hf.
  rewrite filter_eqb_nil_title in Hf. eauto.
Qed.

(** X3. [create_place] keeps the titles of the stored places pairwise
    different, whether it returns or raises: a place is only stored after
    the lookup by title found nothing. *)
Theorem create_place_keeps_titles_unique (c : repo_class) (d : dict) env w r w' :
  titles_unique (place_repo w) →
  PlaceFacade.create_place {| PlaceFacade.place_repo := select_repo c places |} d env w
  = (r, w') →
  titles_unique (place_repo w').
Proof.
  intros Hu Hrun. destruct r as [e|record].
  - apply create_place_inl in Hrun as (_ & -> & _). exact Hu.
  - pose proof (create_place_inr_title _ _ _ _ _ _ Hrun) as (title & Ht & Hfree).
    unfold PlaceFacade.create_place in Hrun. inv_run Hrun.
    rewrite Ht in Hm. injection Hm as <-.
    rewrite BaseModel_init_run in Hm8. injection Hm8 as <- <-.
    cbn [PlaceFacade.place_repo Place.title] in Hm9.
    rewrite places_by_title in Hm9. injection Hm9 as <- <-.
    destruct (List.filter _ _) in Hrun; [|discriminate Hrun].
    inv_run Hrun.
    match type of Hrun with (if ?b then _ else _) _ _ = _ => destruct b end;
      [|discriminate Hrun].
    inv_run Hrun.
    assert (place_repo w0 =
            <[uuid4 env (uuid_calls w) :=
                Place.mk (uuid4 env (uuid_calls w)) (now env (clock_calls w))
                         (now env (S (clock_calls w))) title a0 a1 a2 a3 a4 a5 a7 a6]>
              (place_repo w)) as ->.
    { destruct c;
        cbv [add select_repo InMemoryRepository.repository
             SQLAlchemyRepository.repository InMemoryRepository.add
             SQLAlchemyRepository.add store_obj PlaceFacade.place_repo] in Hm8;
        simplify_eq; reflexivity. }
    by apply titles_unique_insert.
Qed.

(** X4. A complete payload with a title no stored place has, from which
    [is_valid] accepts the place built, is stored under the identifier
    [uuid4] hands out and its record is returned; the other containers are
    left alone. *)
Theorem create_place_succeeds (c : repo_class) (d : dict) env w
    (title description owner_first_name owner_id : string)
    (price latitude longitude : num) (ams revs : list string) :
  as_str "title" d = inr title →
  as_str "description" d = inr description →
  as_num "price" d = inr price →
  as_num "latitude" d = inr latitude →
  as_num "longitude" d = inr longitude →
  as_str "owner_first_name" d = inr owner_first_name →
  as_str "owner_id" d = inr owner_id →
  get_list_or_empty "amenities" d = inr ams →
  get_list_or_empty "reviews" d = inr revs →
  (∀ key q, place_repo w !! key = Some q → Place.title q ≠ title) →
  let p := Place.mk (uuid4 env (uuid_calls w)) (now env (clock_calls w))
                    (now env (S (clock_calls w))) title description price
                    latitude longitude owner_first_name owner_id revs ams in
  Place.is_valid p = inr true →
  ∃ w',
    PlaceFacade.create_place {| PlaceFacade.place_repo := select_repo c places |} d env w
    = (inr (Place.to_dict p), w') ∧
    place_repo w' = <[Place.id p := p]> (place_repo w) ∧
    user_repo w' = user_repo w ∧ amenity_repo w' = amenity_repo w ∧
    review_repo w' = review_repo w.
Proof.
  intros H1 H2 H3 H4 H5 H6 H7 H8 H9 Hfree p Hvalid.
  unfold PlaceFacade.create_place.
  do 9 (rewrite bind_run; unfold lift at 1;
        rewrite ?H1, ?H2, ?H3, ?H4, ?H5, ?H6, ?H7, ?H8, ?H9).
  rewrite bind_run, BaseModel_init_run. rewrite bind_run.
  cbn [PlaceFacade.place_repo Place.title fst snd].
  rewrite places_by_title.
  apply filter_eqb_nil_title in Hfree.
  cbn [place_repo with_clock_calls with_uuid_calls]. rewrite Hfree.
  rewrite bind_run. unfold lift at 1. fold p. rewrite Hvalid.
  rewrite bind_run.
  destruct c; cbn; eexists; (split; [reflexivity|]); by cbn.
Qed.

(** ** The amenity facade *)

Lemma filter_eqb_nil_name (name : string) (m : gmap string Amenity.t) :
  List.filter (λ a, String.eqb (Amenity.name a) name) (map_to_list m).*2 = [] ↔
  ∀ key a, m !! key = Some a → Amenity.name a ≠ name.
Proof.
  rewrite filter_nil_iff. split.
  - intros Hall key a Ha Hn. specialize (Hall a). rewrite Hn, String.eqb_refl in Hall.
    assert (true = false) by (apply Hall, values_elem_of; eauto). done.
  - intros Hall a [key Ha]%values_elem_of. apply String.eqb_neq. eauto.
Qed.

Lemma names_unique_insert (m : gmap string Amenity.t) (key : string) (a : Amenity.t) :
  names_unique m →
  (∀ k b, m !! k = Some b → Amenity.name b ≠ Amenity.name a) →
  names_unique (<[key := a]> m).
Proof.
  intros Hu Hnew k1 k2 a1 a2.
  destruct (decide (key = k1)) as [<-|N1], (decide (key = k2)) as [<-|N2];
    rewrite ?lookup_insert_eq, ?lookup_insert_ne by done; try done.
  - intros [= <-] H2 Hn. by destruct (Hnew _ _ H2).
  - intros H1 [= <-] Hn. by destruct (Hnew _ _ H1).
  - apply Hu.
Qed.

(** The two outcomes of [create_amenity]. *)
Lemma create_amenity_run (c : repo_class) (d : dict) env w r w' :
  AmenityFacade.create_amenity
    {| AmenityFacade.amenity_repo := select_repo c amenities |} d env w = (r, w') →
  user_repo w' = user_repo w ∧ place_repo w' = place_repo w ∧
  review_repo w' = review_repo w ∧
  ((∃ e, r = inl e ∧ amenity_repo w' = amenity_repo w) ∨
   (∃ a, r = inr (Amenity.to_dict a) ∧
         Amenity.id a = uuid4 env (uuid_calls w) ∧
         as_str "name" d = inr (Amenity.name a) ∧
         (0 < len (strip (Amenity.name a)) < 50)%nat ∧
         (∀ key b, amenity_repo w !! key = Some b → Amenity.name b ≠ Amenity.name a) ∧
         amenity_repo w' = <[Amenity.id a := a]> (amenity_repo w))).
Proof.
  unfold AmenityFacade.create_amenity. rewrite bind_run. unfold lift at 1.
  destruct (as_str "name" d) as [e|name] eqn:Hname.
  { intros [= <- <-]. repeat split; eauto. }
  rewrite bind_run, BaseModel_init_run. rewrite bind_run.
  cbn [AmenityFacade.amenity_repo Amenity.name fst snd].
  rewrite amenities_by_name.
  cbn [amenity_repo with_clock_calls with_uuid_calls].
  destruct (List.filter _ _) as [|b bs] eqn:Hf.
  2:{ intros [= <- <-]. repeat split; eauto. }
  rewrite filter_eqb_nil_name in Hf.
  rewrite bind_run. unfold lift at 1.
  destruct (Amenity.is_valid _) as [e|valid] eqn:Hvalid.
  { intros [= <- <-]. repeat split; eauto. }
  unfold Amenity.is_valid in Hvalid. cbn [Amenity.name] in Hvalid.
  destruct (len_between (strip name) 50) eqn:Hlen; [|discriminate Hvalid].
  injection Hvalid as <-.
  rewrite bind_run.
  apply len_between_iff in Hlen.
  destruct c; cbn; intros [= <- <-]; (repeat split; try done); right;
    eexists; (split; [reflexivity|]); cbn;
    (split; [done|]); (split; [done|]); (split; [exact Hlen|]); by split.
Qed.

(** X5. What [create_amenity] does, in full.  Either it raises and every
    container is as before; or it returns the record of an amenity it has
    stored under the identifier [uuid4] handed out, whose name is the one
    of the payload, has 1 to 49 characters once stripped of surrounding
    white space, and was the name of no stored amenity.  So names that
    were pairwise different stay pairwise different. *)
Theorem create_amenity_cases (c : repo_class) (d : dict) env w r w' :
  AmenityFacade.create_amenity
    {| AmenityFacade.amenity_repo := select_repo c amenities |} d env w = (r, w') →
  user_repo w' = user_repo w ∧ place_repo w' = place_repo w ∧
  review_repo w' = review_repo w ∧
  ((∃ e, r = inl e ∧ amenity_repo w' = amenity_repo w) ∨
   (∃ a, r = inr (Amenity.to_dict a) ∧
         Amenity.id a = uuid4 env (uuid_calls w) ∧
         as_str "name" d = inr (Amenity.name a) ∧
         (0 < len (strip (Amenity.name a)) < 50)%nat ∧
         (∀ key b, amenity_repo w !! key = Some b → Amenity.name b ≠ Amenity.name a) ∧
         amenity_repo w' = <[Amenity.id a := a]> (amenity_repo w))) ∧
  (names_unique (amenity_repo w) → names_unique (amenity_repo w')).
Proof.
  intros Hrun. apply create_amenity_run in Hrun as (Hus & Hps & Hrs & Hcases).
  repeat (split; [done|]). intros Hu.
  destruct Hcases as [(e & _ & ->)|(a & _ & _ & _ & _ & Hfree & ->)]; [done|].
  by apply names_unique_insert.
Qed.

(** ** [BaseModel.update] *)







Lemma update_items_own_user (u : User.t) :
  in_range (User.created_at u) = true → in_range (User.updated_at u) = true →
  update_items (User.to_dict u) u = (None, u).
Proof.
  intros Hc Hu. destruct u. cbn in Hc, Hu. cbv -[isoformat fromisoformat].
  by rewrite !fromisoformat_isoformat.
Qed.

Lemma update_items_own_place (p : Place.t) :
  in_range (Place.created_at p) = true → in_range (Place.updated_at p) = true →
  update_items (Place.to_dict p) p = (None, p).
Proof.
  intros Hc Hu. destruct p. cbn in Hc, Hu. cbv -[isoformat fromisoformat].
  by rewrite !fromisoformat_isoformat.
Qed.

(** X7. [repo.update(obj_id, obj.to_dict())], the way the managers persist
    an object they have changed in place: for a stored user or place whose
    timestamps are datetime objects, every value of the record is assigned
    back unchanged and [save] stamps [updated_at]; nothing else moves. *)
Theorem update_with_own_record (env : Env) (w : World) (key : string) :
  (∀ u, user_repo w !! key = Some u →
        in_range (User.created_at u) = true → in_range (User.updated_at u) = true →
        InMemoryRepository.update users key (User.to_dict u) env w
        = (inr tt,
           set_rows users
             (<[key := User.with_updated_at (utcnow env (clock_calls w)) u]> (user_repo w))
             (with_clock_calls (S (clock_calls w)) w))) ∧
  (∀ p, place_repo w !! key = Some p →
        in_range (Place.created_at p) = true → in_range (Place.updated_at p) = true →
        InMemoryRepository.update places key (Place.to_dict p) env w
        = (inr tt,
           set_rows places
             (<[key := Place.with_updated_at (utcnow env (clock_calls w)) p]> (place_repo w))
             (with_clock_calls (S (clock_calls w)) w))).
Proof.
  split.
  - intros u Hu Hc Hup.
    rewrite (in_memory_update_run users key _ env w u Hu), update_items_own_user by done.
    reflexivity.
  - intros p Hp Hc Hup.
    rewrite (in_memory_update_run places key _ env w p Hp), update_items_own_place by done.
    reflexivity.
Qed.

(** X8. The docstring of [update] calls [created_at] and [updated_at] not
    updatable, yet a string under either key is parsed and assigned: an
    update whose only entry is [created_at] with the ISO form of a
    datetime [d] leaves the stored place with [created_at = d]. *)
Theorem update_rewrites_created_at (env : Env) (w : World) (key : string)
    (p : Place.t) (d : datetime) :
  place_repo w !! key = Some p →
  in_range d = true →
  InMemoryRepository.update places key [("created_at", VStr (isoformat d))] env w
  = (inr tt,
     set_rows places
       (<[key := Place.with_updated_at (utcnow env (clock_calls w))
                   (Place.with_created_at d p)]> (place_repo w))
       (with_clock_calls (S (clock_calls w)) w)).
Proof.
  intros Hp Hd.
  rewrite (in_memory_update_run places key _ env w p Hp).
  cbn [update_items]. unfold update_item.
  change (hasattr p "created_at" && _) with false. cbv iota.
  change (str_in_list "created_at" ["created_at"; "updated_at"]) with true. cbv iota.
  by rewrite fromisoformat_isoformat.
Qed.

(** X9. [update] has no rollback.  When the dictionary holds a new title
    and then a [created_at] string that is no ISO timestamp (it does not
    begin with a digit), the call raises a [ValueError], the stored place
    already carries the new title, and [updated_at] has not been stamped. *)
Theorem update_is_not_atomic (env : Env) (w : World) (key : string)
    (p : Place.t) (title s : string) :
  place_repo w !! key = Some p →
  (∀ c s', s = String c s' → digit_val c = None) →
  ∃ msg,
    InMemoryRepository.update places key
      [("title", VStr title); ("created_at", VStr s)] env w
    = (inl (ValueError msg),
       set_rows places
         (<[key := Place.mk (Place.id p) (Place.created_at p) (Place.updated_at p)
                     title (Place.description p) (Place.price p) (Place.latitude p)
                     (Place.longitude p) (Place.owner_first_name p) (Place.owner_id p)
                     (Place.reviews p) (Place.amenities p)]> (place_repo w)) w).
Proof.
  intros Hp Hs.
  rewrite (in_memory_update_run places key _ env w p Hp).
  cbn [update_items]. unfold update_item at 1.
  change (hasattr p "title" && _) with true. cbv iota.
  change (setattr "title" (VStr title) p) with (Place.setattr "title" (VStr title) p).
  cbn [Place.setattr].
  unfold update_item.
  match goal with |- context [hasattr ?q "created_at" && ?b] =>
    change (hasattr q "created_at" && b) with false end.
  cbv iota.
  change (str_in_list "created_at" ["created_at"; "updated_at"]) with true. cbv iota.
  rewrite (fromisoformat_no_digit s Hs).
  eexists. reflexivity.
Qed.

(** X10. [update_amenity] validates the new name but never looks it up: an
    amenity can be renamed to the name another stored amenity has.  The
    record returned and the object stored carry the new name, the other
    amenity is untouched, and the names are no longer pairwise different. *)
Theorem update_amenity_can_duplicate_a_name (c : repo_class) (env : Env) (w : World)
    (k1 k2 : string) (a1 a2 : Amenity.t) :
  k1 ≠ k2 →
  amenity_repo w !! k1 = Some a1 →
  amenity_repo w !! k2 = Some a2 →
  (0 < len (strip (Amenity.name a2)) < 50)%nat →
  let a1' := Amenity.mk (Amenity.id a1) (Amenity.created_at a1)
                        (utcnow env (S (S (clock_calls w)))) (Amenity.name a2) in
  ∃ w',
    AmenityFacade.update_amenity
      {| AmenityFacade.amenity_repo := select_repo c amenities |}
      k1 [("name", VStr (Amenity.name a2))] env w
    = (inr (Amenity.to_dict a1'), w') ∧
    amenity_repo w' !! k1 = Some a1' ∧
    amenity_repo w' !! k2 = Some a2 ∧
    ¬ names_unique (amenity_repo w').
Proof.
  intros Hne H1 H2 Hlen a1'.
  unfold AmenityFacade.update_amenity. cbn [AmenityFacade.amenity_repo]. rewrite bind_run.
  assert (get (select_repo c amenities) k1 env w = (inr (Some a1), w)) as ->
    by (destruct c; cbv [get select_repo InMemoryRepository.repository SQLAlchemyRepository.repository InMemoryRepository.get SQLAlchemyRepository.get rows amenities]; by rewrite H1).
  rewrite bind_run. unfold lift at 1. cbn [as_str dict_get String.eqb Ascii.eqb Bool.eqb].
  rewrite bind_run, BaseModel_init_run. rewrite bind_run. unfold lift at 1.
  unfold Amenity.is_valid. cbn [Amenity.name fst snd].
  apply len_between_iff in Hlen. rewrite Hlen. cbn [negb].
  rewrite bind_run.
  set (w1 := with_clock_calls _ _).
  assert (Hupd : update (select_repo c amenities) k1 [("name", VStr (Amenity.name a2))] env w1
                 = (inr tt, set_rows amenities (<[k1 := a1']> (amenity_repo w))
                              (with_clock_calls (S (clock_calls w1)) w1))).
  { destruct c; cbn; unfold w1; cbn; rewrite H1; reflexivity. }
  rewrite Hupd. rewrite bind_run. unfold current, ret. 
  assert (Htbl : table_of (select_repo c amenities) = amenities) by by destruct c.
  rewrite Htbl. cbn [rows set_rows amenities amenity_repo].
  rewrite lookup_insert_eq.
  eexists. split; [reflexivity|]. cbn [amenity_repo].
  rewrite lookup_insert_eq, lookup_insert_ne, H2 by done.
  repeat split. intros Hu. apply Hne.
  apply (Hu k1 k2 a1' a2); [apply lookup_insert_eq | by rewrite lookup_insert_ne | done].
Qed.

(** ** [update_place] *)

Lemma dict_get_key (key : string) (d : dict) (v : pyval) :
  dict_get key d = Some v → key ∈ d.*1.
Proof.
  induction d as [|[k v'] d IH]; [done|].
  cbn [dict_get fmap list_fmap fst]. destruct (String.eqb key k) eqn:E.
  - apply String.eqb_eq in E as <-. intros _. apply list_elem_of_here.
  - intros Hget. apply list_elem_of_further. by apply IH.
Qed.

Lemma place_setattr_title (key : string) (v : pyval) (p p' : Place.t) :
  Place.setattr key v p = Some p' →
  (key = "title" ∧ v = VStr (Place.title p')) ∨
  (key ≠ "title" ∧ Place.title p' = Place.title p).
Proof.
  unfold Place.setattr, Place.with_reviews, Place.with_amenities.
  repeat case_match; try discriminate; intros [= <-]; auto.
Qed.

Lemma update_item_title (key : string) (v : pyval) (p p' : Place.t) :
  update_item key v p = inr p' →
  (key = "title" ∧ v = VStr (Place.title p')) ∨
  (key ≠ "title" ∧ Place.title p' = Place.title p).
Proof.
  unfold update_item.
  destruct (hasattr p key && _) eqn:Hh.
  - destruct (setattr key v p) as [q|] eqn:Hs; [|discriminate].
    intros [= <-]. by apply place_setattr_title.
  - assert (key ≠ "title") by (intros ->; discriminate Hh).
    repeat case_match; intros; simplify_eq; right; by split.
Qed.

(** The title a place has after [update] ran over a dictionary (whose
    keys are pairwise different, as the keys of a [dict] are): the one the
    dictionary gives, or the old one when the dictionary has none or the
    loop stopped before reaching it. *)
Lemma update_items_title (data : dict) :
  NoDup data.*1 →
  ∀ (p : Place.t) r p',
    update_items data p = (r, p') →
    Place.title p' = Place.title p ∨
    dict_get "title" data = Some (VStr (Place.title p')).
Proof.
  induction data as [|[key v] data IH]; intros Hnd p r p'; cbn [update_items].
  { intros [= _ <-]. by left. }
  apply NoDup_cons in Hnd as [Hkey Hnd].
  destruct (update_item key v p) as [e|p1] eqn:Hitem.
  { intros [= _ <-]. by left. }
  intros Hrest.
  destruct (update_item_title _ _ _ _ Hitem) as [[-> ->]|[Hne Ht]].
  - cbn [dict_get]. rewrite String.eqb_refl.
    destruct (IH Hnd _ _ _ Hrest) as [->|Hget]; [by right|].
    exfalso. apply Hkey. by eapply dict_get_key.
  - cbn [dict_get]. apply String.eqb_neq in Hne as Hne'.
    rewrite String.eqb_sym in Hne'. rewrite Hne'.
    destruct (IH Hnd _ _ _ Hrest) as [->|Hget]; [by left|by right].
Qed.

Lemma setattr_items_title (data : dict) :
  NoDup data.*1 →
  ∀ (p : Place.t) r p',
    SQLAlchemyRepository.setattr_items data p = (r, p') →
    Place.title p' = Place.title p ∨
    dict_get "title" data = Some (VStr (Place.title p')).
Proof.
  induction data as [|[key v] data IH]; intros Hnd p r p';
    cbn [SQLAlchemyRepository.setattr_items].
  { intros [= _ <-]. by left. }
  apply NoDup_cons in Hnd as [Hkey Hnd].
  destruct (setattr key v p) as [p1|] eqn:Hitem.
  2:{ intros [= _ <-]. by left. }
  intros Hrest.
  destruct (place_setattr_title _ _ _ _ Hitem) as [[-> ->]|[Hne Ht]].
  - cbn [dict_get]. rewrite String.eqb_refl.
    destruct (IH Hnd _ _ _ Hrest) as [->|Hget]; [by right|].
    exfalso. apply Hkey. by eapply dict_get_key.
  - cbn [dict_get]. apply String.eqb_neq in Hne as Hne'.
    rewrite String.eqb_sym in Hne'. rewrite Hne'.
    destruct (IH Hnd _ _ _ Hrest) as [->|Hget]; [by left|by right].
Qed.

(** What [repo.update] leaves in the place container, for either class of
    repository. *)
Lemma repo_update_place_title (c : repo_class) (key : string) (data : dict) env w r w'
    (p : Place.t) :
  NoDup data.*1 →
  place_repo w !! key = Some p →
  update (select_repo c places) key data env w = (r, w') →
  ∃ p', place_repo w' = <[key := p']> (place_repo w) ∧
        (Place.title p' = Place.title p ∨
         dict_get "title" data = Some (VStr (Place.title p'))).
Proof.
  intros Hnd Hp.
  assert (Hsave : ∀ d q, Place.title (save d q) = Place.title q) by done.
  destruct c; cbn [update select_repo InMemoryRepository.repository
                   SQLAlchemyRepository.repository].
  1,2: rewrite (in_memory_update_run places key data env w p Hp);
       destruct (update_items data p) as [[e|] p'] eqn:Hup;
       apply update_items_title in Hup; [|done| |done];
       intros [= <- <-]; eexists; (split; [reflexivity|]);
       by rewrite ?Hsave.
  unfold SQLAlchemyRepository.update. rewrite bind_run.
  unfold SQLAlchemyRepository.get at 1. cbn [rows places]. rewrite Hp.
  destruct (SQLAlchemyRepository.setattr_items data p) as [[e|] p'] eqn:Hup;
    apply setattr_items_title in Hup; [|done| |done];
    rewrite bind_run; cbn; intros [= <- <-]; eexists; (split; [reflexivity|]);
    by rewrite ?Hsave.
Qed.

Lemma titles_unique_replace (m : gmap string Place.t) (key : string) (p p' : Place.t) :
  titles_unique m →
  m !! key = Some p →
  (Place.title p' = Place.title p ∨
   ∀ k q, m !! k = Some q → Place.title q ≠ Place.title p') →
  titles_unique (<[key := p']> m).
Proof.
  intros Hu Hp Hcase k1 k2 p1 p2.
  destruct (decide (key = k1)) as [<-|N1], (decide (key = k2)) as [<-|N2];
    rewrite ?lookup_insert_eq, ?lookup_insert_ne by done; try done.
  - intros [= <-] H2 Ht. destruct Hcase as [Hsame|Hfree].
    + apply (Hu key k2 p p2); congruence.
    + by destruct (Hfree _ _ H2).
  - intros H1 [= <-] Ht. destruct Hcase as [Hsame|Hfree].
    + apply (Hu k1 key p1 p); congruence.
    + by destruct (Hfree _ _ H1).
  - apply Hu.
Qed.

(** X11. [update_place] keeps the titles of the stored places pairwise
    different, whatever the payload (a dictionary, so with pairwise
    different keys) and whether the call returns or raises, with either
    class of repository: the new title is looked up first, and a title
    some other place has is turned down before anything is written. *)
Theorem update_place_keeps_titles_unique (c : repo_class) (place_id : string)
    (new_data : dict) env w r w' :
  NoDup new_data.*1 →
  titles_unique (place_repo w) →
  PlaceFacade.update_place {| PlaceFacade.place_repo := select_repo c places |}
    place_id new_data env w = (r, w') →
  titles_unique (place_repo w').
Proof.
  intros Hnd Hu.
  unfold PlaceFacade.update_place. cbn [PlaceFacade.place_repo]. rewrite bind_run.
  assert (get (select_repo c places) place_id env w = (inr (place_repo w !! place_id), w))
    as -> by by destruct c.
  destruct (place_repo w !! place_id) as [p|] eqn:Hp; [|by intros [= _ <-]].
  rewrite bind_run. unfold lift at 1.
  destruct (as_str "title" new_data) as [e|t] eqn:Ht; [by intros [= _ <-]|].
  rewrite bind_run, places_by_title. rewrite bind_run.
  destruct (List.filter _ _) as [|q qs] eqn:Hf.
  - (* no stored place has the new title *)
    rewrite filter_eqb_nil_title in Hf. unfold ret at 1. cbv beta iota.
    rewrite bind_run. unfold lift at 1. cbv beta iota.
    repeat (rewrite bind_run; unfold lift at 1;
            match goal with
            | |- context [match ?x with inl _ => _ | inr _ => _ end] =>
                destruct x; [by intros [= _ <-]|]
            end).
    rewrite bind_run, BaseModel_init_run. rewrite bind_run. unfold lift at 1.
    destruct (Place.is_valid _) as [e|[]]; [by intros [= _ <-]| |by intros [= _ <-]].
    cbn [negb]. rewrite bind_run.
    destruct (update _ _ _ _ _) as [[e|[]] w1] eqn:Hupd;
      eapply repo_update_place_title in Hupd as (p' & Hw1 & Htitle); try done.
    + intros [= _ <-]. rewrite Hw1. cbn [place_repo with_clock_calls with_uuid_calls].
      apply (titles_unique_replace _ _ p); [done..|].
      destruct Htitle as [->|Hget]; [by left|right].
      unfold as_str in Ht. rewrite Hget in Ht. injection Ht as <-. exact Hf.
    + rewrite bind_run. unfold current, ret. intros [= _ <-].
      rewrite Hw1. cbn [place_repo with_clock_calls with_uuid_calls].
      apply (titles_unique_replace _ _ p); [done..|].
      destruct Htitle as [->|Hget]; [by left|right].
      unfold as_str in Ht. rewrite Hget in Ht. injection Ht as <-. exact Hf.
  - (* some stored place has it: it must be the old title *)
    destruct (negb (String.eqb t (Place.title p))) eqn:Hsame; [by intros [= _ <-]|].
    apply negb_false_iff, String.eqb_eq in Hsame as ->.
    unfold ret at 1. cbv beta iota.
    rewrite bind_run. unfold lift at 1. cbv beta iota.
    repeat (rewrite bind_run; unfold lift at 1;
            match goal with
            | |- context [match ?x with inl _ => _ | inr _ => _ end] =>
                destruct x; [by intros [= _ <-]|]
            end).
    rewrite bind_run, BaseModel_init_run. rewrite bind_run. unfold lift at 1.
    destruct (Place.is_valid _) as [e|[]]; [by intros [= _ <-]| |by intros [= _ <-]].
    cbn [negb]. rewrite bind_run.
    destruct (update _ _ _ _ _) as [[e|[]] w1] eqn:Hupd;
      eapply repo_update_place_title in Hupd as (p' & Hw1 & Htitle); try done.
    + intros [= _ <-]. rewrite Hw1. cbn [place_repo with_clock_calls with_uuid_calls].
      apply (titles_unique_replace _ _ p); [done..|]. left.
      destruct Htitle as [->|Hget]; [done|].
      unfold as_str in Ht. rewrite Hget in Ht. by injection Ht as <-.
    + rewrite bind_run. unfold current, ret. intros [= _ <-].
      rewrite Hw1. cbn [place_repo with_clock_calls with_uuid_calls].
      apply (titles_unique_replace _ _ p); [done..|]. left.
      destruct Htitle as [->|Hget]; [done|].
      unfold as_str in Ht. rewrite Hget in Ht. by injection Ht as <-.
Qed.

(** ** Reviews *)



Lemma filter_eqb_nil_review_id (i : string) (m : gmap string Review.t) :
  List.filter (λ r, String.eqb (Review.id r) i) (map_to_list m).*2 = [] ↔
  ∀ key r, m !! key = Some r → Review.id r ≠ i.
Proof.
  rewrite filter_nil_iff. split.
  - intros Hall key r Hr Hi. specialize (Hall r). rewrite Hi, String.eqb_refl in Hall.
    assert (true = false) by (apply Hall, values_elem_of; eauto). done.
  - intros Hall r [key Hr]%values_elem_of. apply String.eqb_neq. eauto.
Qed.

Lemma reviews_by_id (c : repo_class) (i : string) env w :
  get_by_attribute (select_repo c reviews) "id" (VStr i) env w
  = (inr (List.filter (λ r, String.eqb (Review.id r) i)
            (map_to_list (review_repo w)).*2), w).
Proof.
  destruct c; cbn;
    by rewrite (select_by_attribute_total "id" _ (λ r, VStr (Review.id r))).
Qed.

(** A complete payload from which [is_valid] accepts the review built,
    when no stored review has the identifier [uuid4] hands out. *)
Lemma create_review_run (c : repo_class) (d : dict) env w
    (text place_id place_name user_id user_first_name : string) (rating : num) :
  as_str "text" d = inr text →
  as_num "rating" d = inr rating →
  as_str "place_id" d = inr place_id →
  as_str "place_name" d = inr place_name →
  as_str "user_id" d = inr user_id →
  as_str "user_first_name" d = inr user_first_name →
  (∀ key q, review_repo w !! key = Some q → Review.id q ≠ uuid4 env (uuid_calls w)) →
  let r := Review.mk (uuid4 env (uuid_calls w)) (now env (clock_calls w))
                     (now env (S (clock_calls w))) text rating place_id place_name
                     user_id user_first_name None in
  Review.is_valid r = inr true →
  ReviewFacade.create_review {| ReviewFacade.review_repo := select_repo c reviews |} d env w
  = (inr (Review.to_dict r),
     set_rows reviews (<[Review.id r := r]> (review_repo w))
       (with_clock_calls (S (S (clock_calls w))) (with_uuid_calls (S (uuid_calls w)) w))).
Proof.
  intros H1 H2 H3 H4 H5 H6 Hfree r Hvalid.
  unfold ReviewFacade.create_review.
  do 6 (rewrite bind_run; unfold lift at 1; rewrite ?H1, ?H2, ?H3, ?H4, ?H5, ?H6).
  rewrite bind_run, BaseModel_init_run. rewrite bind_run.
  cbn [ReviewFacade.review_repo Review.id fst snd].
  rewrite reviews_by_id.
  apply filter_eqb_nil_review_id in Hfree.
  cbn [review_repo with_clock_calls with_uuid_calls]. rewrite Hfree.
  rewrite bind_run. unfold lift at 1. fold r. rewrite Hvalid.
  rewrite bind_run.
  destruct c; reflexivity.
Qed.

(** X13. [create_review_for_place], manager of the whole-object backends.
    A missing place is reported before a missing user, and either error
    leaves the state as it was.  For a stored place (with datetime
    timestamps) and a stored user, a payload from which [is_valid] accepts
    the review built is stored under the identifier [uuid4] hands out,
    stamped with the place's id and title and the user's id and first
    name; that identifier is appended to the place's reviews, the place is
    stamped, and the review's record is returned. *)
Theorem create_review_for_place_spec (env : Env) (w : World)
    (place_id user_id : string) (review_data : dict) :
  (place_repo w !! place_id = None →
   FacadeRelationManager.create_review_for_place mgr place_id user_id review_data env w
   = (inl (ValueError ("Place with id " +:+ place_id +:+ " not found.")), w))
  ∧
  (∀ p, place_repo w !! place_id = Some p → user_repo w !! user_id = None →
   FacadeRelationManager.create_review_for_place mgr place_id user_id review_data env w
   = (inl (ValueError ("User with id " +:+ user_id +:+ " not found.")), w))
  ∧
  (∀ p u text rating,
     place_repo w !! place_id = Some p →
     user_repo w !! user_id = Some u →
     in_range (Place.created_at p) = true →
     in_range (Place.updated_at p) = true →
     as_str "text" review_data = inr text →
     as_num "rating" review_data = inr rating →
     (∀ key q, review_repo w !! key = Some q → Review.id q ≠ uuid4 env (uuid_calls w)) →
     let r := Review.mk (uuid4 env (uuid_calls w)) (now env (clock_calls w))
                        (now env (S (clock_calls w))) text rating place_id
                        (Place.title p) user_id (User.first_name u) None in
     Review.is_valid r = inr true →
     ∃ w',
       FacadeRelationManager.create_review_for_place mgr place_id user_id review_data env w
       = (inr (Review.to_dict r), w') ∧
       review_repo w' = <[Review.id r := r]> (review_repo w) ∧
       place_repo w' =
         <[place_id := Place.with_updated_at (utcnow env (S (S (clock_calls w))))
                         (Place.with_reviews (Place.reviews p ++ [Review.id r]) p)]>
           (place_repo w) ∧
       user_repo w' = user_repo w ∧ amenity_repo w' = amenity_repo w).
Proof.
  unfold FacadeRelationManager.create_review_for_place.
  rewrite bind_run.
  change (get (FacadeRelationManager.the_place_repo mgr) place_id env w)
    with (inr (B := option Place.t) (A := exn) (place_repo w !! place_id), w).
  cbv beta iota. rewrite bind_run.
  change (get (FacadeRelationManager.the_user_repo mgr) user_id env w)
    with (inr (B := option User.t) (A := exn) (user_repo w !! user_id), w).
  cbv beta iota.
  split; [by intros ->|]. split; [by intros p -> ->|].
  intros p u text rating Hp Hu Hc Hup Htext Hrating Hfree. cbv zeta. intros Hvalid.
  match type of Hvalid with Review.is_valid ?x = _ => set (r := x) in * end.
  rewrite Hp, Hu. rewrite bind_run.
  change (FacadeRelationManager.review_facade mgr)
    with {| ReviewFacade.review_repo := select_repo InMemory reviews |}.
  erewrite (create_review_run InMemory _ env w text place_id (Place.title p) user_id
              (User.first_name u) rating); try done.
  2:{ unfold as_str. by rewrite !dict_get_set_ne by done. }
  2:{ unfold as_num. by rewrite !dict_get_set_ne by done. }
  2:{ unfold as_str. by rewrite !dict_get_set_ne, dict_get_set_eq by done. }
  2:{ unfold as_str. by rewrite !dict_get_set_ne, dict_get_set_eq by done. }
  2:{ unfold as_str. by rewrite dict_get_set_eq. }
  2:{ unfold as_str. by rewrite !dict_get_set_ne, dict_get_set_eq by done. }
  fold r. rewrite bind_run. unfold lift at 1.
  change (as_str "id" (Review.to_dict r)) with (inr (A := exn) (Review.id r)).
  cbv beta iota. rewrite bind_run. 
  change (table_of (FacadeRelationManager.the_place_repo mgr)) with places.
  cbn [store_obj]. rewrite bind_run.
  change (update (FacadeRelationManager.the_place_repo mgr))
    with (InMemoryRepository.update places).
  change (@to_dict Place.t Place_BaseModel) with Place.to_dict.
  match goal with
  | |- context [InMemoryRepository.update places place_id (Place.to_dict ?q) env ?w0] =>
      rewrite (in_memory_update_run places place_id (Place.to_dict q) env w0 q)
        by (cbn; apply lookup_insert_eq);
      rewrite (update_items_own_place q Hc Hup)
  end.
  eexists. split; [reflexivity|]. cbn.
  rewrite insert_insert_eq. by repeat split.
Qed.

(** ** Amenities of a place, manager of the whole-object backends *)

(** [create_amenity] for a name no stored amenity has. *)
Lemma create_amenity_fresh (c : repo_class) (d : dict) env w (name : string) :
  as_str "name" d = inr name →
  (∀ key b, amenity_repo w !! key = Some b → Amenity.name b ≠ name) →
  AmenityFacade.create_amenity
    {| AmenityFacade.amenity_repo := select_repo c amenities |} d env w
  = let w1 := with_clock_calls (S (S (clock_calls w)))
                (with_uuid_calls (S (uuid_calls w)) w) in
    let a := Amenity.mk (uuid4 env (uuid_calls w)) (now env (clock_calls w))
                        (now env (S (clock_calls w))) name in
    if len_between (strip name) 50 then
      (inr (Amenity.to_dict a),
       set_rows amenities (<[Amenity.id a := a]> (amenity_repo w)) w1)
    else
      (inl (ValueError "Name must not be empty and less than 50 characters."), w1).
Proof.
  intros Hname Hfree.
  unfold AmenityFacade.create_amenity. rewrite bind_run. unfold lift at 1.
  rewrite Hname. rewrite bind_run, BaseModel_init_run. rewrite bind_run.
  cbn [AmenityFacade.amenity_repo Amenity.name fst snd].
  rewrite amenities_by_name.
  cbn [amenity_repo with_clock_calls with_uuid_calls].
  apply filter_eqb_nil_name in Hfree. rewrite Hfree.
  rewrite bind_run. unfold lift at 1.
  unfold Amenity.is_valid. cbn [Amenity.name].
  destruct (len_between (strip name) 50); cbn [negb]; [|reflexivity].
  rewrite bind_run. destruct c; reflexivity.
Qed.

(** [add_amenity_to_a_place] once its checks have passed: the place is
    changed and persisted, and only then does the outcome depend on the
    lookup by name made at the start. *)
Lemma add_amenity_after_checks env w (place_id : string) (d : dict) (name : string)
    (p : Place.t) :
  as_str "name" d = inr name →
  place_repo w !! place_id = Some p →
  str_in_list name (Place.amenities p) = false →
  (0 < len name < 50)%nat →
  in_range (Place.created_at p) = true →
  in_range (Place.updated_at p) = true →
  FacadeRelationManager.add_amenity_to_a_place mgr place_id d env w
  = let w1 := set_rows places
                (<[place_id := Place.with_updated_at (utcnow env (clock_calls w))
                                 (Place.with_amenities (Place.amenities p ++ [name]) p)]>
                   (place_repo w))
                (with_clock_calls (S (clock_calls w)) w) in
    match List.filter (λ a, String.eqb (Amenity.name a) name)
            (map_to_list (amenity_repo w)).*2 with
    | [] => AmenityFacade.create_amenity
              {| AmenityFacade.amenity_repo := select_repo InMemory amenities |} d env w1
    | _ :: _ => (inl (UnboundLocalError "amenity"), w1)
    end.
Proof.
  intros Hname Hp Hnew Hlen Hc Hu.
  unfold FacadeRelationManager.add_amenity_to_a_place.
  rewrite bind_run.
  change (get (FacadeRelationManager.the_place_repo mgr) place_id env w)
    with (inr (B := option Place.t) (A := exn) (place_repo w !! place_id), w).
  cbv beta iota. rewrite bind_run. unfold lift at 1. rewrite Hname.
  rewrite bind_run.
  change (FacadeRelationManager.the_amenity_repo mgr) with (select_repo InMemory amenities).
  rewrite amenities_by_name. rewrite Hp, Hnew.
  apply len_between_iff in Hlen. rewrite Hlen. cbn [negb].
  rewrite bind_run.
  change (table_of (FacadeRelationManager.the_place_repo mgr)) with places.
  cbn [store_obj]. rewrite bind_run.
  change (update (FacadeRelationManager.the_place_repo mgr))
    with (InMemoryRepository.update places).
  change (@to_dict Place.t Place_BaseModel) with Place.to_dict.
  match goal with
  | |- context [InMemoryRepository.update places place_id (Place.to_dict ?q) env ?w0] =>
      rewrite (in_memory_update_run places place_id (Place.to_dict q) env w0 q)
        by (cbn; apply lookup_insert_eq);
      rewrite (update_items_own_place q Hc Hu)
  end.
  cbn [store_obj snd rows set_rows places place_repo with_clock_calls clock_calls
       user_repo amenity_repo review_repo uuid_calls].
  rewrite insert_insert_eq.
  destruct (List.filter _ _); reflexivity.
Qed.

(** X14. Adding an amenity no stored amenity is named after, to a stored
    place (with datetime timestamps) that does not list the name yet: for
    a name of 1 to 49 characters that keeps 1 to 49 characters once
    stripped, the name is appended to the place's list, the place is
    stamped, a new amenity of that name is stored under the identifier
    [uuid4] hands out, and its record is returned. *)
Theorem add_new_amenity_succeeds env w (place_id : string) (d : dict) (name : string)
    (p : Place.t) :
  as_str "name" d = inr name →
  place_repo w !! place_id = Some p →
  str_in_list name (Place.amenities p) = false →
  (0 < len name < 50)%nat →
  (0 < len (strip name) < 50)%nat →
  in_range (Place.created_at p) = true →
  in_range (Place.updated_at p) = true →
  (∀ key b, amenity_repo w !! key = Some b → Amenity.name b ≠ name) →
  let a := Amenity.mk (uuid4 env (uuid_calls w)) (now env (S (clock_calls w)))
                      (now env (S (S (clock_calls w)))) name in
  ∃ w',
    FacadeRelationManager.add_amenity_to_a_place mgr place_id d env w
    = (inr (Amenity.to_dict a), w') ∧
    place_repo w' =
      <[place_id := Place.with_updated_at (utcnow env (clock_calls w))
                      (Place.with_amenities (Place.amenities p ++ [name]) p)]>
        (place_repo w) ∧
    amenity_repo w' = <[Amenity.id a := a]> (amenity_repo w) ∧
    user_repo w' = user_repo w ∧ review_repo w' = review_repo w.
Proof.
  intros Hname Hp Hnew Hlen Hstrip Hc Hu Hfree a.
  rewrite (add_amenity_after_checks env w place_id d name p) by done.
  cbv zeta.
  pose proof Hfree as Hnil. apply filter_eqb_nil_name in Hnil. rewrite Hnil.
  rewrite (create_amenity_fresh InMemory d env _ name) by done.
  cbv zeta. apply len_between_iff in Hstrip. rewrite Hstrip.
  eexists. split; [reflexivity|]. by cbn.
Qed.

(** X15. The place is written before the amenity is dealt with, and
    nothing undoes the write.  With the checks passed as above: when an
    amenity of that name is already stored, the call ends in an
    [UnboundLocalError]; when none is and the name is made of white space
    only, [create_amenity] turns it down with a [ValueError].  Either way
    the place now lists the name and the amenities are as before. *)
Theorem add_amenity_fails_after_the_write env w (place_id : string) (d : dict)
    (name : string) (p : Place.t) :
  as_str "name" d = inr name →
  place_repo w !! place_id = Some p →
  str_in_list name (Place.amenities p) = false →
  (0 < len name < 50)%nat →
  in_range (Place.created_at p) = true →
  in_range (Place.updated_at p) = true →
  let written (e : exn) :=
    ∃ w',
      FacadeRelationManager.add_amenity_to_a_place mgr place_id d env w = (inl e, w') ∧
      place_repo w' =
        <[place_id := Place.with_updated_at (utcnow env (clock_calls w))
                        (Place.with_amenities (Place.amenities p ++ [name]) p)]>
          (place_repo w) ∧
      amenity_repo w' = amenity_repo w in
  ((∃ key b, amenity_repo w !! key = Some b ∧ Amenity.name b = name) →
   written (UnboundLocalError "amenity"))
  ∧
  ((∀ key b, amenity_repo w !! key = Some b → Amenity.name b ≠ name) →
   strip name = EmptyString →
   written (ValueError "Name must not be empty and less than 50 characters.")).
Proof.
  intros Hname Hp Hnew Hlen Hc Hu written. unfold written.
  rewrite (add_amenity_after_checks env w place_id d name p) by done.
  cbv zeta. split.
  - intros (key & b & Hb & Hn).
    destruct (List.filter _ _) as [|b' bs] eqn:Hf.
    { rewrite filter_eqb_nil_name in Hf. by destruct (Hf _ _ Hb). }
    eexists. split; [reflexivity|]. by cbn.
  - intros Hfree Hblank.
    pose proof Hfree as Hnil. apply filter_eqb_nil_name in Hnil. rewrite Hnil.
    rewrite (create_amenity_fresh InMemory d env _ name) by done.
    cbv zeta. rewrite Hblank. cbn [strip len_between len Nat.ltb Nat.leb andb].
    eexists. split; [reflexivity|]. by cbn.
Qed.

(** X16. A name the place already lists is turned down by both managers
    with the same [ValueError], and nothing is written; so is a place
    that is not stored. *)
Theorem add_amenity_conflict_leaves_state env w (place_id : string) (d : dict)
    (name : string) :
  as_str "name" d = inr name →
  (place_repo w !! place_id = None →
   FacadeRelationManager.add_amenity_to_a_place mgr place_id d env w
   = (inl (ValueError ("Place: " +:+ place_id +:+ " not found.")), w) ∧
   SQLAlchemyFacadeRelationManager.add_amenity_to_a_place
     sqlalchemy_facade_relation_manager place_id d env w
   = (inl (ValueError ("Place: " +:+ place_id +:+ " not found.")), w))
  ∧
  (∀ p, place_repo w !! place_id = Some p →
        str_in_list name (Place.amenities p) = true →
        FacadeRelationManager.add_amenity_to_a_place mgr place_id d env w
        = (inl (ValueError ("Amenity: " +:+ name +:+
                            " already exist for this place: " +:+ place_id)), w) ∧
        SQLAlchemyFacadeRelationManager.add_amenity_to_a_place
          sqlalchemy_facade_relation_manager place_id d env w
        = (inl (ValueError ("Amenity: " +:+ name +:+
                            " already exist for this place: " +:+ place_id)), w)).
Proof.
  intros Hname.
  assert (Hmem : FacadeRelationManager.add_amenity_to_a_place mgr place_id d env w
            = match place_repo w !! place_id with
              | None => (inl (ValueError ("Place: " +:+ place_id +:+ " not found.")), w)
              | Some p =>
                  if str_in_list name (Place.amenities p) then
                    (inl (ValueError ("Amenity: " +:+ name +:+
                                      " already exist for this place: " +:+ place_id)), w)
                  else FacadeRelationManager.add_amenity_to_a_place mgr place_id d env w
              end).
  { unfold FacadeRelationManager.add_amenity_to_a_place at 1.
    rewrite bind_run.
    change (get (FacadeRelationManager.the_place_repo mgr) place_id env w)
      with (inr (B := option Place.t) (A := exn) (place_repo w !! place_id), w).
    cbv beta iota. rewrite bind_run. unfold lift at 1. rewrite Hname.
    rewrite bind_run.
    change (FacadeRelationManager.the_amenity_repo mgr)
      with (select_repo InMemory amenities).
    rewrite amenities_by_name.
    destruct (place_repo w !! place_id) as [p|] eqn:Hp; [|reflexivity].
    destruct (str_in_list name (Place.amenities p)) eqn:Hin; [reflexivity|].
    unfold FacadeRelationManager.add_amenity_to_a_place.
    rewrite bind_run.
    change (get (FacadeRelationManager.the_place_repo mgr) place_id env w)
      with (inr (B := option Place.t) (A := exn) (place_repo w !! place_id), w).
    cbv beta iota. rewrite bind_run. unfold lift at 1. rewrite Hname.
    rewrite bind_run.
    change (FacadeRelationManager.the_amenity_repo mgr)
      with (select_repo InMemory amenities).
    rewrite amenities_by_name. by rewrite Hp, Hin. }
  assert (Hdb : SQLAlchemyFacadeRelationManager.add_amenity_to_a_place
                  sqlalchemy_facade_relation_manager place_id d env w
            = match place_repo w !! place_id with
              | None => (inl (ValueError ("Place: " +:+ place_id +:+ " not found.")), w)
              | Some p =>
                  if str_in_list name (Place.amenities p) then
                    (inl (ValueError ("Amenity: " +:+ name +:+
                                      " already exist for this place: " +:+ place_id)), w)
                  else SQLAlchemyFacadeRelationManager.add_amenity_to_a_place
                         sqlalchemy_facade_relation_manager place_id d env w
              end).
  { unfold SQLAlchemyFacadeRelationManager.add_amenity_to_a_place at 1.
    rewrite bind_run.
    change (get (SQLAlchemyFacadeRelationManager.the_place_repo
                   sqlalchemy_facade_relation_manager) place_id env w)
      with (inr (B := option Place.t) (A := exn) (place_repo w !! place_id), w).
    cbv beta iota. rewrite bind_run. unfold lift at 1. rewrite Hname.
    rewrite bind_run.
    change (SQLAlchemyFacadeRelationManager.the_amenity_repo
              sqlalchemy_facade_relation_manager) with (select_repo SQLAlchemy amenities).
    rewrite amenities_by_name.
    destruct (place_repo w !! place_id) as [p|] eqn:Hp; [|reflexivity].
    destruct (str_in_list name (Place.amenities p)) eqn:Hin; [reflexivity|].
    unfold SQLAlchemyFacadeRelationManager.add_amenity_to_a_place.
    rewrite bind_run.
    change (get (SQLAlchemyFacadeRelationManager.the_place_repo
                   sqlalchemy_facade_relation_manager) place_id env w)
      with (inr (B := option Place.t) (A := exn) (place_repo w !! place_id), w).
    cbv beta iota. rewrite bind_run. unfold lift at 1. rewrite Hname.
    rewrite bind_run.
    change (SQLAlchemyFacadeRelationManager.the_amenity_repo
              sqlalchemy_facade_relation_manager) with (select_repo SQLAlchemy amenities).
    rewrite amenities_by_name. by rewrite Hp, Hin. }
  rewrite Hmem, Hdb. split.
  - by intros ->.
  - intros p -> ->. by split.
Qed.

Lemma list_without_not_in (x : string) (l : list string) :
  str_in_list x (list_without x l) = false.
Proof.
  unfold list_without, str_in_list. induction l as [|y l IH]; [done|].
  cbn [List.filter]. destruct (String.eqb y x) eqn:E; cbn [negb]; [exact IH|].
  cbn [existsb]. rewrite String.eqb_sym, E. exact IH.
Qed.

(** X17. [delete_amenity_from_place_list], manager of the whole-object
    backends, on a stored place (with datetime timestamps) that lists the
    name: the first occurrence of the name leaves the list, the place is
    stamped, and then the amenity container loses whatever it holds under
    the key [amenity_name].  The container is keyed by identifier, so an
    amenity called [amenity_name] stays unless that is its identifier too,
    and an amenity whose identifier is [amenity_name] goes whatever its
    name. *)
Theorem delete_amenity_from_place_list_in_memory env w (amenity_name place_id : string)
    (p : Place.t) :
  place_repo w !! place_id = Some p →
  str_in_list amenity_name (Place.amenities p) = true →
  in_range (Place.created_at p) = true →
  in_range (Place.updated_at p) = true →
  ∃ w',
    FacadeRelationManager.delete_amenity_from_place_list mgr amenity_name place_id env w
    = (inr tt, w') ∧
    place_repo w' =
      <[place_id := Place.with_updated_at (utcnow env (clock_calls w))
                      (Place.with_amenities
                         (list_remove amenity_name (Place.amenities p)) p)]>
        (place_repo w) ∧
    amenity_repo w' = base.delete amenity_name (amenity_repo w) ∧
    user_repo w' = user_repo w ∧ review_repo w' = review_repo w.
Proof.
  intros Hp Hin Hc Hu.
  unfold FacadeRelationManager.delete_amenity_from_place_list.
  rewrite bind_run.
  change (get (FacadeRelationManager.the_place_repo mgr) place_id env w)
    with (inr (B := option Place.t) (A := exn) (place_repo w !! place_id), w).
  rewrite Hp. cbv beta iota. rewrite Hin. rewrite bind_run.
  change (table_of (FacadeRelationManager.the_place_repo mgr)) with places.
  rewrite bind_run. cbn [store_obj].
  change (update (FacadeRelationManager.the_place_repo mgr))
    with (InMemoryRepository.update places).
  change (@to_dict Place.t Place_BaseModel) with Place.to_dict.
  match goal with
  | |- context [InMemoryRepository.update places place_id (Place.to_dict ?q) env ?w0] =>
      rewrite (in_memory_update_run places place_id (Place.to_dict q) env w0 q)
        by (cbn; apply lookup_insert_eq);
      rewrite (update_items_own_place q Hc Hu)
  end.
  change (delete (FacadeRelationManager.the_amenity_repo mgr))
    with (InMemoryRepository.delete amenities).
  unfold InMemoryRepository.delete.
  cbn [store_obj snd rows set_rows places amenities place_repo with_clock_calls
       clock_calls user_repo amenity_repo review_repo uuid_calls].
  rewrite insert_insert_eq.
  destruct (amenity_repo w !! amenity_name) eqn:Ha.
  - eexists. split; [reflexivity|]. by cbn.
  - eexists. split; [reflexivity|]. cbn. by rewrite delete_id.
Qed.

(** X18. The same operation of the database manager, on a stored place
    that lists the name: every occurrence of the name leaves the list, so
    the place no longer lists it, and no other container is touched; the
    amenities stay as they are. *)
Theorem delete_amenity_from_place_list_sqlalchemy env w (amenity_name place_id : string)
    (p : Place.t) :
  place_repo w !! place_id = Some p →
  str_in_list amenity_name (Place.amenities p) = true →
  ∃ w' p',
    SQLAlchemyFacadeRelationManager.delete_amenity_from_place_list
      sqlalchemy_facade_relation_manager amenity_name place_id env w
    = (inr tt, w') ∧
    place_repo w' = <[place_id := p']> (place_repo w) ∧
    Place.amenities p' = list_without amenity_name (Place.amenities p) ∧
    str_in_list amenity_name (Place.amenities p') = false ∧
    Place.id p' = Place.id p ∧ Place.reviews p' = Place.reviews p ∧
    amenity_repo w' = amenity_repo w ∧
    user_repo w' = user_repo w ∧ review_repo w' = review_repo w.
Proof.
  intros Hp Hin.
  unfold SQLAlchemyFacadeRelationManager.delete_amenity_from_place_list.
  rewrite bind_run.
  change (get (SQLAlchemyFacadeRelationManager.the_place_repo
                 sqlalchemy_facade_relation_manager) place_id env w)
    with (inr (B := option Place.t) (A := exn) (place_repo w !! place_id), w).
  rewrite Hp. cbv beta iota. rewrite Hin.
  do 2 eexists. split; [reflexivity|]. cbn.
  repeat split. apply list_without_not_in.
Qed.

(** X19. The database manager has no name check of its own.  For a stored
    place that does not list the name and a name no amenity has, when the
    stripped name is empty or has 50 characters or more: the place is
    committed with the name appended, then [create_amenity] raises its
    [ValueError]; the place keeps the name and no amenity of that name
    exists. *)
Theorem add_amenity_sqlalchemy_commits_before_validation env w (place_id : string)
    (d : dict) (name : string) (p : Place.t) :
  as_str "name" d = inr name →
  place_repo w !! place_id = Some p →
  str_in_list name (Place.amenities p) = false →
  (∀ key b, amenity_repo w !! key = Some b → Amenity.name b ≠ name) →
  (len (strip name) = 0 ∨ 50 ≤ len (strip name))%nat →
  ∃ w' p',
    SQLAlchemyFacadeRelationManager.add_amenity_to_a_place
      sqlalchemy_facade_relation_manager place_id d env w
    = (inl (ValueError "Name must not be empty and less than 50 characters."), w') ∧
    place_repo w' = <[place_id := p']> (place_repo w) ∧
    Place.amenities p' = Place.amenities p ++ [name] ∧
    amenity_repo w' = amenity_repo w.
Proof.
  intros Hname Hp Hnew Hfree Hlen.
  assert (len_between (strip name) 50 = false) as Hcheck.
  { unfold len_between. apply andb_false_iff.
    destruct Hlen as [Hz|Hbig]; [left; apply Nat.ltb_ge | right; apply Nat.ltb_ge]; lia. }
  unfold SQLAlchemyFacadeRelationManager.add_amenity_to_a_place.
  rewrite bind_run.
  change (get (SQLAlchemyFacadeRelationManager.the_place_repo
                 sqlalchemy_facade_relation_manager) place_id env w)
    with (inr (B := option Place.t) (A := exn) (place_repo w !! place_id), w).
  rewrite Hp. cbv beta iota. rewrite bind_run. unfold lift at 1. rewrite Hname.
  rewrite bind_run.
  change (SQLAlchemyFacadeRelationManager.the_amenity_repo
            sqlalchemy_facade_relation_manager) with (select_repo SQLAlchemy amenities).
  rewrite amenities_by_name. rewrite Hnew. cbn [negb].
  pose proof Hfree as Hnil. apply filter_eqb_nil_name in Hnil. rewrite Hnil.
  rewrite bind_run.
  unfold SQLAlchemyFacadeRelationManager.commit_place,
    SQLAlchemyRepository.assign_and_commit.
  rewrite bind_run.
  change (table_of (SQLAlchemyFacadeRelationManager.the_place_repo
                      sqlalchemy_facade_relation_manager)) with places.
  cbn [datetime_utcnow store_obj]. rewrite bind_run.
  change (SQLAlchemyFacadeRelationManager.amenity_facade
            sqlalchemy_facade_relation_manager)
    with {| AmenityFacade.amenity_repo := select_repo SQLAlchemy amenities |}.
  rewrite (create_amenity_fresh SQLAlchemy d env _ name) by done.
  cbv zeta. rewrite Hcheck.
  do 2 eexists. split; [reflexivity|]. by cbn.
Qed.

(** ** The cascades *)

(** Deleting the reviews of a list one by one, with either class of
    repository: the listed identifiers are gone, the other reviews stay,
    nothing else moves. *)
Lemma for_each_delete_reviews_lookup (c : repo_class) (l : list string) env w :
  ∃ w', for_each l (λ review_id, delete (select_repo c reviews) review_id) env w
        = (inr tt, w') ∧
        user_repo w' = user_repo w ∧ place_repo w' = place_repo w ∧
        amenity_repo w' = amenity_repo w ∧
        clock_calls w' = clock_calls w ∧ uuid_calls w' = uuid_calls w ∧
        (∀ rid, rid ∈ l → review_repo w' !! rid = None) ∧
        (∀ rid, rid ∉ l → review_repo w' !! rid = review_repo w !! rid).
Proof.
  revert w. induction l as [|x l IH]; intros w.
  { exists w. repeat split; try done. by intros rid ?%not_elem_of_nil. }
  cbn [for_each]. rewrite bind_run.
  assert (Hdel : ∃ w1, delete (select_repo c reviews) x env w = (inr tt, w1) ∧
            user_repo w1 = user_repo w ∧ place_repo w1 = place_repo w ∧
            amenity_repo w1 = amenity_repo w ∧
            clock_calls w1 = clock_calls w ∧ uuid_calls w1 = uuid_calls w ∧
            review_repo w1 = base.delete x (review_repo w)).
  { destruct c;
      cbv [delete select_repo InMemoryRepository.repository
           SQLAlchemyRepository.repository InMemoryRepository.delete
           SQLAlchemyRepository.delete rows set_rows reviews];
      destruct (review_repo w !! x) eqn:Hx; eexists;
      (split; [reflexivity|]); cbn; repeat split; by rewrite ?delete_id. }
  destruct Hdel as (w1 & -> & Hus & Hps & Hams & Hck & Huu & Hrs).
  destruct (IH w1) as (w' & Hrun & Hus' & Hps' & Hams' & Hck' & Huu' & Hin & Hout).
  exists w'. split; [exact Hrun|].
  repeat split; try congruence.
  - intros rid [->|Hrid]%elem_of_cons; [|by apply Hin].
    destruct (decide (x ∈ l)) as [Hx|Hx]; [by apply Hin|].
    rewrite Hout, Hrs by done. apply lookup_delete_eq.
  - intros rid [Hne Hrid]%not_elem_of_cons.
    rewrite Hout, Hrs by done. by apply lookup_delete_ne.
Qed.

(** X20. The cascade of the whole-object manager on a stored place that
    its (stored) owner lists.  With at least one review on the place, the
    owner's list loses the first occurrence of the place and the owner is
    stamped, the reviews the place lists are deleted, and the place is
    deleted.  With no review the owner is changed all the same, then the
    call raises, and the place stays stored: a place nobody lists any
    more. *)
Theorem cascade_in_memory env w (place_id : string) (p : Place.t) (u : User.t) :
  place_repo w !! place_id = Some p →
  user_repo w !! Place.owner_id p = Some u →
  str_in_list place_id (User.places u) = true →
  in_range (User.created_at u) = true →
  in_range (User.updated_at u) = true →
  let u' := User.with_updated_at (utcnow env (clock_calls w))
              (User.with_places (list_remove place_id (User.places u)) u) in
  ∃ r w',
    FacadeRelationManager.delete_place_and_associated_instances mgr place_id env w
    = (r, w') ∧
    user_repo w' = <[Place.owner_id p := u']> (user_repo w) ∧
    amenity_repo w' = amenity_repo w ∧
    (Place.reviews p = [] →
     r = inl (ValueError "No corresponding review found for this place.") ∧
     place_repo w' = place_repo w ∧ review_repo w' = review_repo w) ∧
    (Place.reviews p ≠ [] →
     r = inr tt ∧
     place_repo w' = base.delete place_id (place_repo w) ∧
     (∀ rid, rid ∈ Place.reviews p → review_repo w' !! rid = None) ∧
     (∀ rid, rid ∉ Place.reviews p → review_repo w' !! rid = review_repo w !! rid)).
Proof.
  intros Hp Hu Hin Hc Hup u'.
  unfold FacadeRelationManager.delete_place_and_associated_instances.
  rewrite try_except_reraise, bind_run.
  change (get (FacadeRelationManager.the_place_repo mgr) place_id env w)
    with (inr (B := option Place.t) (A := exn) (place_repo w !! place_id), w).
  rewrite Hp. cbv beta iota zeta. rewrite bind_run.
  change (get (FacadeRelationManager.the_user_repo mgr) (Place.owner_id p) env w)
    with (inr (B := option User.t) (A := exn) (user_repo w !! Place.owner_id p), w).
  rewrite Hu. cbv beta iota. rewrite Hin. rewrite bind_run.
  change (table_of (FacadeRelationManager.the_user_repo mgr)) with users.
  rewrite bind_run. cbn [store_obj].
  change (update (FacadeRelationManager.the_user_repo mgr))
    with (InMemoryRepository.update users).
  change (@to_dict User.t User_BaseModel) with User.to_dict.
  match goal with
  | |- context [InMemoryRepository.update users ?k (User.to_dict ?q) env ?w0] =>
      rewrite (in_memory_update_run users k (User.to_dict q) env w0 q)
        by (cbn; apply lookup_insert_eq);
      rewrite (update_items_own_user q Hc Hup)
  end.
  cbn [store_obj snd rows set_rows users place_repo with_clock_calls
       clock_calls user_repo amenity_repo review_repo uuid_calls].
  rewrite insert_insert_eq. fold u'.
  destruct (Place.reviews p) as [|rid rids] eqn:Hrev.
  - do 2 eexists. split; [reflexivity|]. cbn. repeat split; try done.
  - rewrite bind_run.
    change (FacadeRelationManager.the_review_repo mgr) with (select_repo InMemory reviews).
    match goal with
    | |- context [for_each ?l ?f env ?w0] =>
        destruct (for_each_delete_reviews_lookup InMemory l env w0)
          as (w1 & Hfor & Hus & Hps & Hams & _ & _ & Hgone & Hkept)
    end.
    rewrite Hfor.
    change (delete (FacadeRelationManager.the_place_repo mgr))
      with (InMemoryRepository.delete places).
    unfold InMemoryRepository.delete. cbn [rows set_rows places].
    rewrite Hps. cbn [place_repo]. rewrite Hp.
    do 2 eexists. split; [reflexivity|]. cbn. rewrite ?Hus, ?Hams, ?Hps. cbn.
    repeat split; try done.
Qed.

Lemma list_without_keeps (x y : string) (l : list string) :
  y ≠ x → str_in_list y l = true → str_in_list y (list_without x l) = true.
Proof.
  intros Hne. rewrite !str_in_list_In. unfold list_without.
  intros Hy. apply list_elem_of_In, filter_In. split; [by apply list_elem_of_In|].
  apply negb_true_iff. by apply String.eqb_neq.
Qed.

(** The cascade of the database manager on a stored place its stored
    owner lists. *)
Lemma sqlalchemy_cascade_run env w (place_id : string) (p : Place.t) (u : User.t) :
  place_repo w !! place_id = Some p →
  user_repo w !! Place.owner_id p = Some u →
  str_in_list place_id (User.places u) = true →
  ∃ w',
    SQLAlchemyFacadeRelationManager.delete_place_and_associated_instances
      sqlalchemy_facade_relation_manager place_id env w = (inr tt, w') ∧
    user_repo w' =
      <[Place.owner_id p := User.with_updated_at (utcnow env (clock_calls w))
                              (User.with_places (list_without place_id (User.places u)) u)]>
        (user_repo w) ∧
    place_repo w' = base.delete place_id (place_repo w) ∧
    amenity_repo w' = amenity_repo w ∧
    (∀ rid, rid ∈ Place.reviews p → review_repo w' !! rid = None) ∧
    (∀ rid, rid ∉ Place.reviews p → review_repo w' !! rid = review_repo w !! rid).
Proof.
  intros Hp Hu Hin.
  unfold SQLAlchemyFacadeRelationManager.delete_place_and_associated_instances.
  rewrite try_except_reraise, bind_run.
  change (get (SQLAlchemyFacadeRelationManager.the_place_repo
                 sqlalchemy_facade_relation_manager) place_id env w)
    with (inr (B := option Place.t) (A := exn) (place_repo w !! place_id), w).
  rewrite Hp. cbv beta iota zeta. rewrite bind_run.
  change (get (SQLAlchemyFacadeRelationManager.the_user_repo
                 sqlalchemy_facade_relation_manager) (Place.owner_id p) env w)
    with (inr (B := option User.t) (A := exn) (user_repo w !! Place.owner_id p), w).
  rewrite Hu. cbv beta iota. rewrite Hin. rewrite bind_run.
  unfold SQLAlchemyFacadeRelationManager.commit_user,
    SQLAlchemyRepository.assign_and_commit.
  rewrite bind_run.
  change (table_of (SQLAlchemyFacadeRelationManager.the_user_repo
                      sqlalchemy_facade_relation_manager)) with users.
  cbn [datetime_utcnow store_obj]. rewrite bind_run.
  change (SQLAlchemyFacadeRelationManager.the_review_repo
            sqlalchemy_facade_relation_manager) with (select_repo SQLAlchemy reviews).
  assert (Hloop : ∀ w0,
            (match Place.reviews p with
             | [] => ret tt
             | _ :: _ =>
                 for_each (Place.reviews p)
                   (λ review_id, delete (select_repo SQLAlchemy reviews) review_id)
             end) env w0
            = for_each (Place.reviews p)
                (λ review_id, delete (select_repo SQLAlchemy reviews) review_id) env w0)
    by (intros w0; by destruct (Place.reviews p)).
  rewrite Hloop.
  match goal with
  | |- context [for_each ?l ?f env ?w0] =>
      destruct (for_each_delete_reviews_lookup SQLAlchemy l env w0)
        as (w1 & Hfor & Hus & Hps & Hams & _ & _ & Hgone & Hkept)
  end.
  rewrite Hfor. cbn in Hus, Hps, Hams, Hkept.
  change (delete (SQLAlchemyFacadeRelationManager.the_place_repo
                    sqlalchemy_facade_relation_manager))
    with (SQLAlchemyRepository.delete places).
  unfold SQLAlchemyRepository.delete. cbn [rows set_rows places].
  rewrite Hps. cbn [place_repo]. rewrite Hp.
  eexists. split; [reflexivity|]. cbn. rewrite ?Hus, ?Hams, ?Hps. cbn.
  repeat split; try done.
Qed.

Lemma sqlalchemy_cascade_each (user_id : string) (l : list string) :
  ∀ env w (u : User.t),
    NoDup l →
    user_repo w !! user_id = Some u →
    (∀ pid, pid ∈ l →
       str_in_list pid (User.places u) = true ∧
       ∃ p, place_repo w !! pid = Some p ∧ Place.owner_id p = user_id) →
    ∃ w' u',
      for_each l
        (λ place_id,
           SQLAlchemyFacadeRelationManager.delete_place_and_associated_instances
             sqlalchemy_facade_relation_manager place_id) env w = (inr tt, w') ∧
      user_repo w' = <[user_id := u']> (user_repo w) ∧
      amenity_repo w' = amenity_repo w ∧
      (∀ pid, pid ∈ l → place_repo w' !! pid = None) ∧
      (∀ pid, pid ∉ l → place_repo w' !! pid = place_repo w !! pid) ∧
      (∀ rid, review_repo w !! rid = None → review_repo w' !! rid = None) ∧
      (∀ pid p rid, pid ∈ l → place_repo w !! pid = Some p → rid ∈ Place.reviews p →
                    review_repo w' !! rid = None).
Proof.
  induction l as [|x l IH]; intros env w u Hnd Hu Hall.
  { exists w, u. split; [reflexivity|]. rewrite insert_id by done.
    repeat split; try done; by intros ? ?%not_elem_of_nil
      || (intros ? ? ? ?%not_elem_of_nil; done). }
  apply NoDup_cons in Hnd as [Hx Hnd].
  destruct (Hall x (list_elem_of_here _ _)) as (Hin & p & Hp & Howner).
  cbn [for_each]. rewrite bind_run.
  rewrite <- Howner in Hu.
  destruct (sqlalchemy_cascade_run env w x p u Hp Hu Hin)
    as (w1 & -> & Hus1 & Hps1 & Hams1 & Hgone1 & Hkept1).
  rewrite Howner in Hu, Hus1.
  destruct (IH env w1 (User.with_updated_at (utcnow env (clock_calls w))
                         (User.with_places (list_without x (User.places u)) u)))
    as (w' & u' & Hrun & Hus & Hams & Hgone & Hkept & Hnone & Hrev); [done| | |].
  { rewrite Hus1. apply lookup_insert_eq. }
  { intros pid Hpid. destruct (Hall pid (list_elem_of_further _ _ _ Hpid))
      as (Hin' & q & Hq & Hown').
    assert (pid ≠ x) by (intros ->; done).
    split; [cbn; by apply list_without_keeps|].
    exists q. split; [|done]. rewrite Hps1. by rewrite lookup_delete_ne. }
  exists w', u'. split; [exact Hrun|].
  assert (Hnone1 : ∀ rid, review_repo w !! rid = None → review_repo w1 !! rid = None).
  { intros rid Hrid. destruct (decide (rid ∈ Place.reviews p)); [by apply Hgone1|].
    by rewrite Hkept1. }
  repeat split.
  - rewrite Hus, Hus1. apply insert_insert_eq.
  - congruence.
  - intros pid [->|Hpid]%elem_of_cons; [|by apply Hgone].
    rewrite Hkept, Hps1 by done. apply lookup_delete_eq.
  - intros pid [Hne Hpid]%not_elem_of_cons.
    rewrite Hkept, Hps1 by done. by apply lookup_delete_ne.
  - intros rid Hrid. by apply Hnone, Hnone1.
  - intros pid q rid [->|Hpid]%elem_of_cons Hq Hrid.
    + rewrite Hp in Hq. injection Hq as <-. by apply Hnone, Hgone1.
    + apply (Hrev pid q rid); [done| |done].
      assert (pid ≠ x) by (intros ->; done).
      rewrite Hps1. by rewrite lookup_delete_ne.
Qed.

(** X21. Deleting a user with the database manager.  For a stored user
    whose list of places has no repetition and names stored places that
    the user owns: the call returns, the user is gone, every listed place
    is gone with the reviews it listed, the places not listed and the
    amenities are as before. *)
Theorem sqlalchemy_delete_user_cascades env w (user_id : string) (u : User.t) :
  user_repo w !! user_id = Some u →
  NoDup (User.places u) →
  (∀ pid, pid ∈ User.places u →
     ∃ p, place_repo w !! pid = Some p ∧ Place.owner_id p = user_id) →
  ∃ w',
    SQLAlchemyFacadeRelationManager.delete_user_and_associated_instances
      sqlalchemy_facade_relation_manager user_id env w = (inr tt, w') ∧
    user_repo w' = base.delete user_id (user_repo w) ∧
    amenity_repo w' = amenity_repo w ∧
    (∀ pid, pid ∈ User.places u → place_repo w' !! pid = None) ∧
    (∀ pid, pid ∉ User.places u → place_repo w' !! pid = place_repo w !! pid) ∧
    (∀ pid p rid, pid ∈ User.places u → place_repo w !! pid = Some p →
                  rid ∈ Place.reviews p → review_repo w' !! rid = None).
Proof.
  intros Hu Hnd Hall.
  unfold SQLAlchemyFacadeRelationManager.delete_user_and_associated_instances.
  rewrite try_except_reraise, bind_run.
  change (get (SQLAlchemyFacadeRelationManager.the_user_repo
                 sqlalchemy_facade_relation_manager) user_id env w)
    with (inr (B := option User.t) (A := exn) (user_repo w !! user_id), w).
  rewrite Hu. cbv beta iota zeta. rewrite bind_run.
  assert (Hloop : ∀ f w0,
            (match User.places u with
             | [] => ret tt
             | _ :: _ => for_each (User.places u) f
             end) env w0 = for_each (User.places u) f env w0)
    by (intros f w0; by destruct (User.places u)).
  rewrite Hloop.
  destruct (sqlalchemy_cascade_each user_id (User.places u) env w u Hnd Hu)
    as (w1 & u1 & -> & Hus & Hams & Hgone & Hkept & _ & Hrev).
  { intros pid Hpid. split; [by apply str_in_list_In|by apply Hall]. }
  change (delete (SQLAlchemyFacadeRelationManager.the_user_repo
                    sqlalchemy_facade_relation_manager))
    with (SQLAlchemyRepository.delete users).
  unfold SQLAlchemyRepository.delete. cbn [rows set_rows users].
  rewrite Hus, lookup_insert_eq.
  eexists. split; [reflexivity|]. cbn.
  rewrite delete_insert_eq. repeat split; try done.
Qed.

(** ** The loop of the whole-object manager over the live list *)

Lemma for_each_live_S {A : Type} (fuel i : nat) (current : M (list A)) (body : A → M unit) :
  for_each_live (S fuel) i current body
  = bind current (λ l, match l !! i with
                       | None => ret tt
                       | Some x => bind (body x) (λ _, for_each_live fuel (S i) current body)
                       end).
Proof. reflexivity. Qed.

Lemma list_remove_subset (x y : string) (l : list string) :
  y ∈ list_remove x l → y ∈ l.
Proof.
  induction l as [|z l IH]; cbn [list_remove]; [done|].
  destruct (String.eqb x z).
  - apply list_elem_of_further.
  - intros [->|Hy]%elem_of_cons; [apply list_elem_of_here|].
    apply list_elem_of_further. by apply IH.
Qed.

(** A cascade for some other place, whatever its outcome, leaves a user
    whose list begins with [kept] (and holds it only there) with such a
    list, and leaves the place [kept] stored. *)
Lemma cascade_keeps_head (user_id kept : string) (q : Place.t) (x : string) env w r w' :
  x ≠ kept →
  (∃ u t, user_repo w !! user_id = Some u ∧ User.places u = kept :: t ∧ kept ∉ t) →
  place_repo w !! kept = Some q →
  FacadeRelationManager.delete_place_and_associated_instances mgr x env w = (r, w') →
  (∃ u t, user_repo w' !! user_id = Some u ∧ User.places u = kept :: t ∧ kept ∉ t) ∧
  place_repo w' !! kept = Some q.
Proof.
  intros Hne (u & t & Hu & Hpl & Hnin) Hq.
  unfold FacadeRelationManager.delete_place_and_associated_instances.
  rewrite try_except_reraise, bind_run.
  change (get (FacadeRelationManager.the_place_repo mgr) x env w)
    with (inr (B := option Place.t) (A := exn) (place_repo w !! x), w).
  cbv beta iota.
  destruct (place_repo w !! x) as [p|] eqn:Hp; [|intros [= _ <-]; eauto 10].
  cbv zeta. rewrite bind_run.
  change (get (FacadeRelationManager.the_user_repo mgr) (Place.owner_id p) env w)
    with (inr (B := option User.t) (A := exn) (user_repo w !! Place.owner_id p), w).
  cbv beta iota.
  destruct (user_repo w !! Place.owner_id p) as [owner|] eqn:Ho;
    [|intros [= _ <-]; eauto 10].
  rewrite bind_run.
  destruct (str_in_list x (User.places owner)) eqn:Hin; [|intros [= _ <-]; eauto 10].
  rewrite bind_run.
  change (table_of (FacadeRelationManager.the_user_repo mgr)) with users.
  cbn [store_obj].
  change (update (FacadeRelationManager.the_user_repo mgr))
    with (InMemoryRepository.update users).
  match goal with
  | |- context [InMemoryRepository.update users ?k (to_dict ?o) env ?w0] =>
      rewrite (in_memory_update_run users k (to_dict o) env w0 o)
        by (cbn; apply lookup_insert_eq)
  end.
  change (@to_dict User.t User_BaseModel) with User.to_dict.
  (* the owner, as stored from here on *)
  assert (Hlist : ∀ (o' : User.t) (users' : gmap string User.t),
            User.places o' = list_remove x (User.places owner) →
            users' = <[Place.owner_id p := o']> (user_repo w) →
            ∃ u1 t1, users' !! user_id = Some u1 ∧ User.places u1 = kept :: t1 ∧ kept ∉ t1).
  { intros o' users' Hpl' ->.
    destruct (decide (Place.owner_id p = user_id)) as [Heq|Hother].
    - rewrite Heq, lookup_insert_eq. rewrite Heq, Hu in Ho. injection Ho as <-.
      exists o', (list_remove x t). split; [done|]. rewrite Hpl', Hpl.
      cbn [list_remove]. apply String.eqb_neq in Hne as ->.
      split; [done|]. intros Hk. by apply list_remove_subset in Hk.
    - rewrite lookup_insert_ne by done. eauto. }
  destruct (update_items _ _) as [[e|] o'] eqn:Hup;
    apply update_items_user_places in Hup; cbn [User.places User.with_places] in Hup.
  { intros [= _ <-]. cbn. rewrite insert_insert_eq. split; [|done].
    by apply (Hlist o'). }
  destruct (Place.reviews p) as [|rid rids] eqn:Hrev.
  { intros [= _ <-]. cbn. rewrite insert_insert_eq. split; [|done].
    by apply (Hlist (User.with_updated_at (utcnow env (clock_calls w)) o')). }
  rewrite bind_run.
  match goal with
  | |- context [for_each ?l ?f env ?w0] =>
      destruct (for_each_delete_reviews l env w0) as (w1 & Hfor & Hus & Hps & _);
      change (for_each l f env w0)
        with (for_each l (λ review_id, InMemoryRepository.delete reviews review_id)
                env w0)
  end.
  rewrite Hfor. cbn in Hus, Hps. rewrite insert_insert_eq in Hus.
  change (delete (FacadeRelationManager.the_place_repo mgr))
    with (InMemoryRepository.delete places).
  unfold InMemoryRepository.delete. cbn [rows set_rows places].
  destruct (place_repo w1 !! x); intros [= _ <-]; cbn; rewrite ?Hus, ?Hps;
    (split; [by apply (Hlist (User.with_updated_at (utcnow env (clock_calls w)) o'))|]);
    [by rewrite lookup_delete_ne|done].
Qed.

Lemma live_loop_keeps_head (user_id kept : string) (q : Place.t) (fuel : nat) :
  ∀ (i : nat) env w r w',
    (1 ≤ i)%nat →
    (∃ u t, user_repo w !! user_id = Some u ∧ User.places u = kept :: t ∧ kept ∉ t) →
    place_repo w !! kept = Some q →
    for_each_live fuel i (FacadeRelationManager.live_places mgr user_id)
      (λ place_id,
         FacadeRelationManager.delete_place_and_associated_instances mgr place_id)
      env w = (r, w') →
    place_repo w' !! kept = Some q.
Proof.
  induction fuel as [|fuel IH]; intros i env w r w' Hi Hinv Hq.
  { by intros [= _ <-]. }
  cbn [for_each_live]. rewrite bind_run.
  unfold FacadeRelationManager.live_places at 1.
  change (table_of (FacadeRelationManager.the_user_repo mgr)) with users.
  cbn [rows users].
  destruct Hinv as (u & t & Hu & Hpl & Hnin). rewrite Hu, Hpl.
  destruct ((kept :: t) !! i) as [x|] eqn:Hx; [|by intros [= _ <-]].
  assert (x ≠ kept) as Hne.
  { destruct i as [|i]; [lia|]. cbn in Hx. intros ->.
    apply Hnin. by eapply list_elem_of_lookup_2. }
  rewrite bind_run.
  destruct (FacadeRelationManager.delete_place_and_associated_instances mgr x env w)
    as [[e|[]] w1] eqn:Hc;
    apply (cascade_keeps_head user_id kept q) in Hc as [Hinv1 Hq1];
    [|done|by exists u, t|done| |done|by exists u, t|done].
  - by intros [= _ <-].
  - apply IH; [lia|done..].
Qed.

(** X22. Deleting a user with the whole-object manager never reaches the
    second place of the list.  For a stored user whose list begins with
    [first] and [second], [second] occurring nowhere else in it, when
    [first] is a stored place the user owns: whatever the call returns,
    the place [second] is still stored afterwards.  The loop walks the
    list the cascade shortens, so after the round for [first] it looks at
    position 1 of a list that now begins with [second]. *)
Theorem delete_user_in_memory_keeps_second_place env w (user_id first second : string)
    (rest : list string) (u : User.t) (q1 q2 : Place.t) r w' :
  user_repo w !! user_id = Some u →
  User.places u = first :: second :: rest →
  second ≠ first → second ∉ rest →
  place_repo w !! first = Some q1 →
  Place.owner_id q1 = user_id →
  place_repo w !! second = Some q2 →
  FacadeRelationManager.delete_user_and_associated_instances mgr user_id env w = (r, w') →
  place_repo w' !! second = Some q2.
Proof.
  intros Hu Hpl Hne Hnin Hq1 Hown Hq2.
  unfold FacadeRelationManager.delete_user_and_associated_instances.
  rewrite try_except_reraise, bind_run.
  change (get (FacadeRelationManager.the_user_repo mgr) user_id env w)
    with (inr (B := option User.t) (A := exn) (user_repo w !! user_id), w).
  rewrite Hu. cbv beta iota zeta. rewrite bind_run. rewrite Hpl.
  rewrite for_each_live_S, bind_run.
  unfold FacadeRelationManager.live_places at 1.
  change (table_of (FacadeRelationManager.the_user_repo mgr)) with users.
  cbn [rows users]. rewrite Hu, Hpl. cbn [lookup list_lookup].
  rewrite bind_run.
  (* the round for the first place *)
  destruct (FacadeRelationManager.delete_place_and_associated_instances mgr first env w)
    as [r1 w1] eqn:Hc.
  assert (Hafter : place_repo w1 !! second = Some q2 ∧
            (r1 = inr tt →
             ∃ u1 t, user_repo w1 !! user_id = Some u1 ∧
                     User.places u1 = second :: t ∧ second ∉ t)).
  { revert Hc.
    unfold FacadeRelationManager.delete_place_and_associated_instances.
    rewrite try_except_reraise, bind_run.
    change (get (FacadeRelationManager.the_place_repo mgr) first env w)
      with (inr (B := option Place.t) (A := exn) (place_repo w !! first), w).
    rewrite Hq1. cbv beta iota zeta. rewrite bind_run.
    change (get (FacadeRelationManager.the_user_repo mgr) (Place.owner_id q1) env w)
      with (inr (B := option User.t) (A := exn) (user_repo w !! Place.owner_id q1), w).
    rewrite Hown, Hu. cbv beta iota. rewrite Hpl.
    cbn [str_in_list existsb]. rewrite String.eqb_refl. cbn [orb].
    cbn [list_remove]. rewrite String.eqb_refl.
    rewrite bind_run.
    change (table_of (FacadeRelationManager.the_user_repo mgr)) with users.
    rewrite bind_run. cbn [store_obj].
    change (update (FacadeRelationManager.the_user_repo mgr))
      with (InMemoryRepository.update users).
    match goal with
    | |- context [InMemoryRepository.update users ?k (to_dict ?o) env ?w0] =>
        rewrite (in_memory_update_run users k (to_dict o) env w0 o)
          by (cbn; apply lookup_insert_eq)
    end.
    change (@to_dict User.t User_BaseModel) with User.to_dict.
    destruct (update_items _ _) as [[e|] o'] eqn:Hup;
      apply update_items_user_places in Hup; cbn [User.places User.with_places] in Hup.
    { intros [= <- <-]. by split. }
    destruct (Place.reviews q1) as [|rid rids] eqn:Hrev.
    { intros [= <- <-]. by split. }
    rewrite bind_run.
    match goal with
    | |- context [for_each ?l ?f env ?w0] =>
        destruct (for_each_delete_reviews l env w0) as (w2 & Hfor & Hus & Hps & _);
        change (for_each l f env w0)
          with (for_each l (λ review_id, InMemoryRepository.delete reviews review_id)
                  env w0)
    end.
    rewrite Hfor. cbn in Hus, Hps. rewrite insert_insert_eq in Hus.
    change (delete (FacadeRelationManager.the_place_repo mgr))
      with (InMemoryRepository.delete places).
    unfold InMemoryRepository.delete. cbn [rows set_rows places].
    destruct (place_repo w2 !! first); intros [= <- <-]; cbn; rewrite ?Hus, ?Hps;
      (split; [by rewrite ?lookup_delete_ne|]); intros _;
      exists (User.with_updated_at (utcnow env (clock_calls w)) o'), rest;
      rewrite lookup_insert_eq; (split; [done|]); (split; [exact Hup|done]). }
  destruct Hafter as [Hq2' Hinv].
  destruct r1 as [e|[]].
  { by intros [= _ <-]. }
  destruct (Hinv eq_refl) as (u1 & t & Hu1 & Hpl1 & Hnin1).
  destruct (for_each_live _ _ _ _ _ _) as [[e|[]] w2] eqn:Hloop;
    apply (live_loop_keeps_head user_id second q2) in Hloop;
    [|lia|by exists u1, t|done| |lia|by exists u1, t|done].
  - by intros [= _ <-].
  - change (delete (FacadeRelationManager.the_user_repo mgr))
      with (InMemoryRepository.delete users).
    unfold InMemoryRepository.delete. cbn [rows set_rows users].
    destruct (user_repo w2 !! user_id); by intros [= _ <-].
Qed.

(** ** Reviews of a place *)

(** X24. [delete_review_from_place_list], manager of the whole-object
    backends.  On a stored place (with datetime timestamps) that lists the
    identifier: its first occurrence leaves the list, the place is
    stamped, and the review stored under it, if any, is deleted.  When the
    place does not list the identifier the call raises and the review, if
    stored, stays. *)
Theorem delete_review_from_place_list_in_memory env w (review_id place_id : string)
    (p : Place.t) :
  place_repo w !! place_id = Some p →
  (str_in_list review_id (Place.reviews p) = false →
   FacadeRelationManager.delete_review_from_place_list mgr review_id place_id env w
   = (inl (ValueError ("Review with id: " +:+ review_id +:+ " not found")), w))
  ∧
  (str_in_list review_id (Place.reviews p) = true →
   in_range (Place.created_at p) = true →
   in_range (Place.updated_at p) = true →
   ∃ w',
     FacadeRelationManager.delete_review_from_place_list mgr review_id place_id env w
     = (inr tt, w') ∧
     place_repo w' =
       <[place_id := Place.with_updated_at (utcnow env (clock_calls w))
                       (Place.with_reviews (list_remove review_id (Place.reviews p)) p)]>
         (place_repo w) ∧
     review_repo w' = base.delete review_id (review_repo w) ∧
     user_repo w' = user_repo w ∧ amenity_repo w' = amenity_repo w).
Proof.
  intros Hp.
  unfold FacadeRelationManager.delete_review_from_place_list.
  rewrite bind_run.
  change (get (FacadeRelationManager.the_place_repo mgr) place_id env w)
    with (inr (B := option Place.t) (A := exn) (place_repo w !! place_id), w).
  rewrite Hp. cbv beta iota zeta. split.
  - intros ->. by rewrite bind_run.
  - intros Hin Hc Hu. rewrite Hin. rewrite bind_run.
    change (table_of (FacadeRelationManager.the_place_repo mgr)) with places.
    rewrite bind_run. cbn [store_obj].
    change (update (FacadeRelationManager.the_place_repo mgr))
      with (InMemoryRepository.update places).
    change (@to_dict Place.t Place_BaseModel) with Place.to_dict.
    match goal with
    | |- context [InMemoryRepository.update places place_id (Place.to_dict ?q) env ?w0] =>
        rewrite (in_memory_update_run places place_id (Place.to_dict q) env w0 q)
          by (cbn; apply lookup_insert_eq);
        rewrite (update_items_own_place q Hc Hu)
    end.
    change (delete (FacadeRelationManager.the_review_repo mgr))
      with (InMemoryRepository.delete reviews).
    unfold InMemoryRepository.delete.
    cbn [store_obj snd rows set_rows places reviews place_repo with_clock_calls
         clock_calls user_repo amenity_repo review_repo uuid_calls].
    rewrite insert_insert_eq.
    destruct (review_repo w !! review_id) eqn:Hr.
    + eexists. split; [reflexivity|]. by cbn.
    + eexists. split; [reflexivity|]. cbn. by rewrite delete_id.
Qed.

Lemma get_each_run (l : list string) env w :
  FacadeRelationManager.get_each mgr l env w = (inr ((λ rid, review_repo w !! rid) <$> l), w).
Proof.
  induction l as [|rid l IH]; [reflexivity|].
  cbn [FacadeRelationManager.get_each]. rewrite bind_run.
  change (get (FacadeRelationManager.the_review_repo mgr) rid env w)
    with (inr (B := option Review.t) (A := exn) (review_repo w !! rid), w).
  cbv beta iota. rewrite bind_run, IH. reflexivity.
Qed.

(** X25. [get_all_reviews_dict_from_place_reviews_id_list] reads and never
    writes.  For a stored place with at least one identifier in its list
    it returns one entry per identifier, in the order of the list: the
    review stored under it, or [None] where there is none (the entry is
    appended without a test).  An empty list is an error. *)
Theorem reviews_of_place_one_entry_per_id env w (place_id : string) (p : Place.t) :
  place_repo w !! place_id = Some p →
  FacadeRelationManager.get_all_reviews_dict_from_place_reviews_id_list mgr place_id env w
  = (match Place.reviews p with
     | [] => inl (ValueError ("No reviews found for this place: " +:+ place_id))
     | _ :: _ => inr ((λ rid, review_repo w !! rid) <$> Place.reviews p)
     end, w).
Proof.
  intros Hp.
  unfold FacadeRelationManager.get_all_reviews_dict_from_place_reviews_id_list.
  rewrite bind_run.
  change (get (FacadeRelationManager.the_place_repo mgr) place_id env w)
    with (inr (B := option Place.t) (A := exn) (place_repo w !! place_id), w).
  rewrite Hp. cbv beta iota. rewrite bind_run, get_each_run.
  by destruct (Place.reviews p).
Qed.

(** ** Places by amenity *)

Lemma records_with_amenity_run (amenity_name : string) (ps : list Place.t) :
  FacadeRelationManager.records_with_amenity amenity_name (Place.to_dict <$> ps)
  = inr (Place.to_dict <$>
           List.filter (λ p, str_in_list amenity_name (Place.amenities p)) ps).
Proof.
  induction ps as [|p ps IH]; [reflexivity|].
  cbn [fmap list_fmap FacadeRelationManager.records_with_amenity List.filter].
  change (as_list "amenities" (Place.to_dict p)) with (inr (A := exn) (Place.amenities p)).
  cbn [res_bind]. fold (@fmap list _ _ _ Place.to_dict ps). rewrite IH. cbn [res_bind].
  by destruct (str_in_list amenity_name (Place.amenities p)).
Qed.

Lemma places_with_amenity_run env w (amenity_name : string) :
  let stored := (map_to_list (place_repo w)).*2 in
  let found := List.filter (λ p, str_in_list amenity_name (Place.amenities p)) stored in
  FacadeRelationManager.get_all_places_with_specifique_amenity mgr amenity_name env w
  = (match stored, found with
     | [], _ => inl (ValueError "No place found in place_repo")
     | _ :: _, [] =>
         inl (ValueError ("No place found with the amenity: " +:+ amenity_name))
     | _ :: _, _ :: _ => inr (Place.to_dict <$> found)
     end, w).
Proof.
  intros stored found.
  unfold FacadeRelationManager.get_all_places_with_specifique_amenity.
  rewrite bind_run.
  change (PlaceFacade.get_all_places (FacadeRelationManager.place_facade mgr) env w)
    with (inr (A := exn) (Place.to_dict <$> stored), w).
  cbv beta iota.
  destruct stored as [|p ps] eqn:Hs; [reflexivity|].
  change (Place.to_dict <$> p :: ps) with (Place.to_dict p :: (Place.to_dict <$> ps)).
  cbv beta iota. rewrite bind_run. unfold lift at 1.
  change (Place.to_dict p :: (Place.to_dict <$> ps)) with (Place.to_dict <$> p :: ps).
  rewrite records_with_amenity_run. fold found.
  by destruct found.
Qed.

(** X26. [get_all_places_with_specifique_amenity] reads and never writes.
    What it returns is, up to the order, the records of the stored places
    whose list of amenities holds the name, and there is at least one.
    It raises when no stored place lists the name, with one message when
    nothing is stored and another otherwise. *)
Theorem places_with_amenity_spec env w (amenity_name : string) :
  let lists (p : Place.t) := str_in_list amenity_name (Place.amenities p) in
  ∃ r,
    FacadeRelationManager.get_all_places_with_specifique_amenity mgr amenity_name env w
    = (r, w) ∧
    match r with
    | inr l =>
        l ≠ [] ∧
        l ≡ₚ Place.to_dict <$> List.filter lists (map_to_list (place_repo w)).*2
    | inl e =>
        (∀ key p, place_repo w !! key = Some p → lists p = false) ∧
        e = ValueError
              (if decide (place_repo w = ∅) then "No place found in place_repo"
               else "No place found with the amenity: " +:+ amenity_name)
    end.
Proof.
  intros lists. rewrite places_with_amenity_run. cbv zeta.
  destruct ((map_to_list (place_repo w)).*2) as [|p ps] eqn:Hs.
  - apply fmap_nil_inv, map_to_list_empty_iff in Hs.
    eexists. split; [reflexivity|]. cbv beta iota. rewrite Hs.
    split; [intros key q H; by rewrite lookup_empty in H|].
    by rewrite decide_True.
  - destruct (List.filter _ (p :: ps)) as [|q qs] eqn:Hf.
    + eexists. split; [reflexivity|]. cbv beta iota. split.
      * intros key q Hq. apply elem_of_map_to_list in Hq.
        apply (list_elem_of_fmap_2 snd) in Hq. rewrite Hs in Hq.
        apply list_elem_of_In in Hq. cbn [snd] in Hq.
        destruct (lists q) eqn:Hl; [|done].
        assert (In q (List.filter
                        (λ p0, str_in_list amenity_name (Place.amenities p0)) (p :: ps)))
          by (apply filter_In; by split).
        rewrite Hf in H. done.
      * rewrite decide_False; [done|].
        intros Hempty. rewrite Hempty, map_to_list_empty in Hs. done.
    + eexists. split; [reflexivity|]. cbv beta iota. by split.
Qed.

(** ** Deletions that do not cascade *)

(** X27. [delete_place_from_owner_place_list], manager of the whole-object
    backends: for a stored user (with datetime timestamps) who lists the
    place, the first occurrence of the identifier leaves the list, the
    user is stamped and the place container loses what it holds under the
    identifier.  The reviews are not touched, so those of the place stay
    behind; and neither that the place is stored nor that the user owns
    it is checked. *)
Theorem delete_place_from_owner_leaves_reviews env w (place_id user_id : string)
    (u : User.t) :
  user_repo w !! user_id = Some u →
  str_in_list place_id (User.places u) = true →
  in_range (User.created_at u) = true →
  in_range (User.updated_at u) = true →
  ∃ w',
    FacadeRelationManager.delete_place_from_owner_place_list mgr place_id user_id env w
    = (inr tt, w') ∧
    user_repo w' =
      <[user_id := User.with_updated_at (utcnow env (clock_calls w))
                     (User.with_places (list_remove place_id (User.places u)) u)]>
        (user_repo w) ∧
    place_repo w' = base.delete place_id (place_repo w) ∧
    review_repo w' = review_repo w ∧ amenity_repo w' = amenity_repo w.
Proof.
  intros Hu Hin Hc Hup.
  unfold FacadeRelationManager.delete_place_from_owner_place_list.
  rewrite bind_run.
  change (get (FacadeRelationManager.the_user_repo mgr) user_id env w)
    with (inr (B := option User.t) (A := exn) (user_repo w !! user_id), w).
  rewrite Hu. cbv beta iota zeta. rewrite Hin. rewrite bind_run.
  change (table_of (FacadeRelationManager.the_user_repo mgr)) with users.
  rewrite bind_run. cbn [store_obj].
  change (update (FacadeRelationManager.the_user_repo mgr))
    with (InMemoryRepository.update users).
  change (@to_dict User.t User_BaseModel) with User.to_dict.
  match goal with
  | |- context [InMemoryRepository.update users ?k (User.to_dict ?q) env ?w0] =>
      rewrite (in_memory_update_run users k (User.to_dict q) env w0 q)
        by (cbn; apply lookup_insert_eq);
      rewrite (update_items_own_user q Hc Hup)
  end.
  change (delete (FacadeRelationManager.the_place_repo mgr))
    with (InMemoryRepository.delete places).
  unfold InMemoryRepository.delete.
  cbn [store_obj snd rows set_rows places users place_repo with_clock_calls
       clock_calls user_repo amenity_repo review_repo uuid_calls].
  rewrite insert_insert_eq.
  destruct (place_repo w !! place_id) eqn:Hp.
  - eexists. split; [reflexivity|]. by cbn.
  - eexists. split; [reflexivity|]. cbn. by rewrite delete_id.
Qed.

(** X28. The facades delete one object and nothing else, with either class
    of repository.  After [PlaceFacade.delete_place] of a stored place the
    users and the reviews are as before, so its owner still lists it and
    its reviews are still stored; after [UserFacade.delete_user] of a
    stored user the places are as before, so those the user owned are
    still stored. *)
Theorem facade_deletes_do_not_cascade (c : repo_class) env w (key : string) :
  (∀ p, place_repo w !! key = Some p →
        ∃ w', PlaceFacade.delete_place
                {| PlaceFacade.place_repo := select_repo c places |} key env w
              = (inr tt, w') ∧
              place_repo w' = base.delete key (place_repo w) ∧
              user_repo w' = user_repo w ∧ review_repo w' = review_repo w ∧
              amenity_repo w' = amenity_repo w)
  ∧
  (∀ u, user_repo w !! key = Some u →
        ∃ w', UserFacade.delete_user
                {| UserFacade.user_repo := select_repo c users |} key env w
              = (inr tt, w') ∧
              user_repo w' = base.delete key (user_repo w) ∧
              place_repo w' = place_repo w ∧ review_repo w' = review_repo w ∧
              amenity_repo w' = amenity_repo w).
Proof.
  split.
  - intros p Hp. unfold PlaceFacade.delete_place. rewrite bind_run.
    destruct c;
      cbv [get delete select_repo InMemoryRepository.repository
           SQLAlchemyRepository.repository InMemoryRepository.get
           SQLAlchemyRepository.get InMemoryRepository.delete
           SQLAlchemyRepository.delete PlaceFacade.place_repo rows set_rows places];
      rewrite Hp; cbv beta iota; rewrite Hp; eexists; (split; [reflexivity|]); by cbn.
  - intros u Hu. unfold UserFacade.delete_user. rewrite bind_run.
    destruct c;
      cbv [get delete select_repo InMemoryRepository.repository
           SQLAlchemyRepository.repository InMemoryRepository.get
           SQLAlchemyRepository.get InMemoryRepository.delete
           SQLAlchemyRepository.delete UserFacade.user_repo rows set_rows users];
      rewrite Hu; cbv beta iota; rewrite Hu; eexists; (split; [reflexivity|]); by cbn.
Qed.

(** ** The further properties at work on concrete states *)

Lemma titles_unique_empty : titles_unique ∅.
Proof. intros k1 k2 p1 p2 H. by rewrite lookup_empty in H. Qed.

Lemma names_unique_empty : names_unique ∅.
Proof. intros k1 k2 a1 a2 H. by rewrite lookup_empty in H. Qed.

Lemma titles_unique_two_places : titles_unique (place_repo w_two_places).
Proof.
  change (titles_unique (<[loft_id := loft [rev1_id] []]>
                           (<[barn_id := barn [rev2_id] []]> ∅))).
  apply titles_unique_insert; [apply titles_unique_insert|].
  - apply titles_unique_empty.
  - intros k q H. by rewrite lookup_empty in H.
  - intros k q [[_ <-]|[_ H]]%lookup_insert_Some; [discriminate|].
    by rewrite lookup_empty in H.
Qed.

Lemma create_place_range_checks_instance :
  as_num "latitude" (stamped_hut_data 200) = inr (PyFloat 10) ∧
  as_num "longitude" (stamped_hut_data 200) = inr (PyFloat 200) ∧
  (180 < num_value (PyFloat 200))%Q ∧
  ∃ e w',
    PlaceFacade.create_place {| PlaceFacade.place_repo := select_repo InMemory places |}
      (stamped_hut_data 200) env0 w_ann = (inl e, w') ∧
    place_repo w' = place_repo w_ann.
Proof.
  assert (H : (180 < num_value (PyFloat 200))%Q) by (vm_compute; reflexivity).
  split; [reflexivity|]. split; [reflexivity|]. split; [exact H|].
  apply (create_place_range_checks InMemory (stamped_hut_data 200) env0 w_ann
           (PyFloat 10) (PyFloat 200)); [reflexivity|reflexivity|].
  right. right. exact H.
Defined.

Lemma create_place_keeps_titles_unique_instance :
  titles_unique (place_repo w_two_places) ∧
  titles_unique
    (place_repo
       (PlaceFacade.create_place {| PlaceFacade.place_repo := select_repo InMemory places |}
          (stamped_hut_data 10) env0 w_two_places).2).
Proof.
  split; [exact titles_unique_two_places|].
  exact (create_place_keeps_titles_unique InMemory (stamped_hut_data 10) env0 w_two_places
           _ _ titles_unique_two_places (surjective_pairing _)).
Defined.

Lemma create_place_succeeds_instance :
  (∀ key q, place_repo w_ann !! key = Some q → Place.title q ≠ "Hut") ∧
  Place.is_valid
    (Place.mk (nth_uuid 0) (clock 0) (clock 1) "Hut" "By the lake" (PyFloat 55)
              (PyFloat 10) (PyFloat 10) "Ann" ann_id [] [])
  = inr true ∧
  ∃ w',
    PlaceFacade.create_place {| PlaceFacade.place_repo := select_repo InMemory places |}
      (stamped_hut_data 10) env0 w_ann
    = (inr (Place.to_dict
              (Place.mk (nth_uuid 0) (clock 0) (clock 1) "Hut" "By the lake" (PyFloat 55)
                        (PyFloat 10) (PyFloat 10) "Ann" ann_id [] [])), w') ∧
    place_repo w' =
      <[nth_uuid 0 :=
          Place.mk (nth_uuid 0) (clock 0) (clock 1) "Hut" "By the lake" (PyFloat 55)
                   (PyFloat 10) (PyFloat 10) "Ann" ann_id [] []]> (place_repo w_ann) ∧
    user_repo w' = user_repo w_ann ∧ amenity_repo w' = amenity_repo w_ann ∧
    review_repo w' = review_repo w_ann.
Proof.
  assert (Hfree : ∀ key q, place_repo w_ann !! key = Some q → Place.title q ≠ "Hut").
  { intros key q H. change (place_repo w_ann) with (∅ : gmap string Place.t) in H.
    by rewrite lookup_empty in H. }
  assert (Hvalid : Place.is_valid
            (Place.mk (nth_uuid 0) (clock 0) (clock 1) "Hut" "By the lake" (PyFloat 55)
                      (PyFloat 10) (PyFloat 10) "Ann" ann_id [] []) = inr true)
    by (vm_compute; reflexivity).
  split; [exact Hfree|]. split; [exact Hvalid|].
  exact (create_place_succeeds InMemory (stamped_hut_data 10) env0 w_ann
           "Hut" "By the lake" "Ann" ann_id (PyFloat 55) (PyFloat 10) (PyFloat 10) [] []
           eq_refl eq_refl eq_refl eq_refl eq_refl eq_refl eq_refl eq_refl eq_refl
           Hfree Hvalid).
Defined.

Lemma create_amenity_cases_instance :
  names_unique (amenity_repo w_wifi) ∧
  let run := AmenityFacade.create_amenity
               {| AmenityFacade.amenity_repo := select_repo InMemory amenities |}
               [("name", VStr "Sauna")] env0 w_wifi in
  user_repo run.2 = user_repo w_wifi ∧ place_repo run.2 = place_repo w_wifi ∧
  review_repo run.2 = review_repo w_wifi ∧
  ((∃ e, run.1 = inl e ∧ amenity_repo run.2 = amenity_repo w_wifi) ∨
   (∃ a, run.1 = inr (Amenity.to_dict a) ∧
         Amenity.id a = uuid4 env0 (uuid_calls w_wifi) ∧
         as_str "name" [("name", VStr "Sauna")] = inr (Amenity.name a) ∧
         (0 < len (strip (Amenity.name a)) < 50)%nat ∧
         (∀ key b, amenity_repo w_wifi !! key = Some b → Amenity.name b ≠ Amenity.name a) ∧
         amenity_repo run.2 = <[Amenity.id a := a]> (amenity_repo w_wifi))) ∧
  names_unique (amenity_repo run.2).
Proof.
  assert (Hu : names_unique (amenity_repo w_wifi)).
  { change (names_unique (<[wifi_id := wifi]> ∅)).
    apply names_unique_insert; [apply names_unique_empty|].
    intros k b H. by rewrite lookup_empty in H. }
  split; [exact Hu|]. intros run.
  destruct (create_amenity_cases InMemory [("name", VStr "Sauna")] env0 w_wifi
              run.1 run.2 (surjective_pairing run)) as (H1 & H2 & H3 & H4 & H5).
  repeat (split; [assumption|]). exact (H5 Hu).
Defined.

Lemma update_with_own_record_instance :
  user_repo w_two_places !! ann_id = Some (ann [loft_id; barn_id]) ∧
  in_range (User.created_at (ann [loft_id; barn_id])) = true ∧
  in_range (User.updated_at (ann [loft_id; barn_id])) = true ∧
  InMemoryRepository.update users ann_id (User.to_dict (ann [loft_id; barn_id]))
    env0 w_two_places
  = (inr tt,
     set_rows users
       (<[ann_id := User.with_updated_at (utcnow env0 (clock_calls w_two_places))
                      (ann [loft_id; barn_id])]> (user_repo w_two_places))
       (with_clock_calls (S (clock_calls w_two_places)) w_two_places)).
Proof.
  assert (Hu : user_repo w_two_places !! ann_id = Some (ann [loft_id; barn_id]))
    by (vm_compute; reflexivity).
  split; [exact Hu|]. split; [reflexivity|]. split; [reflexivity|].
  exact (proj1 (update_with_own_record env0 w_two_places ann_id)
           (ann [loft_id; barn_id]) Hu eq_refl eq_refl).
Defined.

Lemma update_rewrites_created_at_instance :
  place_repo w_unreviewed !! loft_id = Some (loft [] []) ∧
  in_range (clock 5) = true ∧
  InMemoryRepository.update places loft_id [("created_at", VStr (isoformat (clock 5)))]
    env0 w_unreviewed
  = (inr tt,
     set_rows places
       (<[loft_id := Place.with_updated_at (utcnow env0 (clock_calls w_unreviewed))
                       (Place.with_created_at (clock 5) (loft [] []))]>
          (place_repo w_unreviewed))
       (with_clock_calls (S (clock_calls w_unreviewed)) w_unreviewed)).
Proof.
  assert (Hp : place_repo w_unreviewed !! loft_id = Some (loft [] []))
    by (vm_compute; reflexivity).
  split; [exact Hp|]. split; [reflexivity|].
  exact (update_rewrites_created_at env0 w_unreviewed loft_id (loft [] []) (clock 5)
           Hp eq_refl).
Defined.

Lemma update_is_not_atomic_instance :
  place_repo w_unreviewed !! loft_id = Some (loft [] []) ∧
  (∀ c s', "tomorrow" = String c s' → digit_val c = None) ∧
  ∃ msg,
    InMemoryRepository.update places loft_id
      [("title", VStr "Attic"); ("created_at", VStr "tomorrow")] env0 w_unreviewed
    = (inl (ValueError msg),
       set_rows places
         (<[loft_id := Place.mk loft_id t0 t0 "Attic" "x" (PyFloat 100) (PyFloat 10)
                         (PyFloat 10) "Ann" ann_id [] []]> (place_repo w_unreviewed))
         w_unreviewed).
Proof.
  assert (Hp : place_repo w_unreviewed !! loft_id = Some (loft [] []))
    by (vm_compute; reflexivity).
  assert (Hs : ∀ c s', "tomorrow" = String c s' → digit_val c = None)
    by (intros c s' [= <- _]; reflexivity).
  split; [exact Hp|]. split; [exact Hs|].
  exact (update_is_not_atomic env0 w_unreviewed loft_id (loft [] []) "Attic" "tomorrow"
           Hp Hs).
Defined.

Lemma update_amenity_can_duplicate_a_name_instance :
  odd_id ≠ pool_id ∧
  amenity_repo w_odd_amenity !! odd_id = Some odd ∧
  amenity_repo w_odd_amenity !! pool_id = Some pool ∧
  (0 < len (strip (Amenity.name pool)) < 50)%nat ∧
  ∃ w',
    AmenityFacade.update_amenity
      {| AmenityFacade.amenity_repo := select_repo InMemory amenities |}
      odd_id [("name", VStr "Pool")] env0 w_odd_amenity
    = (inr (Amenity.to_dict (Amenity.mk odd_id t0 (clock 2) "Pool")), w') ∧
    amenity_repo w' !! odd_id = Some (Amenity.mk odd_id t0 (clock 2) "Pool") ∧
    amenity_repo w' !! pool_id = Some pool ∧
    ¬ names_unique (amenity_repo w').
Proof.
  assert (Hne : odd_id ≠ pool_id) by discriminate.
  assert (H1 : amenity_repo w_odd_amenity !! odd_id = Some odd)
    by (vm_compute; reflexivity).
  assert (H2 : amenity_repo w_odd_amenity !! pool_id = Some pool)
    by (vm_compute; reflexivity).
  assert (Hlen : (0 < len (strip (Amenity.name pool)) < 50)%nat)
    by (vm_compute; lia).
  split; [exact Hne|]. split; [exact H1|]. split; [exact H2|]. split; [exact Hlen|].
  exact (update_amenity_can_duplicate_a_name InMemory env0 w_odd_amenity odd_id pool_id
           odd pool Hne H1 H2 Hlen).
Defined.

Lemma update_place_keeps_titles_unique_instance :
  NoDup (hut_data 10).*1 ∧
  titles_unique (place_repo w_two_places) ∧
  titles_unique
    (place_repo
       (PlaceFacade.update_place {| PlaceFacade.place_repo := select_repo InMemory places |}
          loft_id (hut_data 10) env0 w_two_places).2).
Proof.
  assert (Hnd : NoDup (hut_data 10).*1)
    by (apply (bool_decide_unpack _); vm_compute; exact I).
  split; [exact Hnd|]. split; [exact titles_unique_two_places|].
  exact (update_place_keeps_titles_unique InMemory loft_id (hut_data 10) env0 w_two_places
           _ _ Hnd titles_unique_two_places (surjective_pairing _)).
Defined.

Lemma create_review_for_place_spec_instance :
  place_repo w_unreviewed !! loft_id = Some (loft [] []) ∧
  user_repo w_unreviewed !! ann_id = Some (ann [loft_id]) ∧
  Review.is_valid
    (Review.mk (nth_uuid 0) (clock 0) (clock 1) "Nice" (PyInt 4) loft_id "Loft"
               ann_id "Ann" None) = inr true ∧
  ∃ w',
    FacadeRelationManager.create_review_for_place mgr loft_id ann_id
      [("text", VStr "Nice"); ("rating", VNum (PyInt 4))] env0 w_unreviewed
    = (inr (Review.to_dict
              (Review.mk (nth_uuid 0) (clock 0) (clock 1) "Nice" (PyInt 4) loft_id "Loft"
                         ann_id "Ann" None)), w') ∧
    review_repo w' =
      <[nth_uuid 0 := Review.mk (nth_uuid 0) (clock 0) (clock 1) "Nice" (PyInt 4) loft_id
                                "Loft" ann_id "Ann" None]> (review_repo w_unreviewed) ∧
    place_repo w' =
      <[loft_id := Place.with_updated_at (clock 2)
                     (Place.with_reviews ([] ++ [nth_uuid 0]) (loft [] []))]>
        (place_repo w_unreviewed) ∧
    user_repo w' = user_repo w_unreviewed ∧ amenity_repo w' = amenity_repo w_unreviewed.
Proof.
  assert (Hp : place_repo w_unreviewed !! loft_id = Some (loft [] []))
    by (vm_compute; reflexivity).
  assert (Hu : user_repo w_unreviewed !! ann_id = Some (ann [loft_id]))
    by (vm_compute; reflexivity).
  assert (Hvalid : Review.is_valid
            (Review.mk (nth_uuid 0) (clock 0) (clock 1) "Nice" (PyInt 4) loft_id "Loft"
                       ann_id "Ann" None) = inr true) by (vm_compute; reflexivity).
  assert (Hfree : ∀ key q, review_repo w_unreviewed !! key = Some q →
                           Review.id q ≠ uuid4 env0 (uuid_calls w_unreviewed)).
  { intros key q H. change (review_repo w_unreviewed) with (∅ : gmap string Review.t) in H.
    by rewrite lookup_empty in H. }
  split; [exact Hp|]. split; [exact Hu|]. split; [exact Hvalid|].
  exact (proj2 (proj2 (create_review_for_place_spec env0 w_unreviewed loft_id ann_id
                         [("text", VStr "Nice"); ("rating", VNum (PyInt 4))]))
           (loft [] []) (ann [loft_id]) "Nice" (PyInt 4) Hp Hu eq_refl eq_refl
           eq_refl eq_refl Hfree Hvalid).
Defined.

Lemma add_new_amenity_succeeds_instance :
  place_repo w_unreviewed !! loft_id = Some (loft [] []) ∧
  (∀ key b, amenity_repo w_unreviewed !! key = Some b → Amenity.name b ≠ "Sauna") ∧
  ∃ w',
    FacadeRelationManager.add_amenity_to_a_place mgr loft_id [("name", VStr "Sauna")]
      env0 w_unreviewed
    = (inr (Amenity.to_dict (Amenity.mk (nth_uuid 0) (clock 1) (clock 2) "Sauna")), w') ∧
    place_repo w' =
      <[loft_id := Place.with_updated_at (clock 0)
                     (Place.with_amenities ([] ++ ["Sauna"]) (loft [] []))]>
        (place_repo w_unreviewed) ∧
    amenity_repo w' =
      <[nth_uuid 0 := Amenity.mk (nth_uuid 0) (clock 1) (clock 2) "Sauna"]>
        (amenity_repo w_unreviewed) ∧
    user_repo w' = user_repo w_unreviewed ∧ review_repo w' = review_repo w_unreviewed.
Proof.
  assert (Hp : place_repo w_unreviewed !! loft_id = Some (loft [] []))
    by (vm_compute; reflexivity).
  assert (Hfree : ∀ key b, amenity_repo w_unreviewed !! key = Some b →
                           Amenity.name b ≠ "Sauna").
  { intros key b H. change (amenity_repo w_unreviewed) with (∅ : gmap string Amenity.t) in H.
    by rewrite lookup_empty in H. }
  assert (Hlen : (0 < len "Sauna" < 50)%nat) by (vm_compute; lia).
  assert (Hstrip : (0 < len (strip "Sauna") < 50)%nat) by (vm_compute; lia).
  split; [exact Hp|]. split; [exact Hfree|].
  exact (add_new_amenity_succeeds env0 w_unreviewed loft_id [("name", VStr "Sauna")]
           "Sauna" (loft [] []) eq_refl Hp eq_refl Hlen Hstrip eq_refl eq_refl Hfree).
Defined.

Lemma add_amenity_fails_after_the_write_instance :
  place_repo w_wifi !! loft_id = Some (loft [] []) ∧
  (∃ key b, amenity_repo w_wifi !! key = Some b ∧ Amenity.name b = "Wifi") ∧
  ∃ w',
    FacadeRelationManager.add_amenity_to_a_place mgr loft_id [("name", VStr "Wifi")]
      env0 w_wifi
    = (inl (UnboundLocalError "amenity"), w') ∧
    place_repo w' =
      <[loft_id := Place.with_updated_at (clock 0)
                     (Place.with_amenities ([] ++ ["Wifi"]) (loft [] []))]>
        (place_repo w_wifi) ∧
    amenity_repo w' = amenity_repo w_wifi.
Proof.
  assert (Hp : place_repo w_wifi !! loft_id = Some (loft [] []))
    by (vm_compute; reflexivity).
  assert (Hex : ∃ key b, amenity_repo w_wifi !! key = Some b ∧ Amenity.name b = "Wifi").
  { exists wifi_id, wifi. split; [vm_compute; reflexivity|reflexivity]. }
  assert (Hlen : (0 < len "Wifi" < 50)%nat) by (vm_compute; lia).
  split; [exact Hp|]. split; [exact Hex|].
  exact (proj1 (add_amenity_fails_after_the_write env0 w_wifi loft_id
                  [("name", VStr "Wifi")] "Wifi" (loft [] []) eq_refl Hp eq_refl Hlen
                  eq_refl eq_refl) Hex).
Defined.

Lemma add_amenity_conflict_leaves_state_instance :
  place_repo w_odd_amenity !! loft_id = Some (loft [] [pool_id]) ∧
  str_in_list pool_id (Place.amenities (loft [] [pool_id])) = true ∧
  FacadeRelationManager.add_amenity_to_a_place mgr loft_id [("name", VStr pool_id)]
    env0 w_odd_amenity
  = (inl (ValueError ("Amenity: " +:+ pool_id +:+
                      " already exist for this place: " +:+ loft_id)), w_odd_amenity) ∧
  SQLAlchemyFacadeRelationManager.add_amenity_to_a_place
    sqlalchemy_facade_relation_manager loft_id [("name", VStr pool_id)] env0 w_odd_amenity
  = (inl (ValueError ("Amenity: " +:+ pool_id +:+
                      " already exist for this place: " +:+ loft_id)), w_odd_amenity).
Proof.
  assert (Hp : place_repo w_odd_amenity !! loft_id = Some (loft [] [pool_id]))
    by (vm_compute; reflexivity).
  split; [exact Hp|]. split; [reflexivity|].
  exact (proj2 (add_amenity_conflict_leaves_state env0 w_odd_amenity loft_id
                  [("name", VStr pool_id)] pool_id eq_refl)
           (loft [] [pool_id]) Hp eq_refl).
Defined.

Lemma delete_amenity_from_place_list_in_memory_instance :
  place_repo w_odd_amenity !! loft_id = Some (loft [] [pool_id]) ∧
  str_in_list pool_id (Place.amenities (loft [] [pool_id])) = true ∧
  ∃ w',
    FacadeRelationManager.delete_amenity_from_place_list mgr pool_id loft_id
      env0 w_odd_amenity = (inr tt, w') ∧
    place_repo w' =
      <[loft_id := Place.with_updated_at (clock 0)
                     (Place.with_amenities (list_remove pool_id [pool_id])
                        (loft [] [pool_id]))]> (place_repo w_odd_amenity) ∧
    amenity_repo w' = base.delete pool_id (amenity_repo w_odd_amenity) ∧
    user_repo w' = user_repo w_odd_amenity ∧ review_repo w' = review_repo w_odd_amenity.
Proof.
  assert (Hp : place_repo w_odd_amenity !! loft_id = Some (loft [] [pool_id]))
    by (vm_compute; reflexivity).
  split; [exact Hp|]. split; [reflexivity|].
  exact (delete_amenity_from_place_list_in_memory env0 w_odd_amenity pool_id loft_id
           (loft [] [pool_id]) Hp eq_refl eq_refl eq_refl).
Defined.

Lemma delete_amenity_from_place_list_sqlalchemy_instance :
  place_repo w_odd_amenity !! loft_id = Some (loft [] [pool_id]) ∧
  str_in_list pool_id (Place.amenities (loft [] [pool_id])) = true ∧
  ∃ w' p',
    SQLAlchemyFacadeRelationManager.delete_amenity_from_place_list
      sqlalchemy_facade_relation_manager pool_id loft_id env0 w_odd_amenity
    = (inr tt, w') ∧
    place_repo w' = <[loft_id := p']> (place_repo w_odd_amenity) ∧
    Place.amenities p' = list_without pool_id (Place.amenities (loft [] [pool_id])) ∧
    str_in_list pool_id (Place.amenities p') = false ∧
    Place.id p' = Place.id (loft [] [pool_id]) ∧
    Place.reviews p' = Place.reviews (loft [] [pool_id]) ∧
    amenity_repo w' = amenity_repo w_odd_amenity ∧
    user_repo w' = user_repo w_odd_amenity ∧ review_repo w' = review_repo w_odd_amenity.
Proof.
  assert (Hp : place_repo w_odd_amenity !! loft_id = Some (loft [] [pool_id]))
    by (vm_compute; reflexivity).
  split; [exact Hp|]. split; [reflexivity|].
  exact (delete_amenity_from_place_list_sqlalchemy env0 w_odd_amenity pool_id loft_id
           (loft [] [pool_id]) Hp eq_refl).
Defined.

Lemma add_amenity_sqlalchemy_commits_before_validation_instance :
  place_repo w_unreviewed !! loft_id = Some (loft [] []) ∧
  len (strip " ") = 0%nat ∧
  ∃ w' p',
    SQLAlchemyFacadeRelationManager.add_amenity_to_a_place
      sqlalchemy_facade_relation_manager loft_id [("name", VStr " ")] env0 w_unreviewed
    = (inl (ValueError "Name must not be empty and less than 50 characters."), w') ∧
    place_repo w' = <[loft_id := p']> (place_repo w_unreviewed) ∧
    Place.amenities p' = Place.amenities (loft [] []) ++ [" "] ∧
    amenity_repo w' = amenity_repo w_unreviewed.
Proof.
  assert (Hp : place_repo w_unreviewed !! loft_id = Some (loft [] []))
    by (vm_compute; reflexivity).
  assert (Hfree : ∀ key b, amenity_repo w_unreviewed !! key = Some b →
                           Amenity.name b ≠ " ").
  { intros key b H. change (amenity_repo w_unreviewed) with (∅ : gmap string Amenity.t) in H.
    by rewrite lookup_empty in H. }
  split; [exact Hp|]. split; [reflexivity|].
  exact (add_amenity_sqlalchemy_commits_before_validation env0 w_unreviewed loft_id
           [("name", VStr " ")] " " (loft [] []) eq_refl Hp eq_refl Hfree
           (or_introl eq_refl)).
Defined.

Lemma cascade_in_memory_instance :
  place_repo w_two_places !! loft_id = Some (loft [rev1_id] []) ∧
  user_repo w_two_places !! Place.owner_id (loft [rev1_id] [])
  = Some (ann [loft_id; barn_id]) ∧
  str_in_list loft_id (User.places (ann [loft_id; barn_id])) = true ∧
  ∃ w',
    FacadeRelationManager.delete_place_and_associated_instances mgr loft_id
      env0 w_two_places = (inr tt, w') ∧
    user_repo w' =
      <[ann_id := User.with_updated_at (clock 0)
                    (User.with_places (list_remove loft_id [loft_id; barn_id])
                       (ann [loft_id; barn_id]))]> (user_repo w_two_places) ∧
    place_repo w' = base.delete loft_id (place_repo w_two_places) ∧
    review_repo w' !! rev1_id = None.
Proof.
  assert (Hp : place_repo w_two_places !! loft_id = Some (loft [rev1_id] []))
    by (vm_compute; reflexivity).
  assert (Hu : user_repo w_two_places !! Place.owner_id (loft [rev1_id] [])
               = Some (ann [loft_id; barn_id])) by (vm_compute; reflexivity).
  split; [exact Hp|]. split; [exact Hu|]. split; [reflexivity|].
  destruct (cascade_in_memory env0 w_two_places loft_id (loft [rev1_id] [])
              (ann [loft_id; barn_id]) Hp Hu eq_refl eq_refl eq_refl)
    as (r & w' & Hrun & Hus & _ & _ & Hreviewed).
  destruct Hreviewed as (-> & Hps & Hgone & _); [discriminate|].
  exists w'. split; [exact Hrun|]. split; [exact Hus|]. split; [exact Hps|].
  apply Hgone. apply list_elem_of_here.
Defined.

Lemma sqlalchemy_delete_user_cascades_instance :
  user_repo w_two_places !! ann_id = Some (ann [loft_id; barn_id]) ∧
  NoDup (User.places (ann [loft_id; barn_id])) ∧
  ∃ w',
    SQLAlchemyFacadeRelationManager.delete_user_and_associated_instances
      sqlalchemy_facade_relation_manager ann_id env0 w_two_places = (inr tt, w') ∧
    user_repo w' = base.delete ann_id (user_repo w_two_places) ∧
    place_repo w' !! loft_id = None ∧ place_repo w' !! barn_id = None ∧
    review_repo w' !! rev1_id = None ∧ review_repo w' !! rev2_id = None.
Proof.
  assert (Hu : user_repo w_two_places !! ann_id = Some (ann [loft_id; barn_id]))
    by (vm_compute; reflexivity).
  assert (Hnd : NoDup (User.places (ann [loft_id; barn_id])))
    by (apply (bool_decide_unpack _); vm_compute; exact I).
  assert (Hloft : place_repo w_two_places !! loft_id = Some (loft [rev1_id] []))
    by (vm_compute; reflexivity).
  assert (Hbarn : place_repo w_two_places !! barn_id = Some (barn [rev2_id] []))
    by (vm_compute; reflexivity).
  assert (Hall : ∀ pid, pid ∈ User.places (ann [loft_id; barn_id]) →
            ∃ p, place_repo w_two_places !! pid = Some p ∧ Place.owner_id p = ann_id).
  { intros pid Hin. change (pid ∈ [loft_id; barn_id]) in Hin.
    apply elem_of_cons in Hin as [->|Hin]; [by exists (loft [rev1_id] [])|].
    apply elem_of_cons in Hin as [->|Hin]; [by exists (barn [rev2_id] [])|].
    by apply not_elem_of_nil in Hin. }
  split; [exact Hu|]. split; [exact Hnd|].
  destruct (sqlalchemy_delete_user_cascades env0 w_two_places ann_id
              (ann [loft_id; barn_id]) Hu Hnd Hall)
    as (w' & Hrun & Hus & _ & Hgone & _ & Hrev).
  assert (Hl : loft_id ∈ User.places (ann [loft_id; barn_id])) by apply list_elem_of_here.
  assert (Hb : barn_id ∈ User.places (ann [loft_id; barn_id]))
    by apply list_elem_of_further, list_elem_of_here.
  exists w'. split; [exact Hrun|]. split; [exact Hus|].
  split; [by apply Hgone|]. split; [by apply Hgone|].
  split.
  - apply (Hrev loft_id (loft [rev1_id] []) rev1_id Hl Hloft). apply list_elem_of_here.
  - apply (Hrev barn_id (barn [rev2_id] []) rev2_id Hb Hbarn). apply list_elem_of_here.
Defined.

Lemma delete_user_in_memory_keeps_second_place_instance :
  user_repo w_two_places !! ann_id = Some (ann [loft_id; barn_id]) ∧
  barn_id ≠ loft_id ∧
  place_repo w_two_places !! loft_id = Some (loft [rev1_id] []) ∧
  place_repo w_two_places !! barn_id = Some (barn [rev2_id] []) ∧
  place_repo
    (FacadeRelationManager.delete_user_and_associated_instances mgr ann_id
       env0 w_two_places).2 !! barn_id = Some (barn [rev2_id] []).
Proof.
  assert (Hu : user_repo w_two_places !! ann_id = Some (ann [loft_id; barn_id]))
    by (vm_compute; reflexivity).
  assert (Hne : barn_id ≠ loft_id) by discriminate.
  assert (Hloft : place_repo w_two_places !! loft_id = Some (loft [rev1_id] []))
    by (vm_compute; reflexivity).
  assert (Hbarn : place_repo w_two_places !! barn_id = Some (barn [rev2_id] []))
    by (vm_compute; reflexivity).
  split; [exact Hu|]. split; [exact Hne|]. split; [exact Hloft|]. split; [exact Hbarn|].
  exact (delete_user_in_memory_keeps_second_place env0 w_two_places ann_id loft_id barn_id
           [] (ann [loft_id; barn_id]) (loft [rev1_id] []) (barn [rev2_id] []) _ _
           Hu eq_refl Hne (not_elem_of_nil _) Hloft eq_refl Hbarn (surjective_pairing _)).
Defined.

Lemma delete_user_never_out_of_fuel_instance :
  (FacadeRelationManager.delete_user_and_associated_instances mgr ann_id
     env0 w_two_places).1 ≠ inl OutOfFuel.
Proof.
  exact (delete_user_never_out_of_fuel ann_id env0 w_two_places _ _
           (surjective_pairing _)).
Defined.

Lemma delete_review_from_place_list_in_memory_instance :
  place_repo w_two_places !! loft_id = Some (loft [rev1_id] []) ∧
  str_in_list rev1_id (Place.reviews (loft [rev1_id] [])) = true ∧
  ∃ w',
    FacadeRelationManager.delete_review_from_place_list mgr rev1_id loft_id
      env0 w_two_places = (inr tt, w') ∧
    place_repo w' =
      <[loft_id := Place.with_updated_at (clock 0)
                     (Place.with_reviews (list_remove rev1_id [rev1_id])
                        (loft [rev1_id] []))]> (place_repo w_two_places) ∧
    review_repo w' = base.delete rev1_id (review_repo w_two_places) ∧
    user_repo w' = user_repo w_two_places ∧ amenity_repo w' = amenity_repo w_two_places.
Proof.
  assert (Hp : place_repo w_two_places !! loft_id = Some (loft [rev1_id] []))
    by (vm_compute; reflexivity).
  split; [exact Hp|]. split; [reflexivity|].
  exact (proj2 (delete_review_from_place_list_in_memory env0 w_two_places rev1_id loft_id
                  (loft [rev1_id] []) Hp) eq_refl eq_refl eq_refl).
Defined.

Lemma reviews_of_place_one_entry_per_id_instance :
  place_repo w_two_places !! loft_id = Some (loft [rev1_id] []) ∧
  FacadeRelationManager.get_all_reviews_dict_from_place_reviews_id_list mgr loft_id
    env0 w_two_places
  = (inr ((λ rid, review_repo w_two_places !! rid) <$> [rev1_id]), w_two_places).
Proof.
  assert (Hp : place_repo w_two_places !! loft_id = Some (loft [rev1_id] []))
    by (vm_compute; reflexivity).
  split; [exact Hp|].
  exact (reviews_of_place_one_entry_per_id env0 w_two_places loft_id
           (loft [rev1_id] []) Hp).
Defined.

Lemma delete_place_from_owner_leaves_reviews_instance :
  user_repo w_two_places !! ann_id = Some (ann [loft_id; barn_id]) ∧
  str_in_list loft_id (User.places (ann [loft_id; barn_id])) = true ∧
  ∃ w',
    FacadeRelationManager.delete_place_from_owner_place_list mgr loft_id ann_id
      env0 w_two_places = (inr tt, w') ∧
    user_repo w' =
      <[ann_id := User.with_updated_at (clock 0)
                    (User.with_places (list_remove loft_id [loft_id; barn_id])
                       (ann [loft_id; barn_id]))]> (user_repo w_two_places) ∧
    place_repo w' = base.delete loft_id (place_repo w_two_places) ∧
    review_repo w' = review_repo w_two_places ∧
    amenity_repo w' = amenity_repo w_two_places.
Proof.
  assert (Hu : user_repo w_two_places !! ann_id = Some (ann [loft_id; barn_id]))
    by (vm_compute; reflexivity).
  split; [exact Hu|]. split; [reflexivity|].
  exact (delete_place_from_owner_leaves_reviews env0 w_two_places loft_id ann_id
           (ann [loft_id; barn_id]) Hu eq_refl eq_refl eq_refl).
Defined.

Lemma facade_deletes_do_not_cascade_instance :
  place_repo w_two_places !! loft_id = Some (loft [rev1_id] []) ∧
  ∃ w',
    PlaceFacade.delete_place {| PlaceFacade.place_repo := select_repo InMemory places |}
      loft_id env0 w_two_places = (inr tt, w') ∧
    place_repo w' = base.delete loft_id (place_repo w_two_places) ∧
    user_repo w' = user_repo w_two_places ∧ review_repo w' = review_repo w_two_places ∧
    amenity_repo w' = amenity_repo w_two_places.
Proof.
  assert (Hp : place_repo w_two_places !! loft_id = Some (loft [rev1_id] []))
    by (vm_compute; reflexivity).
  split; [exact Hp|].
  exact (proj1 (facade_deletes_do_not_cascade InMemory env0 w_two_places loft_id)
           (loft [rev1_id] []) Hp).
Defined.
